(** * PLM Translator: request validation, translation client, language
      catalog cache and result store, embedded shallowly.

    Python values that reach the code as decoded JSON are modelled by the
    inductive type [json]; Python exceptions by a class tag and a message;
    code that can raise returns in [Exc]. Strings are Rocq strings whose
    characters are read as code points below 256; the values of the
    process environment that go into the database URL are read by their
    bytes. *)

From Stdlib Require Import ZArith List String Ascii Bool Lia QArith.
From Stdlib Require Import Sorting.Sorted Sorting.Permutation.
From Stdlib Require Import Floats.SpecFloat DecimalString OrderedTypeEx.
Import ListNotations.

Set Warnings "-register-all".

Local Open Scope string_scope.
Local Open Scope Z_scope.

(* ================================================================== *)
(** ** Python runtime values                                           *)
(* ================================================================== *)

Module Py.

(** Exception classes the modelled code can meet. [Timeout] and
    [RequestException] stand for [requests.exceptions.Timeout] and the other
    subclasses of [requests.exceptions.RequestException]; [ValueError]
    stands for the class and its subclasses, [UnicodeEncodeError] among
    them; [OtherException] is any further subclass of [Exception]. Every
    class listed derives from [Exception], so [except Exception] catches
    each of them. *)
Inductive exn_class : Type :=
  | AttributeError | TypeError | ValueError | OverflowError
  | KeyError | IndexError | ImportError
  | Timeout | RequestException | OtherException.

Record exn : Type := mkExn { exn_cls : exn_class; exn_str : string }.

Inductive Exc (A : Type) : Type :=
  | Return (a : A)
  | Raise (e : exn).
Arguments Return {A} a.
Arguments Raise {A} e.

Definition bind {A B} (m : Exc A) (k : A -> Exc B) : Exc B :=
  match m with
  | Return a => k a
  | Raise e => Raise e
  end.

Notation "x <- m ;; k" := (bind m (fun x => k))
  (at level 61, m at next level, right associativity).

(** [except (ValueError, TypeError)] and friends: does a handler for the
    listed classes catch [e]? *)
Definition cls_eqb (a b : exn_class) : bool :=
  match a, b with
  | AttributeError, AttributeError | TypeError, TypeError
  | ValueError, ValueError | OverflowError, OverflowError
  | KeyError, KeyError | IndexError, IndexError
  | ImportError, ImportError
  | Timeout, Timeout | RequestException, RequestException
  | OtherException, OtherException => true
  | _, _ => false
  end.

Definition is_instance (e : exn) (classes : list exn_class) : bool :=
  existsb (cls_eqb (exn_cls e)) classes.

(** Decoded JSON, as [json.loads] produces it: [None], [bool], [int],
    [float], [str], [list], and [dict] with its items in insertion order. *)
Inductive json : Type :=
  | JNull
  | JBool (b : bool)
  | JInt (z : Z)
  | JFloat (f : spec_float)
  | JStr (s : string)
  | JArr (l : list json)
  | JObj (o : list (string * json)).

Definition type_name (v : json) : string :=
  match v with
  | JNull => "NoneType"
  | JBool _ => "bool"
  | JInt _ => "int"
  | JFloat _ => "float"
  | JStr _ => "str"
  | JArr _ => "list"
  | JObj _ => "dict"
  end.

(** Python truth value of a decoded JSON value. *)
Definition truthy (v : json) : bool :=
  match v with
  | JNull => false
  | JBool b => b
  | JInt z => negb (z =? 0)
  | JFloat (S754_zero _) => false
  | JFloat _ => true
  | JStr s => negb (String.eqb s "")
  | JArr [] => false
  | JArr _ => true
  | JObj [] => false
  | JObj _ => true
  end.

Fixpoint assoc (k : string) (o : list (string * json)) : option json :=
  match o with
  | [] => None
  | (k', v) :: o' => if String.eqb k k' then Some v else assoc k o'
  end.

Definition no_attribute (v : json) (attr : string) : exn :=
  mkExn AttributeError
        ("'" ++ type_name v ++ "' object has no attribute '" ++ attr ++ "'").

(** [data.get(key, default)]: only a dict has the method. *)
Definition get (data : json) (key : string) (default : json) : Exc json :=
  match data with
  | JObj o => Return (match assoc key o with Some v => v | None => default end)
  | _ => Raise (no_attribute data "get")
  end.

(** [data.get(key)]: the default is [None]. *)
Definition get1 (data : json) (key : string) : Exc json := get data key JNull.

(** [str.isspace] on one character, for code points below 256. *)
Definition isspace (c : ascii) : bool :=
  let n := nat_of_ascii c in
  ((9 <=? n) && (n <=? 13))%nat || ((28 <=? n) && (n <=? 32))%nat
  || (n =? 133)%nat || (n =? 160)%nat.

Fixpoint lstrip (s : string) : string :=
  match s with
  | String c s' => if isspace c then lstrip s' else s
  | EmptyString => EmptyString
  end.

Fixpoint rstrip (s : string) : string :=
  match s with
  | String c s' =>
      match rstrip s' with
      | EmptyString => if isspace c then EmptyString else String c EmptyString
      | r => String c r
      end
  | EmptyString => EmptyString
  end.

Definition str_strip (s : string) : string := rstrip (lstrip s).

(** [v.strip()]: only a str has the method. *)
Definition strip (v : json) : Exc string :=
  match v with
  | JStr s => Return (str_strip s)
  | _ => Raise (no_attribute v "strip")
  end.

(** [sub in s] on two strs. *)
Fixpoint has_substring (sub s : string) : bool :=
  String.prefix sub s ||
  match s with
  | String _ s' => has_substring sub s'
  | EmptyString => false
  end.

Definition is_str (k : string) (v : json) : bool :=
  match v with
  | JStr s => String.eqb s k
  | _ => false
  end.

(** [k in x] for a str [k]: key of a dict, element of a list, substring of
    a str; nothing else is iterable. *)
Definition contains (k : string) (x : json) : Exc bool :=
  match x with
  | JObj o => Return (match assoc k o with Some _ => true | None => false end)
  | JArr l => Return (existsb (is_str k) l)
  | JStr s => Return (has_substring k s)
  | _ => Raise (mkExn TypeError
                  ("argument of type '" ++ type_name x ++ "' is not iterable"))
  end.

Definition not_subscriptable (x : json) : exn :=
  mkExn TypeError ("'" ++ type_name x ++ "' object is not subscriptable").

(** [x[k]] for a str [k]. *)
Definition getitem (x : json) (k : string) : Exc json :=
  match x with
  | JObj o =>
      match assoc k o with
      | Some v => Return v
      | None => Raise (mkExn KeyError ("'" ++ k ++ "'"))
      end
  | JArr _ =>
      Raise (mkExn TypeError "list indices must be integers or slices, not str")
  | JStr _ =>
      Raise (mkExn TypeError "string indices must be integers, not 'str'")
  | _ => Raise (not_subscriptable x)
  end.

(** [x[0]]. The keys of a decoded dict are strs, so [0] is never one. *)
Definition getitem0 (x : json) : Exc json :=
  match x with
  | JArr (v :: _) => Return v
  | JArr [] => Raise (mkExn IndexError "list index out of range")
  | JStr (String c _) => Return (JStr (String c EmptyString))
  | JStr EmptyString => Raise (mkExn IndexError "string index out of range")
  | JObj _ => Raise (mkExn KeyError "0")
  | _ => Raise (not_subscriptable x)
  end.

(** [len(x)]. *)
Definition len (x : json) : Exc Z :=
  match x with
  | JArr l => Return (Z.of_nat (List.length l))
  | JStr s => Return (Z.of_nat (String.length s))
  | JObj o => Return (Z.of_nat (List.length o))
  | _ => Raise (mkExn TypeError
                  ("object of type '" ++ type_name x ++ "' has no len()"))
  end.

(** [x.items()]: only a dict has the method. *)
Definition items (x : json) : Exc (list (string * json)) :=
  match x with
  | JObj o => Return o
  | _ => Raise (no_attribute x "items")
  end.

(** A loop body run over a list, stopping at the first exception. *)
Fixpoint for_each {A B} (f : A -> Exc B) (l : list A) : Exc (list B) :=
  match l with
  | [] => Return []
  | a :: l' => b <- f a ;; bs <- for_each f l' ;; Return (b :: bs)
  end.

(** *** Floats

    A Python float is a binary64 value, here a [spec_float] of precision 53
    and exponent bound 1024. *)

Definition float := spec_float.

Definition prec : Z := 53.
Definition emax : Z := 1024.

Definition nan : float := S754_nan.

(** [float(z)] for an int: the nearest binary64 value, ties to even;
    [OverflowError] when that is beyond the largest finite float. *)
Definition float_of_int (z : Z) : Exc float :=
  match binary_normalize prec emax z 0 false with
  | S754_infinity _ =>
      Raise (mkExn OverflowError "int too large to convert to float")
  | f => Return f
  end.

(** The binary64 value nearest to [m * 10 ^ e10] (ties to even), for
    [0 <= m]; used for decimal literals. For a negative exponent the
    quotient is computed with 64 bits to spare and the position of the
    remainder is handed to the rounding step. *)
Definition dec_to_float (neg : bool) (m e10 : Z) : float :=
  if m =? 0 then S754_zero neg
  else if 0 <=? e10 then
    binary_round prec emax neg (Z.to_pos (m * 10 ^ e10)) 0
  else
    let d := 10 ^ (- e10) in
    let s := Z.log2 d + 64 in
    let n := m * 2 ^ s in
    let q := n / d in
    let r := n mod d in
    let loc := if r =? 0 then loc_Exact else loc_Inexact (Z.compare (2 * r) d) in
    binary_round_aux prec emax neg q (- s) loc.

Definition is_digit (c : ascii) : bool :=
  let n := nat_of_ascii c in ((48 <=? n) && (n <=? 57))%nat.

Definition digit_val (c : ascii) : Z := Z.of_nat (nat_of_ascii c) - 48.

(** Space as [float()] sees it: the ASCII white space of [Py_ISSPACE], and
    the two code points between 127 and 255 that [str.isspace] accepts,
    which the conversion first rewrites to a blank. *)
Definition float_space (c : ascii) : bool :=
  let n := nat_of_ascii c in
  ((9 <=? n) && (n <=? 13))%nat || (n =? 32)%nat
  || (n =? 133)%nat || (n =? 160)%nat.

Definition to_lower (c : ascii) : ascii :=
  let n := nat_of_ascii c in
  if ((65 <=? n) && (n <=? 90))%nat then ascii_of_nat (n + 32) else c.

(** Underscores of a numeric literal: allowed only between two digits;
    [None] when one is misplaced, else the text without them. [prev] is the
    previous character. *)
Fixpoint drop_underscores (prev : ascii) (cs : list ascii)
  : option (list ascii) :=
  match cs with
  | [] => if Ascii.eqb prev "_" then None else Some []
  | c :: cs' =>
      if Ascii.eqb c "_" then
        if is_digit prev then drop_underscores c cs' else None
      else if Ascii.eqb prev "_" && negb (is_digit c) then None
      else option_map (cons c) (drop_underscores c cs')
  end.

Fixpoint lskip (p : ascii -> bool) (cs : list ascii) : list ascii :=
  match cs with
  | c :: cs' => if p c then lskip p cs' else cs
  | [] => []
  end.

Definition trim (p : ascii -> bool) (cs : list ascii) : list ascii :=
  rev (lskip p (rev (lskip p cs))).

(** Longest prefix of digits, folded into a number; returns the value, the
    count of digits read and the rest. *)
Fixpoint read_digits (acc : Z) (n : Z) (cs : list ascii)
  : Z * Z * list ascii :=
  match cs with
  | c :: cs' =>
      if is_digit c then read_digits (10 * acc + digit_val c) (n + 1) cs'
      else (acc, n, cs)
  | [] => (acc, n, [])
  end.

Definition read_sign (cs : list ascii) : bool * list ascii :=
  match cs with
  | "-"%char :: cs' => (true, cs')
  | "+"%char :: cs' => (false, cs')
  | _ => (false, cs)
  end.

(** The optional exponent part: [e] or [E], an optional sign, and at least
    one digit. When what follows the mantissa is not of that shape nothing
    is consumed. *)
Definition read_exponent (cs : list ascii) : Z * list ascii :=
  match cs with
  | c :: cs' =>
      if Ascii.eqb (to_lower c) "e" then
        let '(sg, cs2) := read_sign cs' in
        let '(v, n, rest) := read_digits 0 0 cs2 in
        if n =? 0 then (0, cs) else ((if sg then - v else v), rest)
      else (0, cs)
  | [] => (0, [])
  end.

(** A decimal literal after the sign: digits, an optional point and more
    digits (one digit at least overall), an optional exponent, and nothing
    after it. *)
Definition read_decimal (neg : bool) (cs : list ascii) : option float :=
  let '(ip, ni, cs1) := read_digits 0 0 cs in
  let '(m, nf, cs2) :=
    match cs1 with
    | "."%char :: cs1' => read_digits ip 0 cs1'
    | _ => (ip, 0, cs1)
    end in
  if ni + nf =? 0 then None
  else
    let '(ex, cs3) := read_exponent cs2 in
    match cs3 with
    | [] => Some (dec_to_float neg m (ex - nf))
    | _ => None
    end.

Definition lowered (cs : list ascii) : string :=
  string_of_list_ascii (map to_lower cs).

(** [float(s)] for a str. *)
Definition float_of_str (s : string) : Exc float :=
  let bad := Raise (mkExn ValueError
                      ("could not convert string to float: '" ++ s ++ "'")) in
  match drop_underscores "000" (list_ascii_of_string s) with
  | None => bad
  | Some cs =>
      let '(neg, body) := read_sign (trim float_space cs) in
      let w := lowered body in
      if String.eqb w "inf" || String.eqb w "infinity" then
        Return (S754_infinity neg)
      else if String.eqb w "nan" then Return S754_nan
      else match read_decimal neg body with
           | Some f => Return f
           | None => bad
           end
  end.

(** The most digits [int()] reads from a str: the default of
    [sys.get_int_max_str_digits()]. *)
Definition int_max_str_digits : Z := 4300.

(** [int(s)] for a str: blanks around, a sign, digits with single
    underscores between them; [None] where [int] raises [ValueError], which
    it also does for more than 4300 digits, leading zeros counted, blanks,
    sign and underscores not. *)
Definition int_of_str (s : string) : option Z :=
  match drop_underscores "000" (list_ascii_of_string s) with
  | None => None
  | Some cs =>
      let '(neg, body) := read_sign (trim float_space cs) in
      let '(v, n, rest) := read_digits 0 0 body in
      match rest with
      | [] => if (n =? 0) || (int_max_str_digits <? n) then None
              else Some (if neg then - v else v)
      | _ => None
      end
  end.

(** [float(v)] for a decoded JSON value. *)
Definition to_float (v : json) : Exc float :=
  match v with
  | JFloat f => Return f
  | JInt z => float_of_int z
  | JBool b => Return (if b then binary_normalize prec emax 1 0 false
                       else S754_zero false)
  | JStr s => float_of_str s
  | _ => Raise (mkExn TypeError
                  ("float() argument must be a string or a real number, not '"
                   ++ type_name v ++ "'"))
  end.

(** Comparison of a float with a Python int, which Python carries out on
    the exact values: [f < z] and [f > z]. Both are false for NaN. *)
Definition signed (s : bool) (m : positive) : Z :=
  if s then Z.neg m else Z.pos m.

Definition float_lt_int (f : float) (z : Z) : bool :=
  match f with
  | S754_nan => false
  | S754_infinity s => s
  | S754_zero _ => 0 <? z
  | S754_finite s m e =>
      if 0 <=? e then signed s m * 2 ^ e <? z
      else signed s m <? z * 2 ^ (- e)
  end.

Definition float_gt_int (f : float) (z : Z) : bool :=
  match f with
  | S754_nan => false
  | S754_infinity s => negb s
  | S754_zero _ => z <? 0
  | S754_finite s m e =>
      if 0 <=? e then z <? signed s m * 2 ^ e
      else z * 2 ^ (- e) <? signed s m
  end.

(** The rational a finite float denotes; [None] for NaN and the
    infinities. *)
Definition float_value (f : float) : option Q :=
  match f with
  | S754_nan | S754_infinity _ => None
  | S754_zero _ => Some 0%Q
  | S754_finite s m e =>
      Some (if 0 <=? e then inject_Z (signed s m * 2 ^ e)
            else Qmake (signed s m) (Z.to_pos (2 ^ (- e))))
  end.

(** [str(z)] for an int. *)
Definition str_of_Z (z : Z) : string :=
  DecimalString.NilZero.string_of_int (Z.to_int z).

(** *** The process environment and dict displays *)

(** [os.environ.get(k)]: the value, or [None]. *)
Fixpoint environ_get (k : string) (environ : list (string * string))
  : option string :=
  match environ with
  | [] => None
  | (k', v) :: rest => if String.eqb k k' then Some v else environ_get k rest
  end.

(** Truth value of what [os.environ.get] returned. *)
Definition env_truthy (v : option string) : bool :=
  match v with
  | Some s => negb (String.eqb s "")
  | None => false
  end.

(** [d[k] = v]: a key already there keeps its place and takes the value. *)
Fixpoint dict_set (k : string) (v : json) (o : list (string * json))
  : list (string * json) :=
  match o with
  | [] => [(k, v)]
  | (k', v') :: o' =>
      if String.eqb k k' then (k, v) :: o' else (k', v') :: dict_set k v o'
  end.

(** The items of a dict display [{k1: v1, **d, ...}] entered from left to
    right. *)
Definition dict_update (o items : list (string * json))
  : list (string * json) :=
  fold_left (fun acc kv => dict_set (fst kv) (snd kv) acc) items o.

End Py.

Import Py.

(* ================================================================== *)
(** ** utils.py                                                        *)
(* ================================================================== *)

Module Utils.

(** [len(s) > n] on a str. *)
Definition len_gt (s : string) (n : Z) : bool := n <? Z.of_nat (String.length s).

Definition validate_translation_request (data : json)
  : Exc (bool * option string) :=
  if negb (truthy data) then Return (false, Some "No data provided")
  else
    t <- get data "text" (JStr "") ;;
    source_text <- strip t ;;
    l <- get data "target_language" (JStr "") ;;
    target_language <- strip l ;;
    if negb (truthy (JStr source_text)) then
      Return (false, Some "Please enter text to translate")
    else if negb (truthy (JStr target_language)) then
      Return (false, Some "Please select a target language")
    else if len_gt source_text 5000 then
      Return (false, Some "Text is too long. Maximum 5000 characters allowed.")
    else Return (true, None).

Definition validate_test_result_data (data : json)
  : Exc (bool * option string * option float) :=
  if negb (truthy data) then Return (false, Some "No data provided", None)
  else
    o <- get1 data "outcome" ;;
    if negb (truthy o) then Return (false, Some "Outcome is required", None)
    else
      a <- get1 data "accuracy" ;;
      if negb (truthy a) then Return (false, Some "Accuracy is required", None)
      else
        match (a' <- get1 data "accuracy" ;; to_float a') with
        | Return accuracy =>
            if float_lt_int accuracy 0 || float_gt_int accuracy 100 then
              Return (false, Some "Accuracy must be between 0 and 100", None)
            else Return (true, None, Some accuracy)
        | Raise e =>
            if is_instance e [ValueError; TypeError] then
              Return (false, Some "Accuracy must be a valid number", None)
            else Raise e
        end.

(** What [get_user_info] reads of the machine: [getpass.getuser()],
    [platform.node()], [platform.system()], each a value or the exception
    it raises, and [os.environ]. *)
Record Host : Type := mkHost {
  getuser : Exc string;
  node : Exc string;
  system : Exc string;
  environ : list (string * string)
}.

Definition get_user_info (h : Host) : json :=
  match (current_user <- getuser h ;;
         computer_name <- node h ;;
         platform_system <- system h ;;
         let user_display_name :=
           if String.eqb platform_system "Windows" then
             let full_name :=
               match environ_get "USERNAME" (environ h) with
               | Some v => v
               | None => current_user
               end in
             if truthy (JStr full_name)
                && negb (String.eqb full_name current_user)
             then full_name else current_user
           else current_user in
         let user_info :=
           if negb (env_truthy (environ_get "WEBSITE_SITE_NAME" (environ h)))
           then user_display_name ++ " (" ++ computer_name ++ ")"
           else user_display_name in
         Return (JObj [("user", JStr user_info);
                       ("username", JStr current_user);
                       ("computer", JStr computer_name)])) with
  | Return info => info
  | Raise e =>
      JObj [("user", JStr "Current User");
            ("username", JStr "unknown");
            ("computer", JStr "unknown");
            ("error", JStr ("Limited user info: " ++ exn_str e))]
  end.

Definition get_environment_type (environ : list (string * string)) : string :=
  if env_truthy (environ_get "WEBSITE_SITE_NAME" environ) then "production"
  else if match environ_get "FLASK_ENV" environ with
          | Some v => String.eqb v "development"
          | None => false
          end then "development"
  else if env_truthy (environ_get "TESTING" environ) then "testing"
  else "development".

End Utils.

(* ================================================================== *)
(** ** config.py                                                       *)
(* ================================================================== *)

Module Config.

(** The three class attributes, each the result of [os.environ.get]. *)
Record AzureTranslatorConfig : Type := mkConfig {
  TRANSLATOR_KEY : option string;
  TRANSLATOR_ENDPOINT : option string;
  TRANSLATOR_REGION : option string
}.

(** Truth value of a str-or-None. *)
Definition env_set (v : option string) : bool :=
  match v with
  | Some s => negb (String.eqb s "")
  | None => false
  end.

Definition is_configured (cls : AzureTranslatorConfig) : bool :=
  forallb env_set
    [TRANSLATOR_KEY cls; TRANSLATOR_ENDPOINT cls; TRANSLATOR_REGION cls].

(** *** The database URL

    [os.environ] decodes the bytes of the process environment as UTF-8 with
    the [surrogateescape] handler. In this part a value of the environment
    is held by these bytes, one character of the Rocq string for each: a
    byte that belongs to no UTF-8 sequence is the lone surrogate Python
    puts in its place. An ASCII value is held by its characters, as
    everywhere else. *)

Definition byte_in (lo hi : nat) (c : ascii) : bool :=
  let n := nat_of_ascii c in ((lo <=? n) && (n <=? hi))%nat.

Definition continuation (c : ascii) : bool := byte_in 128 191 c.

(** The second byte that the lead byte of a sequence of three resp. four
    bytes admits: no overlong form, no surrogate, nothing above U+10FFFF. *)
Definition second_of_three (b1 b2 : ascii) : bool :=
  (byte_in 224 224 b1 && byte_in 160 191 b2)
  || ((byte_in 225 236 b1 || byte_in 238 239 b1) && continuation b2)
  || (byte_in 237 237 b1 && byte_in 128 159 b2).

Definition second_of_four (b1 b2 : ascii) : bool :=
  (byte_in 240 240 b1 && byte_in 144 191 b2)
  || (byte_in 241 243 b1 && continuation b2)
  || (byte_in 244 244 b1 && byte_in 128 143 b2).

(** The length of the UTF-8 sequence the bytes start with; 0 when they
    start with none. *)
Definition utf8_sequence (cs : list ascii) : nat :=
  match cs with
  | b1 :: rest1 =>
      if byte_in 0 127 b1 then 1%nat
      else
        match rest1 with
        | b2 :: rest2 =>
            if byte_in 194 223 b1 && continuation b2 then 2%nat
            else
              match rest2 with
              | b3 :: rest3 =>
                  if second_of_three b1 b2 && continuation b3 then 3%nat
                  else
                    match rest3 with
                    | b4 :: _ =>
                        if second_of_four b1 b2 && continuation b3
                           && continuation b4
                        then 4%nat else 0%nat
                    | [] => 0%nat
                    end
              | [] => 0%nat
              end
        | [] => 0%nat
        end
  | [] => 0%nat
  end.

(** A character of a str of the environment: a Unicode scalar value, held
    by its UTF-8 bytes, or the lone surrogate U+DC00 + [b] that stands for
    the byte [b]. *)
Inductive uchar : Type :=
  | Scalar (bytes : list ascii)
  | Surrogate (b : ascii).

(** The str [os.environ] makes of the bytes; [skip] bytes at the front
    belong to the character before. *)
Fixpoint fsdecode (skip : nat) (cs : list ascii) : list uchar :=
  match cs with
  | [] => []
  | b :: rest =>
      match skip with
      | S k => fsdecode k rest
      | O =>
          match utf8_sequence cs with
          | O => Surrogate b :: fsdecode 0 rest
          | S k => Scalar (firstn (S k) cs) :: fsdecode k rest
          end
      end
  end.

Definition hex_lower (n : nat) : ascii :=
  if (n <? 10)%nat then ascii_of_nat (48 + n) else ascii_of_nat (87 + n).

(** [str(e)] of the [UnicodeEncodeError] for [run] surrogates in a row
    from position [pos] on, the first one standing for the byte [b]. *)
Definition surrogates_not_allowed (pos run : Z) (b : ascii) : string :=
  let n := nat_of_ascii b in
  if run =? 1 then
    "'utf-8' codec can't encode character '\udc"
    ++ String (hex_lower (n / 16)) (String (hex_lower (n mod 16)) "")
    ++ "' in position " ++ str_of_Z pos ++ ": surrogates not allowed"
  else
    "'utf-8' codec can't encode characters in position " ++ str_of_Z pos
    ++ "-" ++ str_of_Z (pos + run - 1) ++ ": surrogates not allowed".

Fixpoint surrogate_run (s : list uchar) : Z :=
  match s with
  | Surrogate _ :: s' => 1 + surrogate_run s'
  | _ => 0
  end.

(** [s.encode('utf-8')] on the characters from position [pos] on: the
    bytes, or [UnicodeEncodeError], a [ValueError], at the first
    surrogate. *)
Fixpoint encode_utf8 (pos : Z) (s : list uchar) : Exc (list ascii) :=
  match s with
  | [] => Return []
  | Scalar bytes :: s' =>
      rest <- encode_utf8 (pos + 1) s' ;; Return (bytes ++ rest)%list
  | Surrogate b :: s' =>
      Raise (mkExn ValueError
               (surrogates_not_allowed pos (1 + surrogate_run s') b))
  end.

Definition hex_digit (n : nat) : ascii :=
  if (n <? 10)%nat then ascii_of_nat (48 + n) else ascii_of_nat (55 + n).

(** ['%{:02X}'] of one byte. *)
Definition percent_byte (b : nat) : string :=
  String "%" (String (hex_digit (b / 16)) (String (hex_digit (b mod 16)) "")).

(** The characters [quote] never escapes: letters, digits and [_.-~]. *)
Definition always_safe (c : ascii) : bool :=
  let n := nat_of_ascii c in
  ((65 <=? n) && (n <=? 90))%nat || ((97 <=? n) && (n <=? 122))%nat
  || ((48 <=? n) && (n <=? 57))%nat
  || (n =? 95)%nat || (n =? 46)%nat || (n =? 45)%nat || (n =? 126)%nat.

(** One byte as [quote_plus] writes it: kept when safe, a blank as [+],
    any other escaped. *)
Definition quote_byte (c : ascii) : string :=
  if always_safe c then String c ""
  else if (nat_of_ascii c =? 32)%nat then "+"
  else percent_byte (nat_of_ascii c).

Fixpoint quote_from_bytes (bs : list ascii) : string :=
  match bs with
  | [] => EmptyString
  | b :: bs' => quote_byte b ++ quote_from_bytes bs'
  end.

(** [quote_plus(s)] for a str of the environment: the str is encoded in
    UTF-8, which a lone surrogate makes fail, and its bytes are written
    one by one. *)
Definition quote_plus (s : string) : Exc string :=
  bs <- encode_utf8 0 (fsdecode 0 (list_ascii_of_string s)) ;;
  Return (quote_from_bytes bs).

Definition no_database_message : string :=
  "Azure SQL Database configuration not found. Please set the required environment variables: AZURE_SQL_SERVER, AZURE_SQL_DATABASE, AZURE_SQL_USERNAME, AZURE_SQL_PASSWORD".

(** [ProductionConfig.get_database_url()], over [os.environ]; what it
    prints is not kept. *)
Definition get_database_url (environ : list (string * string)) : Exc string :=
  let is_azure_app_service :=
    match environ_get "WEBSITE_SITE_NAME" environ with
    | Some _ => true
    | None => false
    end in
  let azure_conn_str := environ_get "SQLAZURECONNSTR_DefaultConnection" environ in
  if is_azure_app_service && env_truthy azure_conn_str then
    Return (match azure_conn_str with Some v => v | None => "" end)
  else if env_truthy (environ_get "DATABASE_URL" environ) then
    Return (match environ_get "DATABASE_URL" environ with
            | Some v => v
            | None => ""
            end)
  else
    let azure_server := environ_get "AZURE_SQL_SERVER" environ in
    let azure_database := environ_get "AZURE_SQL_DATABASE" environ in
    let azure_username := environ_get "AZURE_SQL_USERNAME" environ in
    let azure_password := environ_get "AZURE_SQL_PASSWORD" environ in
    match azure_server, azure_database, azure_username, azure_password with
    | Some server, Some database, Some username, Some password =>
        if forallb env_truthy
             [azure_server; azure_database; azure_username; azure_password]
        then
          encoded_username <- quote_plus username ;;
          encoded_password <- quote_plus password ;;
          Return ("mssql+pyodbc://" ++ encoded_username ++ ":"
                  ++ encoded_password ++ "@" ++ server ++ "/" ++ database
                  ++ "?driver=ODBC+Driver+17+for+SQL+Server&Encrypt=yes&TrustServerCertificate=no&Connection+Timeout=30&charset=utf8")
        else Raise (mkExn ValueError no_database_message)
    | _, _, _, _ => Raise (mkExn ValueError no_database_message)
    end.

(** The configuration classes and the dict [config]; the development and
    testing classes hand [get_database_url] on to the production one. *)
Inductive config_class : Type :=
  | DevelopmentConfig | ProductionConfig | TestingConfig.

Definition class_database_url (c : config_class)
           (environ : list (string * string)) : Exc string :=
  match c with
  | ProductionConfig => get_database_url environ
  | DevelopmentConfig => get_database_url environ
  | TestingConfig => get_database_url environ
  end.

Definition config : list (string * config_class) :=
  [("development", DevelopmentConfig);
   ("production", ProductionConfig);
   ("testing", TestingConfig);
   ("default", DevelopmentConfig)].

End Config.

(* ================================================================== *)
(** ** The HTTP client library, as the service uses it                 *)
(* ================================================================== *)

Module Requests.

Inductive method : Type := GET | POST.

Record Request : Type := mkRequest {
  req_method : method;
  req_url : string;
  req_params : list (string * string);
  req_headers : list (string * option string);
  req_json : option json;
  req_timeout : Z
}.

(** A response: its status line, and what [response.json()] gives, a
    decoded value or the decoder's exception. For a body that is no JSON
    the library raises [requests.exceptions.JSONDecodeError], which is a
    [RequestException] (and was a plain [ValueError] before version 2.27
    of the library). *)
Record Response : Type := mkResponse {
  status_code : Z;
  reason : string;
  resp_url : string;
  decoded : Exc json
}.

(** The network: the requests sent so far, and what the [n]-th request
    meets, a response or the exception [requests.get]/[requests.post]
    raises (a timeout, a connection error, ...). *)
Record Net : Type := mkNet {
  calls : list Request;
  reply : nat -> Request -> Exc Response
}.

Definition send (r : Request) (w : Net) : Exc Response * Net :=
  (reply w (List.length (calls w)) r, mkNet (calls w ++ [r])%list (reply w)).

(** [response.raise_for_status()]: an [HTTPError], which is a
    [RequestException], for a status from 400 to 599. *)
Definition raise_for_status (r : Response) : Exc unit :=
  let st := status_code r in
  let msg kind := str_of_Z st ++ " " ++ kind ++ " Error: " ++ reason r
                  ++ " for url: " ++ resp_url r in
  if (400 <=? st) && (st <? 500) then
    Raise (mkExn RequestException (msg "Client"))
  else if (500 <=? st) && (st <? 600) then
    Raise (mkExn RequestException (msg "Server"))
  else Return tt.

End Requests.

Import Requests.

(* ================================================================== *)
(** ** services/translator.py                                          *)
(* ================================================================== *)

Module Translator.

(** One element of the language list, the dict [{"key": .., "text": ..}].
    The key is a key of the provider's mapping, hence a str; the text is
    whatever [value.get('name', key)] gave. *)
Record lang_entry : Type := mkLang { key : string; text : json }.

Record TranslatorService : Type := mkService {
  subscription_key : option string;
  endpoint : option string;
  region : option string;
  languages_cache : option (list lang_entry)
}.

(** [TranslatorService()]. *)
Definition init (cfg : Config.AzureTranslatorConfig) : TranslatorService :=
  mkService (Config.TRANSLATOR_KEY cfg) (Config.TRANSLATOR_ENDPOINT cfg)
            (Config.TRANSLATOR_REGION cfg) None.

Definition sentinel : lang_entry := mkLang "" (JStr "Select Target Language").

Definition _get_fallback_languages : list lang_entry :=
  [ mkLang "" (JStr "Select Target Language");
    mkLang "ar" (JStr "Arabic");
    mkLang "zh" (JStr "Chinese (Simplified)");
    mkLang "da" (JStr "Danish");
    mkLang "nl" (JStr "Dutch");
    mkLang "fi" (JStr "Finnish");
    mkLang "fr" (JStr "French");
    mkLang "de" (JStr "German");
    mkLang "hi" (JStr "Hindi");
    mkLang "it" (JStr "Italian");
    mkLang "ja" (JStr "Japanese");
    mkLang "ko" (JStr "Korean");
    mkLang "no" (JStr "Norwegian");
    mkLang "pl" (JStr "Polish");
    mkLang "pt" (JStr "Portuguese");
    mkLang "ru" (JStr "Russian");
    mkLang "es" (JStr "Spanish");
    mkLang "sv" (JStr "Swedish");
    mkLang "th" (JStr "Thai");
    mkLang "tr" (JStr "Turkish") ].

Definition languages_url : string :=
  "https://api.cognitive.microsofttranslator.com/languages?api-version=3.0&scope=translation".

(** The display name of an entry when it is a str. *)
Definition text_str (e : lang_entry) : option string :=
  match text e with
  | JStr s => Some s
  | _ => None
  end.

Definition text_is_str (e : lang_entry) : bool :=
  match text_str e with Some _ => true | None => false end.

(** [x['text'] < y['text']] on str keys: code point order. *)
Definition text_ltb (x y : lang_entry) : bool :=
  match text_str x, text_str y with
  | Some a, Some b => String.ltb a b
  | _, _ => false
  end.

(** Stable insertion: [x], which stood before every element of [l], goes
    in front of the first element that is not smaller than it. *)
Fixpoint insert_by_text (x : lang_entry) (l : list lang_entry)
  : list lang_entry :=
  match l with
  | [] => [x]
  | y :: l' => if text_ltb y x then y :: insert_by_text x l' else x :: l
  end.

Fixpoint sort_by_text (l : list lang_entry) : list lang_entry :=
  match l with
  | [] => []
  | x :: l' => insert_by_text x (sort_by_text l')
  end.

Section Service.

(** [sorted(l, key=lambda x: x['text'])] when some key is not a str: which
    pairs Python can compare, and in which order its sort compares them,
    is left open. On str keys the order is total, and a stable sort is
    then a function of its input alone. *)
Variable sorted_other_keys : list lang_entry -> Exc (list lang_entry).

Definition sorted_by_text (l : list lang_entry) : Exc (list lang_entry) :=
  if forallb text_is_str l then Return (sort_by_text l)
  else sorted_other_keys l.

(** The body of the [try] of [get_supported_languages], the assignment to
    the cache apart. *)
Definition load_languages (w : Net) : Exc (list lang_entry) * Net :=
  let headers := [("Accept", Some "application/json")] in
  let (r, w') := send (mkRequest GET languages_url [] headers None 10) w in
  (response <- r ;;
   _ <- raise_for_status response ;;
   data <- decoded response ;;
   found <- contains "translation" data ;;
   if found then
     translation <- getitem data "translation" ;;
     pairs <- items translation ;;
     fetched <- for_each (fun '(k, value) =>
                            name <- get value "name" (JStr k) ;;
                            Return (mkLang k name)) pairs ;;
     ordered <- sorted_by_text fetched ;;
     Return (sentinel :: ordered)
   else Raise (mkExn OtherException "Invalid API response structure"),
   w').

(** Truth value of [self.languages_cache]: [None] or a list. *)
Definition cached (self : TranslatorService) : option (list lang_entry) :=
  match languages_cache self with
  | Some (e :: l) => Some (e :: l)
  | _ => None
  end.

Definition set_cache (self : TranslatorService) (l : list lang_entry)
  : TranslatorService :=
  mkService (subscription_key self) (endpoint self) (region self) (Some l).

(** Returns the list, the service object afterwards and the network
    afterwards. The message printed on failure is not kept. *)
Definition get_supported_languages (self : TranslatorService) (w : Net)
  : list lang_entry * TranslatorService * Net :=
  match cached self with
  | Some languages => (languages, self, w)
  | None =>
      match load_languages w with
      | (Return languages, w') => (languages, set_cache self languages, w')
      | (Raise e, w') => (_get_fallback_languages, self, w')
      end
  end.

End Service.

(** *** translate_text *)

Definition failure (msg : string) : json :=
  JObj [("success", JBool false); ("error", JStr msg)].

Definition str_or_None (v : option string) : string :=
  match v with Some s => s | None => "None" end.

(** The body of the [try] of [translate_text]. *)
Definition translate_request (self : TranslatorService)
           (text target_language : string) : Request :=
  mkRequest POST
    (str_or_None (endpoint self) ++ "/translator/text/v3.0/translate")
    [("api-version", "3.0"); ("to", target_language)]
    [("Ocp-Apim-Subscription-Key", subscription_key self);
     ("Ocp-Apim-Subscription-Region", region self);
     ("Content-Type", Some "application/json")]
    (Some (JArr [JObj [("text", JStr text)]]))
    30.

(** [result and len(result) > 0 and 'translations' in result[0]], as a
    condition. *)
Definition has_translations (result : json) : Exc bool :=
  if negb (truthy result) then Return false
  else
    n <- len result ;;
    if negb (0 <? n) then Return false
    else first <- getitem0 result ;; contains "translations" first.

Definition translate_body (self : TranslatorService)
           (text target_language : string) (w : Net) : Exc json * Net :=
  let (r, w') := send (translate_request self text target_language) w in
  (response <- r ;;
   _ <- raise_for_status response ;;
   result <- decoded response ;;
   ok <- has_translations result ;;
   if ok then
     first <- getitem0 result ;;
     translations <- getitem first "translations" ;;
     translation <- getitem0 translations ;;
     translated_text <- getitem translation "text" ;;
     first' <- getitem0 result ;;
     detected <- get first' "detectedLanguage" (JObj []) ;;
     language <- get detected "language" (JStr "auto") ;;
     Return (JObj [("success", JBool true);
                   ("translated_text", translated_text);
                   ("source_language", language);
                   ("target_language", JStr target_language)])
   else Raise (mkExn OtherException "Invalid translation response"),
   w').

Definition not_configured_message : string :=
  "Azure Translator service is not configured. Please set the required environment variables.".

(** The three [except] clauses, in the order of the source. *)
Definition classify (e : exn) : json :=
  if is_instance e [Timeout] then
    failure "Translation request timed out. Please try again."
  else if is_instance e [Timeout; RequestException] then
    failure ("Translation service error: " ++ exn_str e)
  else
    failure ("Translation failed: " ++ exn_str e).

Definition translate_text (cfg : Config.AzureTranslatorConfig)
           (self : TranslatorService) (text target_language : string)
           (w : Net) : json * Net :=
  if negb (Config.is_configured cfg) then (failure not_configured_message, w)
  else
    match translate_body self text target_language w with
    | (Return result, w') => (result, w')
    | (Raise e, w') => (classify e, w')
    end.

End Translator.

(* ================================================================== *)
(** ** models.py                                                       *)
(* ================================================================== *)

Module Models.

(** A [datetime.datetime] as Python stores it, field by field. *)
Record datetime : Type := mkDatetime {
  year : Z; month : Z; day : Z;
  hour : Z; minute : Z; second : Z; microsecond : Z
}.

Definition fields (d : datetime) : list Z :=
  [year d; month d; day d; hour d; minute d; second d; microsecond d].

Fixpoint lex_compare (a b : list Z) : comparison :=
  match a, b with
  | [], [] => Eq
  | [], _ :: _ => Lt
  | _ :: _, [] => Gt
  | x :: a', y :: b' =>
      match x ?= y with
      | Eq => lex_compare a' b'
      | c => c
      end
  end.

(** Order of two [created_at] column values; NULL sorts lowest. *)
Definition created_compare (a b : option datetime) : comparison :=
  match a, b with
  | None, None => Eq
  | None, Some _ => Lt
  | Some _, None => Gt
  | Some x, Some y => lex_compare (fields x) (fields y)
  end.

(** Decimal digits of [z], padded with zeros on the left to [width]. *)
Fixpoint zeros (n : nat) : string :=
  match n with
  | O => ""
  | S n' => String "0" (zeros n')
  end.

Definition pad (width : nat) (z : Z) : string :=
  let digits := str_of_Z z in
  zeros (width - String.length digits) ++ digits.

(** [d.strftime('%Y-%m-%d %H:%M:%S')]; the year is rendered on four
    digits, as every platform does from year 1000 on. *)
Definition strftime (d : datetime) : string :=
  pad 4 (year d) ++ "-" ++ pad 2 (month d) ++ "-" ++ pad 2 (day d) ++ " "
  ++ pad 2 (hour d) ++ ":" ++ pad 2 (minute d) ++ ":" ++ pad 2 (second d).

(** [d.isoformat()] of a naive datetime. *)
Definition isoformat (d : datetime) : string :=
  pad 4 (year d) ++ "-" ++ pad 2 (month d) ++ "-" ++ pad 2 (day d) ++ "T"
  ++ pad 2 (hour d) ++ ":" ++ pad 2 (minute d) ++ ":" ++ pad 2 (second d)
  ++ (if microsecond d =? 0 then "" else "." ++ pad 6 (microsecond d)).

(** One row of [test_results]. *)
Record TestResult : Type := mkTestResult {
  id : Z;
  outcome : string;
  accuracy : float;
  observation : option string;
  tested_by : option string;
  text_to_translate : option string;
  translated_text : option string;
  source_language : option string;
  target_language : option string;
  session_id : option string;
  created_at : option datetime
}.

Definition nullable (v : option string) : json :=
  match v with Some s => JStr s | None => JNull end.

Definition to_dict (self : TestResult) : json :=
  JObj [("id", JInt (id self));
        ("outcome", JStr (outcome self));
        ("accuracy", JFloat (accuracy self));
        ("observation", nullable (observation self));
        ("tested_by", nullable (tested_by self));
        ("text_to_translate", nullable (text_to_translate self));
        ("translated_text", nullable (translated_text self));
        ("source_language", nullable (source_language self));
        ("target_language", nullable (target_language self));
        ("session_id", nullable (session_id self));
        ("created_at", match created_at self with
                       | Some d => JStr (isoformat d)
                       | None => JNull
                       end)].

(** The table, in storage order. *)
Definition Store : Type := list TestResult.

(** [query.filter(TestResult.outcome == value)]. *)
Definition filter_outcome (value : string) (rows : list TestResult)
  : list TestResult :=
  filter (fun r => String.eqb (outcome r) value) rows.

(** [created_at] of [a] is not before that of [b]. *)
Definition created_geb (a b : TestResult) : bool :=
  match created_compare (created_at a) (created_at b) with
  | Lt => false
  | _ => true
  end.

(** One admissible reading of [ORDER BY created_at DESC]: a stable
    insertion sort, which leaves rows of equal [created_at] in storage
    order. *)
Fixpoint insert_desc (x : TestResult) (l : list TestResult)
  : list TestResult :=
  match l with
  | [] => [x]
  | y :: l' => if created_geb x y then x :: l else y :: insert_desc x l'
  end.

Fixpoint stable_order_desc (l : list TestResult) : list TestResult :=
  match l with
  | [] => []
  | x :: l' => insert_desc x (stable_order_desc l')
  end.

(** The [Pagination] object of Flask-SQLAlchemy. *)
Record Pagination : Type := mkPagination {
  items : list TestResult;
  total : Z;
  pages : Z;
  has_next : bool;
  has_prev : bool
}.

(** [query.paginate(page=.., per_page=.., error_out=False)] over the rows
    the query selects, in order. With [error_out=False] a page below 1
    becomes 1 and a page size below 1 becomes 20; [max_per_page] is the
    library's cap on the page size, if it has one. *)
Definition paginate (max_per_page : option Z) (rows : list TestResult)
           (page per_page : Z) : Pagination :=
  let per_page := match max_per_page with
                  | Some m => Z.min per_page m
                  | None => per_page
                  end in
  let page := if page <? 1 then 1 else page in
  let per_page := if per_page <? 1 then 20 else per_page in
  let total := Z.of_nat (List.length rows) in
  let pages := if total =? 0 then 0 else (total + per_page - 1) / per_page in
  mkPagination
    (firstn (Z.to_nat per_page) (skipn (Z.to_nat ((page - 1) * per_page)) rows))
    total pages (page <? pages) (1 <? page).

End Models.

Import Models.

(* ================================================================== *)
(** ** routes/api.py                                                   *)
(* ================================================================== *)

Module Api.

(** A value a worksheet cell is written from. *)
Inductive cell : Type :=
  | CInt (z : Z)
  | CFloat (f : float)
  | CStr (s : string)
  | CNone.

(** The sheet handed to the client: the header, the data rows, and the
    width set for each column. *)
Record Worksheet : Type := mkWorksheet {
  header : list string;
  data_rows : list (list cell);
  widths : list Z
}.

Inductive HttpResponse : Type :=
  | Json (status : Z) (body : json)
  | Attachment (sheet : Worksheet) (mimetype download_name : string).

Definition error_body (msg : string) : json :=
  JObj [("success", JBool false); ("error", JStr msg)].

Definition lang_dict (e : Translator.lang_entry) : json :=
  JObj [("key", JStr (Translator.key e)); ("text", Translator.text e)].

(** The fields [TestResult(...)] is built from in [save_test_results],
    as the Python values the request carried. *)
Record NewTestResult : Type := mkNew {
  new_outcome : json;
  new_accuracy : float;
  new_observation : json;
  new_tested_by : json;
  new_text_to_translate : json;
  new_translated_text : json;
  new_source_language : json;
  new_target_language : json;
  new_session_id : json
}.

(** [request.args.get(k, default, type=int)]: the default when the
    parameter is missing or is not an int. *)
Fixpoint arg (k : string) (args : list (string * string)) : option string :=
  match args with
  | [] => None
  | (k', v) :: args' => if String.eqb k k' then Some v else arg k args'
  end.

Definition arg_int (k : string) (default : Z) (args : list (string * string))
  : Z :=
  match arg k args with
  | Some v => match int_of_str v with Some z => z | None => default end
  | None => default
  end.

Definition optional_cell (v : option string) : cell :=
  match v with Some s => CStr s | None => CNone end.

Definition export_columns : list string :=
  ["ID"; "Text to Translate"; "Translated Text"; "Source Language";
   "Target Language"; "Outcome"; "Observation"; "Accuracy (%)"; "Tested By";
   "Date Created"; "Session ID"].

(** The dict appended to [data] for one result, as its values in column
    order. *)
Definition export_row (result : TestResult) : list cell :=
  [ CInt (id result);
    optional_cell (text_to_translate result);
    optional_cell (translated_text result);
    optional_cell (source_language result);
    optional_cell (target_language result);
    CStr (outcome result);
    optional_cell (observation result);
    CFloat (accuracy result);
    optional_cell (tested_by result);
    CStr (match created_at result with
          | Some d => strftime d
          | None => ""
          end);
    optional_cell (session_id result) ].

Section Routes.

(** The sort of the database behind [order_by(created_at.desc())]. *)
Variable order_by_created_at_desc : list TestResult -> list TestResult.

(** The cap of the pagination library on the page size. *)
Variable max_per_page : option Z.

(** [db.session.add(r); db.session.commit()]: the row as stored, with its
    id and timestamp, and the table afterwards, or the storage error of a
    commit that did not go through, which leaves the table as it was. *)
Variable add_and_commit : Store -> NewTestResult -> Exc (TestResult * Store).

(** [len(str(cell.value))] of the worksheet cell written from a value. *)
Variable shown_length : cell -> Z.

(** Python's [sorted] on language names that are not all strs. *)
Variable sorted_other_keys
  : list Translator.lang_entry -> Exc (list Translator.lang_entry).

Definition get_languages (svc : Translator.TranslatorService) (w : Net)
  : HttpResponse * Translator.TranslatorService * Net :=
  let '(languages, svc', w') :=
    Translator.get_supported_languages sorted_other_keys svc w in
  (Json 200 (JObj [("success", JBool true);
                   ("languages", JArr (map lang_dict languages))]),
   svc', w').

(** [translate]: [data] is what [request.get_json()] returned. The handler
    has no [try]; an exception leaves it. *)
Definition translate (cfg : Config.AzureTranslatorConfig)
           (svc : Translator.TranslatorService) (data : json) (w : Net)
  : Exc HttpResponse * Net :=
  if negb (truthy data) then
    (Return (Json 400 (error_body "No data provided")), w)
  else
    match (t <- get data "text" (JStr "") ;;
           source_text <- strip t ;;
           l <- get data "target_language" (JStr "") ;;
           target_language <- strip l ;;
           Return (source_text, target_language)) with
    | Raise e => (Raise e, w)
    | Return (source_text, target_language) =>
        if negb (truthy (JStr source_text)) then
          (Return (Json 400 (error_body "Please enter text to translate")), w)
        else if negb (truthy (JStr target_language)) then
          (Return (Json 400 (error_body "Please select a target language")), w)
        else if Utils.len_gt source_text 5000 then
          (Return (Json 400 (error_body
             "Text is too long. Maximum 5000 characters allowed.")), w)
        else
          let (result, w') :=
            Translator.translate_text cfg svc source_text target_language w in
          (ok <- getitem result "success" ;;
           if truthy ok then Return (Json 200 result)
           else Return (Json 500 result), w')
    end.

(** The body of the [try] of [save_test_results], with the table as it is
    when the body is left. [reload] is the exception the database raises
    when the committed row is read back for the response ([test_result.id],
    [to_dict()]), if it does: the commit has gone through then. *)
Definition save_body (reload : option exn) (data : json) (uuid4 : string)
           (db : Store) : Exc HttpResponse * Store :=
  if negb (truthy data) then
    (Return (Json 400 (error_body "No data provided")), db)
  else
    match get1 data "outcome" with
    | Raise e => (Raise e, db)
    | Return o =>
    if negb (truthy o) then
      (Return (Json 400 (error_body "Outcome is required")), db)
    else
      match get1 data "accuracy" with
      | Raise e => (Raise e, db)
      | Return a =>
      if negb (truthy a) then
        (Return (Json 400 (error_body "Accuracy is required")), db)
      else
        match (a' <- get1 data "accuracy" ;; to_float a') with
        | Raise e =>
            if is_instance e [ValueError; TypeError] then
              (Return (Json 400 (error_body "Accuracy must be a valid number")),
               db)
            else (Raise e, db)
        | Return accuracy =>
            if float_lt_int accuracy 0 || float_gt_int accuracy 100 then
              (Return (Json 400
                         (error_body "Accuracy must be between 0 and 100")), db)
            else
              match (outcome <- get1 data "outcome" ;;
                     observation <- get1 data "observation" ;;
                     tested_by <- get1 data "testedBy" ;;
                     source_text <- get1 data "sourceText" ;;
                     translated_text <- get1 data "translatedText" ;;
                     source_language <- get data "sourceLanguage" (JStr "auto") ;;
                     target_language <- get1 data "targetLanguage" ;;
                     session_id <- get data "sessionId" (JStr uuid4) ;;
                     Return (mkNew outcome accuracy observation tested_by
                                   source_text translated_text source_language
                                   target_language session_id)) with
              | Raise e => (Raise e, db)
              | Return test_result =>
                  match add_and_commit db test_result with
                  | Raise e => (Raise e, db)
                  | Return (stored, db') =>
                      match reload with
                      | Some e => (Raise e, db')
                      | None =>
                          (Return (Json 200
                             (JObj [("success", JBool true);
                                    ("message",
                                     JStr "Test results saved successfully to database");
                                    ("result_id", JInt (id stored));
                                    ("data", to_dict stored)])), db')
                      end
                  end
              end
        end
      end
    end.

(** [save_test_results]: the two [except] clauses roll the session back,
    which undoes nothing of a commit that has gone through. *)
Definition save_test_results (reload : option exn) (data : json)
           (uuid4 : string) (db : Store) : HttpResponse * Store :=
  match save_body reload data uuid4 db with
  | (Return response, db') => (response, db')
  | (Raise e, db') =>
      if is_instance e [ValueError] then
        (Json 400 (error_body ("Invalid data format: " ++ exn_str e)), db')
      else
        (Json 500 (error_body ("Failed to save test results: " ++ exn_str e)),
         db')
  end.

(** The query of [get_test_results] and its page. *)
Definition list_query (outcome_filter : option string) (db : Store)
  : list TestResult :=
  let query :=
    match outcome_filter with
    | Some v => if truthy (JStr v) then filter_outcome v db else db
    | None => db
    end in
  order_by_created_at_desc query.

Definition results_page (args : list (string * string)) (db : Store)
  : Pagination :=
  let page := arg_int "page" 1 args in
  let per_page := arg_int "per_page" 10 args in
  paginate max_per_page (list_query (arg "outcome" args) db) page per_page.

(** The body of the [try] of [get_test_results]; [storage] is the
    exception the database raises when the query is run, if it does. *)
Definition get_test_results_body (storage : option exn)
           (args : list (string * string)) (db : Store) : Exc HttpResponse :=
  let page := arg_int "page" 1 args in
  let per_page := arg_int "per_page" 10 args in
  match storage with
  | Some e => Raise e
  | None =>
      let pagination := results_page args db in
      let results := map to_dict (items pagination) in
      Return (Json 200
        (JObj [("success", JBool true);
               ("data", JArr results);
               ("pagination",
                JObj [("page", JInt page);
                      ("per_page", JInt per_page);
                      ("total", JInt (total pagination));
                      ("pages", JInt (pages pagination));
                      ("has_next", JBool (has_next pagination));
                      ("has_prev", JBool (has_prev pagination))])]))
  end.

Definition get_test_results (storage : option exn)
           (args : list (string * string)) (db : Store) : HttpResponse :=
  match get_test_results_body storage args db with
  | Return response => response
  | Raise e =>
      Json 500 (error_body ("Failed to retrieve test results: " ++ exn_str e))
  end.

(** The cells of column [j]: the header cell, then one cell per row. *)
Definition column (names : list string) (rows : list (list cell)) (j : nat)
  : list cell :=
  CStr (nth j names "") :: map (fun row => nth j row CNone) rows.

(** The loop over the cells of one column, and the width it sets. *)
Definition max_length (cells : list cell) : Z :=
  fold_left (fun m c => if m <? shown_length c then shown_length c else m)
            cells 0.

Definition adjusted_width (cells : list cell) : Z :=
  Z.min (max_length cells + 2) 50.

Definition xlsx_mimetype : string :=
  "application/vnd.openxmlformats-officedocument.spreadsheetml.sheet".

Definition stamp (d : datetime) : string :=
  pad 4 (year d) ++ pad 2 (month d) ++ pad 2 (day d) ++ "_"
  ++ pad 2 (hour d) ++ pad 2 (minute d) ++ pad 2 (second d).

(** The body of the [try] of [export_test_results]. [now] is
    [datetime.now()]; [imports], [storage] and [writer] are the exceptions
    that the import of pandas, the query and the writing of the workbook
    raise, if they do. *)
Definition export_body (imports storage writer : option exn)
           (now : datetime) (db : Store) : Exc HttpResponse :=
  match imports with
  | Some e => Raise e
  | None =>
  match storage with
  | Some e => Raise e
  | None =>
      let results := order_by_created_at_desc db in
      match results with
      | [] => Return (Json 404
                        (JObj [("error", JStr "No test results to export")]))
      | _ :: _ =>
          let data := map export_row results in
          let names := export_columns in
          match writer with
          | Some e => Raise e
          | None =>
              let ws :=
                mkWorksheet names data
                  (map (fun j => adjusted_width (column names data j))
                       (seq 0 (List.length names))) in
              Return (Attachment ws xlsx_mimetype
                                 ("test_results_" ++ stamp now ++ ".xlsx"))
          end
      end
  end
  end.

Definition export_test_results (imports storage writer : option exn)
           (now : datetime) (db : Store) : HttpResponse :=
  match export_body imports storage writer now db with
  | Return response => response
  | Raise e =>
      if is_instance e [ImportError] then
        Json 500
          (JObj [("error",
                  JStr "Pandas and openpyxl libraries are required for Excel export")])
      else Json 500 (JObj [("error", JStr (exn_str e))])
  end.

(** The body of the [try] of [get_azure_user]; [timestamp] is
    [datetime.now(timezone.utc).isoformat()]. *)
Definition get_azure_user_body (h : Utils.Host) (timestamp : string)
  : Exc HttpResponse :=
  let user_info := Utils.get_user_info h in
  entries <- Py.items user_info ;;
  Return (Json 200
            (JObj (dict_set "timestamp" (JStr timestamp)
                     (dict_update [("success", JBool true)] entries)))).

Definition get_azure_user (h : Utils.Host) (timestamp : string)
  : HttpResponse :=
  match get_azure_user_body h timestamp with
  | Return response => response
  | Raise e =>
      Json 200
        (JObj [("success", JBool true);
               ("user", JStr "Current User");
               ("error", JStr ("Limited user info: " ++ exn_str e));
               ("timestamp", JStr timestamp)])
  end.

(** The body of the [try] of [delete_test_result]; [lookup] and [commit]
    are the exceptions the database raises on [query.get] and on
    [session.commit], if it does. The row is deleted by its primary key. *)
Definition delete_body (lookup commit : option exn) (result_id : Z)
           (db : Store) : Exc HttpResponse * Store :=
  match lookup with
  | Some e => (Raise e, db)
  | None =>
      match find (fun r => id r =? result_id) db with
      | None =>
          (Return (Json 404 (JObj [("error", JStr "Test result not found")])),
           db)
      | Some result =>
          match commit with
          | Some e => (Raise e, db)
          | None =>
              (Return (Json 200
                 (JObj [("message", JStr "Test result deleted successfully")])),
               filter (fun r => negb (id r =? id result)) db)
          end
      end
  end.

Definition delete_test_result (lookup commit : option exn) (result_id : Z)
           (db : Store) : HttpResponse * Store :=
  match delete_body lookup commit result_id db with
  | (Return response, db') => (response, db')
  | (Raise e, _) => (Json 500 (JObj [("error", JStr (exn_str e))]), db)
  end.

End Routes.

End Api.

(* ================================================================== *)
(** ** routes/main.py                                                  *)
(* ================================================================== *)

Module Main.

(** What a template is rendered with. *)
Inductive context : Type :=
  | Languages (languages : list Translator.lang_entry)
  | Results (results : list TestResult)
  | ErrorPage (error_code : Z) (error_message : string).

(** A rendered template, or a plain text body, with the status. *)
Inductive PageResponse : Type :=
  | Rendered (template : string) (ctx : context) (status : Z)
  | Plain (body : string) (status : Z).

Section Pages.

Variable order_by_created_at_desc : list TestResult -> list TestResult.
Variable sorted_other_keys
  : list Translator.lang_entry -> Exc (list Translator.lang_entry).

Definition index (svc : Translator.TranslatorService) (w : Net)
  : PageResponse * Translator.TranslatorService * Net :=
  let '(languages, svc', w') :=
    Translator.get_supported_languages sorted_other_keys svc w in
  (Rendered "translator.html" (Languages languages) 200, svc', w').

(** [view_test_results]; [storage] and [rendering] are the exceptions the
    query and [render_template] raise, if they do. *)
Definition view_test_results (storage rendering : option exn) (db : Store)
  : PageResponse :=
  match (match storage with
         | Some e => Raise e
         | None =>
             let results := firstn 20 (order_by_created_at_desc db) in
             match rendering with
             | Some e => Raise e
             | None => Return (Rendered "test_results.html" (Results results) 200)
             end
         end) with
  | Return page => page
  | Raise e => Plain ("Error loading test results: " ++ exn_str e) 500
  end.

End Pages.

Definition not_found : PageResponse :=
  Rendered "error.html" (ErrorPage 404 "Page not found") 404.

Definition internal_error : PageResponse :=
  Rendered "error.html" (ErrorPage 500 "Internal server error") 500.

End Main.

(* ================================================================== *)
(** ** Notions the properties are stated with                         *)
(* ================================================================== *)

(** A field of a request object read as the validator reads it: the empty
    str when the key is missing, the str when the value is one, and
    nothing when the value is of another type. *)
Definition str_field (o : list (string * json)) (k : string) : option string :=
  match assoc k o with
  | None => Some ""
  | Some (JStr s) => Some s
  | Some _ => None
  end.

(** The result dict of a successful translation. *)
Definition translated (translated_text source_language : json)
           (target_language : string) : json :=
  JObj [("success", JBool true);
        ("translated_text", translated_text);
        ("source_language", source_language);
        ("target_language", JStr target_language)].

(** An exception that neither of the first two [except] clauses of
    [translate_text] catches. *)
Definition falls_through (e : exn) : bool :=
  negb (is_instance e [Timeout; RequestException]).

(** The three [except] clauses of [translate_text] on an exception, by its
    class: a timeout, another exception of the HTTP library with its
    cause, and any other with its cause. *)
Definition answered_by_class (e : exn) (answer : json) : Prop :=
  (exn_cls e = Timeout ->
   answer = Translator.failure
              "Translation request timed out. Please try again.") /\
  (exn_cls e = RequestException ->
   answer = Translator.failure ("Translation service error: " ++ exn_str e)) /\
  (exn_cls e <> Timeout -> exn_cls e <> RequestException ->
   answer = Translator.failure ("Translation failed: " ++ exn_str e)).

(** The response shape the provider documents, and what is taken from it:
    an array whose first element is an object with a [translations] array,
    whose first element is an object with a [text]; the source language is
    the [language] of the object [detectedLanguage], "auto" when either is
    missing. *)
Definition expected_translation (result : json) : option (json * json) :=
  match result with
  | JArr (JObj first :: _) =>
      match assoc "translations" first with
      | Some (JArr (JObj translation :: _)) =>
          match assoc "text" translation with
          | Some translated_text =>
              match assoc "detectedLanguage" first with
              | None => Some (translated_text, JStr "auto")
              | Some (JObj detected) =>
                  Some (translated_text,
                        match assoc "language" detected with
                        | Some language => language
                        | None => JStr "auto"
                        end)
              | Some _ => None
              end
          | None => None
          end
      | _ => None
      end
  | _ => None
  end.

(** The request [get_supported_languages] sends. *)
Definition languages_request : Request :=
  mkRequest GET Translator.languages_url []
            [("Accept", Some "application/json")] None 10.

Definition is_object (v : json) : bool :=
  match v with JObj _ => true | _ => false end.

(** An item of the provider's [translation] mapping of the documented
    shape: the value is an object whose [name], if present, is a str. *)
Definition well_formed_language (kv : string * json) : bool :=
  match snd kv with
  | JObj f => match assoc "name" f with
              | None | Some (JStr _) => true
              | Some _ => false
              end
  | _ => false
  end.

(** The entry built from such an item: its code and its display name, the
    code standing in for a missing name. *)
Definition entry_of (kv : string * json) : Translator.lang_entry :=
  Translator.mkLang (fst kv)
    (match snd kv with
     | JObj f => match assoc "name" f with
                 | Some n => n
                 | None => JStr (fst kv)
                 end
     | _ => JStr (fst kv)
     end).

(** [x] is listed before [y] rightly: both display names are strs, and the
    first is not above the second in code point order. *)
Definition name_le (x y : Translator.lang_entry) : Prop :=
  exists a b, Translator.text x = JStr a /\ Translator.text y = JStr b /\
              String.leb a b = true.

(** [n] calls in a row: the lists returned, the service and the network
    at the end. *)
Fixpoint call_repeatedly
         (sorted_other_keys
            : list Translator.lang_entry -> Exc (list Translator.lang_entry))
         (n : nat) (self : Translator.TranslatorService) (w : Net)
  : list (list Translator.lang_entry) * Translator.TranslatorService * Net :=
  match n with
  | O => ([], self, w)
  | S n' =>
      let '(languages, self', w') :=
        Translator.get_supported_languages sorted_other_keys self w in
      let '(more, self'', w'') :=
        call_repeatedly sorted_other_keys n' self' w' in
      (languages :: more, self'', w'')
  end.

(** [created_at] of [a] is not before that of [b]. *)
Definition created_ge (a b : TestResult) : Prop := created_geb a b = true.

(** What [ORDER BY created_at DESC] promises of its result: the same rows,
    none before a row with a later [created_at]. The order of rows with
    equal [created_at] is the database's choice. *)
Definition orders_by_created_at_desc
           (order : list TestResult -> list TestResult) : Prop :=
  forall rows, Permutation rows (order rows) /\
               StronglySorted created_ge (order rows).

(** The order C1 states: [created_at] descending, and [id] descending
    among rows of equal [created_at]. *)
Definition created_then_id_desc (a b : TestResult) : Prop :=
  created_compare (created_at a) (created_at b) = Gt \/
  (created_compare (created_at a) (created_at b) = Eq /\ id b < id a).

Definition sample_time : datetime := mkDatetime 2024 5 17 9 30 0 0.

Definition sample_row (n : Z) (d : datetime) : TestResult :=
  mkTestResult n "Success" (S754_finite false 6720215068966912 (-46))
               None None None None (Some "auto") None None (Some d).

(** [s] is [z] written on exactly [n] decimal digits. *)
Definition digits_of (n : nat) (s : string) (z : Z) : bool :=
  (String.length s =? n)%nat
  && forallb is_digit (list_ascii_of_string s)
  && match int_of_str s with
     | Some v => v =? z
     | None => false
     end.

(** [s] reads [YYYY-MM-DD HH:MM:SS] for the fields of [d]. *)
Definition date_created_format (s : string) (d : datetime) : Prop :=
  exists y mo dd hh mi ss : string,
    s = y ++ "-" ++ mo ++ "-" ++ dd ++ " " ++ hh ++ ":" ++ mi ++ ":" ++ ss /\
    digits_of 4 y (year d) = true /\
    digits_of 2 mo (month d) = true /\
    digits_of 2 dd (day d) = true /\
    digits_of 2 hh (hour d) = true /\
    digits_of 2 mi (minute d) = true /\
    digits_of 2 ss (second d) = true.

(** The dates the store holds: the field ranges of a Python datetime, from
    year 1000 on. *)
Definition valid_datetime (d : datetime) : Prop :=
  1000 <= year d <= 9999 /\ 1 <= month d <= 12 /\ 1 <= day d <= 31 /\
  0 <= hour d <= 23 /\ 0 <= minute d <= 59 /\ 0 <= second d <= 59.

(** A provider that answers every request with status 200 and [body]. *)
Definition answering (body : json) : Net :=
  mkNet [] (fun _ r => Return (mkResponse 200 "OK" (req_url r) (Return body))).

Definition configured : Config.AzureTranslatorConfig :=
  Config.mkConfig (Some "key") (Some "https://host") (Some "westeurope").

(** The validator accepts the payload, with an accuracy that denotes
    exactly the integer [z]. *)
Definition accepted_as (data : json) (z : Z) : bool :=
  match Utils.validate_test_result_data data with
  | Return (true, None, Some f) =>
      match float_value f with
      | Some q => Qeq_bool q (inject_Z z)
      | None => false
      end
  | _ => false
  end.

Definition first_char (s : string) : option ascii :=
  match s with
  | String c _ => Some c
  | EmptyString => None
  end.

Fixpoint last_char (s : string) : option ascii :=
  match s with
  | EmptyString => None
  | String c EmptyString => Some c
  | String _ s' => last_char s'
  end.

(** No white space at either end of [s]. *)
Definition trimmed (s : string) : Prop :=
  (forall c, first_char s = Some c -> isspace c = false) /\
  (forall c, last_char s = Some c -> isspace c = false).

(** The cache of the service is empty or holds a list that starts with
    the sentinel. *)
Definition cache_ok (self : Translator.TranslatorService) : Prop :=
  match Translator.languages_cache self with
  | None => True
  | Some l => exists rest, l = Translator.sentinel :: rest
  end.

(** The answer of [save_test_results] to an exception that left its
    [try] body. *)
Definition save_failed (e : exn) : Api.HttpResponse :=
  if is_instance e [ValueError] then
    Api.Json 400 (Api.error_body ("Invalid data format: " ++ exn_str e))
  else
    Api.Json 500 (Api.error_body ("Failed to save test results: " ++ exn_str e)).

(** The page size [paginate] works with: the size asked for, capped, and
    20 when that is below 1. *)
Definition page_size (max_per_page : option Z) (per_page : Z) : Z :=
  let capped := match max_per_page with
                | Some m => Z.min per_page m
                | None => per_page
                end in
  if capped <? 1 then 20 else capped.

(** The rows the list query selects before they are ordered. *)
Definition selected (outcome_filter : option string) (db : Store)
  : list TestResult :=
  match outcome_filter with
  | Some v => if String.eqb v "" then db else filter_outcome v db
  | None => db
  end.

(** [config[name]]: the class, or nothing where Python raises
    [KeyError]. *)
Fixpoint config_lookup (name : string)
         (d : list (string * Config.config_class))
  : option Config.config_class :=
  match d with
  | [] => None
  | (k, c) :: d' => if String.eqb name k then Some c else config_lookup name d'
  end.

(** The bytes [s] are UTF-8: the str of the environment they stand for
    holds no lone surrogate. *)
Definition is_scalar (c : Config.uchar) : bool :=
  match c with
  | Config.Scalar _ => true
  | Config.Surrogate _ => false
  end.

Definition well_formed_utf8 (s : string) : bool :=
  forallb is_scalar (Config.fsdecode 0 (list_ascii_of_string s)).

(** The URL [get_database_url] builds from the components. *)
Definition components_url (u p server database : string) : string :=
  "mssql+pyodbc://" ++ u ++ ":" ++ p ++ "@" ++ server ++ "/" ++ database
  ++ "?driver=ODBC+Driver+17+for+SQL+Server&Encrypt=yes&TrustServerCertificate=no&Connection+Timeout=30&charset=utf8".

(** Every character of [s] is one [quote_plus] may produce: an always-safe
    one, [+] or [%]. *)
Definition escaped (s : string) : bool :=
  forallb (fun c => Config.always_safe c || Ascii.eqb c "+" || Ascii.eqb c "%")
          (list_ascii_of_string s).

(** [s] holds none of the characters that delimit the parts of a URL. *)
Definition delimiter_free (s : string) : bool :=
  forallb (fun c => negb (existsb (Ascii.eqb c)
                            [":"; "@"; "/"; "?"; "#"; "&"; "="; " "]%char))
          (list_ascii_of_string s).

(* ================================================================== *)
(** ** Request validation                                              *)
(* ================================================================== *)

Lemma get_str_field (o : list (string * json)) (k s : string) :
  str_field o k = Some s ->
  (v <- get (JObj o) k (JStr "") ;; strip v) = Return (str_strip s).
Proof.
  unfold str_field, get; cbn.
  destruct (assoc k o) as [[ | | | | t | | ] | ]; intros H;
    try discriminate; inversion H; subst; reflexivity.
Qed.

(** C3, as stated, fails: with an empty text the first failing check is the
    one on the text, yet a target language that is not a str makes the
    validator raise before any message is returned. *)
Lemma validate_translation_request_raises :
  let payload := JObj [("text", JStr ""); ("target_language", JInt 5)] in
  get payload "text" (JStr "") = Return (JStr "") /\
  str_strip "" = "" /\
  Utils.validate_translation_request payload
  = Raise (mkExn AttributeError "'int' object has no attribute 'strip'") /\
  Utils.validate_translation_request payload
  <> Return (false, Some "Please enter text to translate").
Proof. cbv zeta. repeat split. discriminate. Qed.

(** C3, amended: a payload that is falsy is answered 'No data provided';
    a request object whose [text] and [target_language] are each missing or
    a str is answered with the message of the first failing check, in the
    order trimmed text empty, trimmed target language empty, trimmed text
    longer than 5000 characters, and accepted when none fails. *)
Theorem validate_translation_request_first_failure :
  (forall data : json,
      truthy data = false ->
      Utils.validate_translation_request data
      = Return (false, Some "No data provided"))
  /\
  (forall (o : list (string * json)) (text lang : string),
      truthy (JObj o) = true ->
      str_field o "text" = Some text ->
      str_field o "target_language" = Some lang ->
      Utils.validate_translation_request (JObj o)
      = Return
          (if String.eqb (str_strip text) "" then
             (false, Some "Please enter text to translate")
           else if String.eqb (str_strip lang) "" then
             (false, Some "Please select a target language")
           else if (5000 <? Z.of_nat (String.length (str_strip text))) then
             (false, Some "Text is too long. Maximum 5000 characters allowed.")
           else (true, None))).
Proof.
  split.
  - intros data H. unfold Utils.validate_translation_request.
    rewrite H. reflexivity.
  - intros o text lang Ht Hx Hl.
    unfold Utils.validate_translation_request. rewrite Ht. cbn [negb].
    pose proof (get_str_field o "text" text Hx) as E1.
    pose proof (get_str_field o "target_language" lang Hl) as E2.
    unfold bind in *.
    destruct (get (JObj o) "text" (JStr "")) as [t | e]; [ | discriminate ].
    rewrite E1.
    destruct (get (JObj o) "target_language" (JStr "")) as [l | e];
      [ | discriminate ].
    rewrite E2. cbn [truthy]. unfold Utils.len_gt.
    destruct (String.eqb (str_strip text) ""); cbn [negb]; [ reflexivity | ].
    destruct (String.eqb (str_strip lang) ""); cbn [negb]; [ reflexivity | ].
    destruct (5000 <? _); reflexivity.
Qed.

Lemma validate_translation_request_first_failure_witness :
  Utils.validate_translation_request (JObj [])
  = Return (false, Some "No data provided") /\
  Utils.validate_translation_request
    (JObj [("text", JStr " Hello "); ("target_language", JStr "")])
  = Return (false, Some "Please select a target language").
Proof.
  split.
  - exact (proj1 validate_translation_request_first_failure
             (JObj []) eq_refl).
  - exact (proj2 validate_translation_request_first_failure
             [("text", JStr " Hello "); ("target_language", JStr "")]
             " Hello " "" eq_refl eq_refl eq_refl).
Defined.

(** What a float accepted by the range test can be: NaN, for which both
    comparisons are false, or a value from 0 to 100. *)
Lemma range_test_passed (f : float) :
  float_lt_int f 0 || float_gt_int f 100 = false ->
  f = S754_nan \/
  exists q, float_value f = Some q /\ (0 <= q)%Q /\ (q <= 100)%Q.
Proof.
  intros H. apply orb_false_elim in H. destruct H as [Hlt Hgt].
  destruct f as [s | s | | s m e];
    cbn [float_lt_int float_gt_int float_value] in *.
  - right. exists 0%Q. repeat split; [ apply Qle_refl | discriminate ].
  - destruct s; discriminate.
  - now left.
  - right. destruct (0 <=? e) eqn:He.
    + eexists; split; [ reflexivity | ].
      apply Z.ltb_ge in Hlt. apply Z.ltb_ge in Hgt.
      unfold Qle; cbn. lia.
    + eexists; split; [ reflexivity | ].
      apply Z.ltb_ge in Hlt. apply Z.ltb_ge in Hgt.
      apply Z.leb_gt in He.
      assert (Hp : 0 < 2 ^ (- e)) by (apply Z.pow_pos_nonneg; lia).
      unfold Qle; cbn [Qnum Qden inject_Z].
      rewrite Z2Pos.id by lia. lia.
Qed.

(** Every accepted accuracy is NaN or lies between 0 and 100. *)
Lemma accepted_accuracy (data : json) (msg : option string) (acc : float) :
  Utils.validate_test_result_data data = Return (true, msg, Some acc) ->
  acc = S754_nan \/
  exists q, float_value acc = Some q /\ (0 <= q)%Q /\ (q <= 100)%Q.
Proof.
  unfold Utils.validate_test_result_data.
  destruct (negb (truthy data)); [ discriminate | ].
  destruct (get1 data "outcome") as [o | e]; cbn [bind]; [ | discriminate ].
  destruct (negb (truthy o)); [ discriminate | ].
  destruct (get1 data "accuracy") as [a | e]; cbn [bind]; [ | discriminate ].
  destruct (negb (truthy a)); [ discriminate | ].
  destruct (to_float a) as [f | e].
  - destruct (float_lt_int f 0 || float_gt_int f 100) eqn:R; [ discriminate | ].
    intros H; inversion H; subst. now apply range_test_passed.
  - destruct (is_instance e [ValueError; TypeError]); discriminate.
Qed.

(* ================================================================== *)
(** ** The validation written out in the route handlers                *)
(* ================================================================== *)

Section InlinedValidation.

Variable add_and_commit : Store -> Api.NewTestResult -> Exc (TestResult * Store).

(** [translate] against [validate_translation_request]: the handler raises
    what the validator raises, answers 400 with the validator's message,
    and goes on to the translation client exactly when the validator
    accepts. *)
Lemma translate_follows_validator
      (cfg : Config.AzureTranslatorConfig) (svc : Translator.TranslatorService)
      (data : json) (w : Net) :
  match Utils.validate_translation_request data with
  | Raise e => Api.translate cfg svc data w = (Raise e, w)
  | Return (false, Some msg) =>
      Api.translate cfg svc data w
      = (Return (Api.Json 400 (Api.error_body msg)), w)
  | Return (true, None) =>
      exists text lang : string,
        Api.translate cfg svc data w
        = (let (result, w') := Translator.translate_text cfg svc text lang w in
           (ok <- getitem result "success" ;;
            if truthy ok then Return (Api.Json 200 result)
            else Return (Api.Json 500 result), w'))
  | Return _ => False
  end.
Proof.
  unfold Api.translate, Utils.validate_translation_request.
  destruct (negb (truthy data)); [ reflexivity | ].
  destruct (get data "text" (JStr "")) as [t | e]; cbn [bind];
    [ | reflexivity ].
  destruct (strip t) as [source_text | e]; cbn [bind]; [ | reflexivity ].
  destruct (get data "target_language" (JStr "")) as [l | e]; cbn [bind];
    [ | reflexivity ].
  destruct (strip l) as [target_language | e]; cbn [bind]; [ | reflexivity ].
  destruct (negb (truthy (JStr source_text))); [ reflexivity | ].
  destruct (negb (truthy (JStr target_language))); [ reflexivity | ].
  destruct (Utils.len_gt source_text 5000); [ reflexivity | ].
  exists source_text, target_language. reflexivity.
Qed.

(** On a dict every [get] returns; elsewhere it raises [AttributeError]. *)
Lemma get_returns (data : json) (k : string) (d v : json) :
  get data k d = Return v -> exists o, data = JObj o.
Proof. destruct data; cbn; try discriminate. eauto. Qed.

Lemma get_raises (data : json) (k : string) (d : json) (e : exn) :
  get data k d = Raise e -> exn_cls e = AttributeError.
Proof.
  destruct data; cbn; intros H; inversion H; reflexivity.
Qed.

Lemma not_a_ValueError (e : exn) :
  is_instance e [ValueError; TypeError] = false \/ exn_cls e = AttributeError ->
  is_instance e [ValueError] = false.
Proof.
  unfold is_instance; cbn. intros [H | H].
  - destruct (cls_eqb (exn_cls e) ValueError); [ discriminate | reflexivity ].
  - rewrite H. reflexivity.
Qed.

(** [save_test_results] against [validate_test_result_data]: an exception
    of the validator leaves the [try] body of the handler too, and the
    handler turns it into a 500; a rejection is answered 400 with the
    validator's message; on acceptance the record handed to the session
    carries the validator's accuracy. *)
Lemma save_follows_validator (reload : option exn) (data : json)
      (uuid4 : string) (db : Store) :
  match Utils.validate_test_result_data data with
  | Raise e =>
      Api.save_body add_and_commit reload data uuid4 db = (Raise e, db) /\
      Api.save_test_results add_and_commit reload data uuid4 db
      = (Api.Json 500
           (Api.error_body ("Failed to save test results: " ++ exn_str e)), db)
  | Return (false, Some msg, None) =>
      Api.save_test_results add_and_commit reload data uuid4 db
      = (Api.Json 400 (Api.error_body msg), db)
  | Return (true, None, Some accuracy) =>
      exists t : Api.NewTestResult,
        Api.new_accuracy t = accuracy /\
        Api.save_body add_and_commit reload data uuid4 db
        = match add_and_commit db t with
          | Raise e => (Raise e, db)
          | Return (stored, db') =>
              match reload with
              | Some e => (Raise e, db')
              | None =>
                  (Return (Api.Json 200
                     (JObj [("success", JBool true);
                            ("message",
                             JStr "Test results saved successfully to database");
                            ("result_id", JInt (id stored));
                            ("data", to_dict stored)])), db')
              end
          end
  | Return _ => False
  end.
Proof.
  unfold Api.save_test_results, Api.save_body, Utils.validate_test_result_data.
  destruct (negb (truthy data)); [ reflexivity | ].
  destruct (get1 data "outcome") as [o | e] eqn:Eo; cbn [bind].
  2:{ rewrite not_a_ValueError by (right; exact (get_raises _ _ _ _ Eo)).
      split; reflexivity. }
  destruct (negb (truthy o)); [ reflexivity | ].
  destruct (get1 data "accuracy") as [a | e] eqn:Ea; cbn [bind].
  2:{ rewrite not_a_ValueError by (right; exact (get_raises _ _ _ _ Ea)).
      split; reflexivity. }
  destruct (negb (truthy a)); [ reflexivity | ].
  destruct (to_float a) as [f | e].
  - destruct (float_lt_int f 0 || float_gt_int f 100); [ reflexivity | ].
    destruct (get_returns _ _ _ _ Eo) as [fields ->].
    cbn [get1 get bind]. eexists. split; [ | reflexivity ]. reflexivity.
  - destruct (is_instance e [ValueError; TypeError]) eqn:Ei; [ reflexivity | ].
    rewrite not_a_ValueError by (left; exact Ei). split; reflexivity.
Qed.

End InlinedValidation.

(** C2: the accuracy "nan" is present and truthy and parses, by [float],
    to NaN, which is no finite number and lies in no interval; yet the
    validator accepts the payload and returns NaN as the accuracy, and the
    handler of /save-test-results hands a record with that accuracy to the
    session. *)
Theorem validate_test_result_data_accepts_nan :
  let payload := JObj [("outcome", JStr "Success"); ("accuracy", JStr "nan")] in
  truthy (JStr "nan") = true /\
  to_float (JStr "nan") = Return S754_nan /\
  float_value S754_nan = None /\
  Utils.validate_test_result_data payload = Return (true, None, Some S754_nan)
  /\
  forall (add_and_commit : Store -> Api.NewTestResult -> Exc (TestResult * Store))
         (reload : option exn) (uuid4 : string) (db : Store),
  exists t : Api.NewTestResult,
    Api.new_accuracy t = S754_nan /\
    Api.new_outcome t = JStr "Success" /\
    Api.save_body add_and_commit reload payload uuid4 db
    = match add_and_commit db t with
      | Raise e => (Raise e, db)
      | Return (stored, db') =>
          match reload with
          | Some e => (Raise e, db')
          | None =>
              (Return (Api.Json 200
                 (JObj [("success", JBool true);
                        ("message",
                         JStr "Test results saved successfully to database");
                        ("result_id", JInt (id stored));
                        ("data", to_dict stored)])), db')
          end
      end.
Proof.
  cbv zeta. repeat split.
  intros add reload uuid4 db.
  exists (Api.mkNew (JStr "Success") S754_nan JNull JNull JNull JNull
                    (JStr "auto") JNull (JStr uuid4)).
  split; [ reflexivity | split; reflexivity ].
Qed.

(** C9: the validation written out in [translate] and in
    [save_test_results] follows the validators on every payload: the same
    exception where the validator raises, the same message with status 400
    where it rejects, and, where it accepts, the translation call resp. the
    record built with the validator's accuracy. *)
Theorem inlined_validation_follows_validators :
  forall (add_and_commit : Store -> Api.NewTestResult -> Exc (TestResult * Store))
         (reload : option exn)
         (cfg : Config.AzureTranslatorConfig)
         (svc : Translator.TranslatorService)
         (data : json) (w : Net) (uuid4 : string) (db : Store),
    match Utils.validate_translation_request data with
    | Raise e => Api.translate cfg svc data w = (Raise e, w)
    | Return (false, Some msg) =>
        Api.translate cfg svc data w
        = (Return (Api.Json 400 (Api.error_body msg)), w)
    | Return (true, None) =>
        exists text lang : string,
          Api.translate cfg svc data w
          = (let (result, w') :=
               Translator.translate_text cfg svc text lang w in
             (ok <- getitem result "success" ;;
              if truthy ok then Return (Api.Json 200 result)
              else Return (Api.Json 500 result), w'))
    | Return _ => False
    end
    /\
    match Utils.validate_test_result_data data with
    | Raise e =>
        Api.save_body add_and_commit reload data uuid4 db = (Raise e, db) /\
        Api.save_test_results add_and_commit reload data uuid4 db
        = (Api.Json 500
             (Api.error_body ("Failed to save test results: " ++ exn_str e)),
           db)
    | Return (false, Some msg, None) =>
        Api.save_test_results add_and_commit reload data uuid4 db
        = (Api.Json 400 (Api.error_body msg), db)
    | Return (true, None, Some accuracy) =>
        exists t : Api.NewTestResult,
          Api.new_accuracy t = accuracy /\
          Api.save_body add_and_commit reload data uuid4 db
          = match add_and_commit db t with
            | Raise e => (Raise e, db)
            | Return (stored, db') =>
                match reload with
                | Some e => (Raise e, db')
                | None =>
                    (Return (Api.Json 200
                       (JObj [("success", JBool true);
                              ("message",
                               JStr "Test results saved successfully to database");
                              ("result_id", JInt (id stored));
                              ("data", to_dict stored)])), db')
                end
            end
    | Return _ => False
    end.
Proof.
  intros. split.
  - apply translate_follows_validator.
  - apply save_follows_validator.
Qed.

(** C10: in a request object with a truthy outcome, the number 0 as
    accuracy is taken for a missing accuracy, by the validator and by the
    handler alike, while the str "0" is accepted with accuracy 0.0. *)
Theorem zero_accuracy_number_or_str :
  forall (add_and_commit : Store -> Api.NewTestResult -> Exc (TestResult * Store))
         (reload : option exn)
         (o : list (string * json)) (v : json) (uuid4 : string) (db : Store),
    assoc "outcome" o = Some v ->
    truthy v = true ->
    (assoc "accuracy" o = Some (JInt 0) ->
     Utils.validate_test_result_data (JObj o)
     = Return (false, Some "Accuracy is required", None) /\
     Api.save_test_results add_and_commit reload (JObj o) uuid4 db
     = (Api.Json 400 (Api.error_body "Accuracy is required"), db))
    /\
    (assoc "accuracy" o = Some (JStr "0") ->
     Utils.validate_test_result_data (JObj o)
     = Return (true, None, Some (S754_zero false))).
Proof.
  intros add reload o v uuid4 db Ho Hv.
  assert (Ht : truthy (JObj o) = true)
    by (destruct o; [ discriminate | reflexivity ]).
  split; intros Ha.
  - assert (E : Utils.validate_test_result_data (JObj o)
                = Return (false, Some "Accuracy is required", None)).
    { unfold Utils.validate_test_result_data, get1, get.
      rewrite Ht, Ho, Ha. cbn [negb bind]. rewrite Hv. reflexivity. }
    split; [ exact E | ].
    pose proof (save_follows_validator add reload (JObj o) uuid4 db) as H.
    rewrite E in H. exact H.
  - unfold Utils.validate_test_result_data, get1, get.
    rewrite Ht, Ho, Ha. cbn [negb bind]. rewrite Hv. reflexivity.
Qed.

Lemma zero_accuracy_number_or_str_witness :
  Utils.validate_test_result_data
    (JObj [("outcome", JStr "Success"); ("accuracy", JInt 0)])
  = Return (false, Some "Accuracy is required", None) /\
  Utils.validate_test_result_data
    (JObj [("outcome", JStr "Success"); ("accuracy", JStr "0")])
  = Return (true, None, Some (S754_zero false)).
Proof.
  split.
  - exact (proj1 (proj1 (zero_accuracy_number_or_str
                           (fun _ _ => Raise (mkExn OtherException "")) None
                           [("outcome", JStr "Success"); ("accuracy", JInt 0)]
                           (JStr "Success") "" [] eq_refl eq_refl) eq_refl)).
  - exact (proj2 (zero_accuracy_number_or_str
                    (fun _ _ => Raise (mkExn OtherException "")) None
                    [("outcome", JStr "Success"); ("accuracy", JStr "0")]
                    (JStr "Success") "" [] eq_refl eq_refl) eq_refl).
Defined.

(* ================================================================== *)
(** ** The translation client                                          *)
(* ================================================================== *)

Lemma classify_falls_through (e : exn) :
  falls_through e = true ->
  Translator.classify e
  = Translator.failure ("Translation failed: " ++ exn_str e).
Proof.
  unfold falls_through, Translator.classify, is_instance; cbn.
  destruct (exn_cls e); cbn; intros H; try discriminate; reflexivity.
Qed.

(** [translate_text] sends one request when the client is configured. *)
Lemma translate_body_sends
      (self : Translator.TranslatorService) (text lang : string) (w : Net) :
  calls (snd (Translator.translate_body self text lang w))
  = (calls w ++ [Translator.translate_request self text lang])%list.
Proof. reflexivity. Qed.

(** C6: when the key, the endpoint or the region is missing or empty,
    [translate_text] answers, for every text and target language, with a
    failure whose message contains "not configured", and the network is
    left as it was: no request is sent. *)
Theorem translate_text_not_configured :
  forall (cfg : Config.AzureTranslatorConfig)
         (self : Translator.TranslatorService) (text lang : string) (w : Net),
    Config.env_set (Config.TRANSLATOR_KEY cfg) = false \/
    Config.env_set (Config.TRANSLATOR_ENDPOINT cfg) = false \/
    Config.env_set (Config.TRANSLATOR_REGION cfg) = false ->
    exists msg : string,
      Translator.translate_text cfg self text lang w
      = (JObj [("success", JBool false); ("error", JStr msg)], w) /\
      has_substring "not configured" msg = true.
Proof.
  intros cfg self text lang w H.
  exists Translator.not_configured_message. split; [ | reflexivity ].
  unfold Translator.translate_text, Config.is_configured. cbn [forallb].
  destruct H as [H | [H | H]]; rewrite H;
    rewrite ?andb_false_r; reflexivity.
Qed.

Lemma translate_text_not_configured_witness :
  exists msg : string,
    Translator.translate_text
      (Config.mkConfig (Some "key") None (Some "westeurope"))
      (Translator.init (Config.mkConfig (Some "key") None (Some "westeurope")))
      "Hello" "fr" (mkNet [] (fun _ _ => Raise (mkExn Timeout "")))
    = (JObj [("success", JBool false); ("error", JStr msg)],
       mkNet [] (fun _ _ => Raise (mkExn Timeout ""))) /\
    has_substring "not configured" msg = true.
Proof.
  apply (translate_text_not_configured
           (Config.mkConfig (Some "key") None (Some "westeurope"))).
  right; left; reflexivity.
Defined.

(** How an exception that left the [try] body is answered, by class. *)
Lemma classify_by_class (e : exn) :
  (exn_cls e = Timeout ->
   Translator.classify e
   = Translator.failure "Translation request timed out. Please try again.")
  /\
  (exn_cls e = RequestException ->
   Translator.classify e
   = Translator.failure ("Translation service error: " ++ exn_str e))
  /\
  (exn_cls e <> Timeout -> exn_cls e <> RequestException ->
   Translator.classify e
   = Translator.failure ("Translation failed: " ++ exn_str e)).
Proof.
  unfold Translator.classify, is_instance; cbn.
  repeat split; intros H; try intros H'.
  - rewrite H; reflexivity.
  - rewrite H; reflexivity.
  - destruct (exn_cls e); try reflexivity; congruence.
Qed.

Lemma raise_for_status_class (r : Response) (e : exn) :
  raise_for_status r = Raise e -> exn_cls e = RequestException.
Proof.
  unfold raise_for_status.
  destruct ((400 <=? status_code r) && (status_code r <? 500));
    [ intros H; inversion H; reflexivity | ].
  destruct ((500 <=? status_code r) && (status_code r <? 600));
    intros H; inversion H; reflexivity.
Qed.

(** What the body of the [try] makes of a decoded response: the
    translation dict exactly for a response of the expected shape, and an
    exception of the third kind for any other. *)
Ltac settle :=
  cbn; first [ reflexivity | eexists; split; reflexivity ].

Lemma translate_body_expected
      (self : Translator.TranslatorService) (text lang : string) (w : Net)
      (response : Response) (result : json) :
  reply w (List.length (calls w)) (Translator.translate_request self text lang)
  = Return response ->
  raise_for_status response = Return tt ->
  decoded response = Return result ->
  match expected_translation result with
  | Some (t, s) =>
      fst (Translator.translate_body self text lang w)
      = Return (translated t s lang)
  | None =>
      exists cause,
        fst (Translator.translate_body self text lang w) = Raise cause /\
        falls_through cause = true
  end.
Proof.
  intros Hr Hs Hd. unfold Translator.translate_body, send.
  cbn [fst]. rewrite Hr. cbn [bind]. rewrite Hs. cbn [bind].
  rewrite Hd. cbn [bind].
  unfold Translator.has_translations, expected_translation, translated.
  destruct result as [ | [] | z | f | s | l | o].
  - settle.
  - settle.
  - settle.
  - cbn [truthy]. destruct (z =? 0); settle.
  - destruct f; settle.
  - destruct s as [ | c s]; [ settle | ].
    cbn -[has_substring]. destruct (has_substring _ _); settle.
  - destruct l as [ | first more]; [ settle | ].
    destruct first as [ | b | z | f | s | l | first];
      try (cbn -[has_substring existsb];
           try destruct (has_substring _ _); try destruct (existsb _ _);
           settle).
    cbn [truthy negb len bind List.length].
    replace (0 <? Z.of_nat (S (List.length more))) with true
      by (symmetry; apply Z.ltb_lt; lia).
    cbn [negb getitem0 bind contains getitem].
    destruct (assoc "translations" first) as [ts | ]; [ | settle ].
    cbn [bind].
    destruct ts as [ | b | z | f | s | [ | tr more'] | o]; try settle.
    + destruct s; settle.
    + destruct tr as [ | b | z | f | s | l | tr]; try settle.
      cbn [getitem0 bind getitem].
      destruct (assoc "text" tr) as [t | ]; [ | settle ].
      cbn [bind get].
      destruct (assoc "detectedLanguage" first) as [d | ]; [ | settle ].
      destruct d as [ | b | z | f | s | l | d]; settle.
  - destruct o as [ | kv o]; settle.
Qed.

(** A response that is empty, or whose first element is an object without
    [translations], is answered with the message of the code's own
    exception. *)
Lemma translate_body_invalid
      (self : Translator.TranslatorService) (text lang : string) (w : Net)
      (response : Response) (result : json) :
  reply w (List.length (calls w)) (Translator.translate_request self text lang)
  = Return response ->
  raise_for_status response = Return tt ->
  decoded response = Return result ->
  truthy result = false \/
  (exists first more,
      result = JArr (JObj first :: more) /\
      assoc "translations" first = None) ->
  fst (Translator.translate_body self text lang w)
  = Raise (mkExn OtherException "Invalid translation response").
Proof.
  intros Hr Hs Hd H. unfold Translator.translate_body, send.
  cbn [fst]. rewrite Hr. cbn [bind]. rewrite Hs. cbn [bind].
  rewrite Hd. cbn [bind]. unfold Translator.has_translations.
  destruct H as [H | (first & more & -> & H)].
  - rewrite H. reflexivity.
  - cbn [truthy negb len bind List.length].
    replace (0 <? Z.of_nat (S (List.length more))) with true
      by (symmetry; apply Z.ltb_lt; lia).
    cbn [negb getitem0 bind contains]. rewrite H. reflexivity.
Qed.

(** C7, as stated, fails for a response whose body is no JSON: what
    [response.json()] raises then is an exception of the HTTP library, a
    [RequestException], and the second [except] clause answers it as an
    error of the transport, not as a failed translation. *)
Lemma translate_text_undecodable_body :
  let response :=
    mkResponse 200 "OK" "https://host/translator/text/v3.0/translate"
      (Raise (mkExn RequestException
                "Expecting value: line 1 column 1 (char 0)")) in
  let answer :=
    fst (Translator.translate_text configured (Translator.init configured)
           "Hello" "fr" (mkNet [] (fun _ _ => Return response))) in
  raise_for_status response = Return tt /\
  answer
  = Translator.failure
      "Translation service error: Expecting value: line 1 column 1 (char 0)" /\
  answer
  <> Translator.failure
       "Translation failed: Expecting value: line 1 column 1 (char 0)".
Proof. cbv zeta. split; [ reflexivity | split; [ reflexivity | discriminate ] ]. Qed.

(** C7, amended: [translate_text] always returns a result dict, the
    translation or a failure with its message, and the failure is that of
    the first matching class: not configured; else a timeout of the
    request; else another error of the transport, among them a status from
    400 to 599, with its cause in the message; else translation failed,
    with its cause in the message. An exception of [response.json()] is
    answered by its class in the same way, so a body that is no JSON counts
    as an error of the transport when the library raises one of its own
    exceptions for it. A decoded response yields the translation exactly
    when it has the expected shape, and translation failed for every other
    shape; for an empty response and for a first element without
    [translations] the cause is 'Invalid translation response'. *)
Theorem translate_text_classifies_failures :
  forall (cfg : Config.AzureTranslatorConfig)
         (self : Translator.TranslatorService) (text lang : string) (w : Net),
    let req := Translator.translate_request self text lang in
    let out := Translator.translate_text cfg self text lang w in
    ((exists t s, fst out = translated t s lang) \/
     (exists msg, fst out = Translator.failure msg))
    /\
    (Config.is_configured cfg = false ->
     out = (Translator.failure Translator.not_configured_message, w))
    /\
    (Config.is_configured cfg = true ->
     calls (snd out) = (calls w ++ [req])%list /\
     (forall e : exn,
         reply w (List.length (calls w)) req = Raise e ->
         answered_by_class e (fst out))
     /\
     (forall response : Response,
         reply w (List.length (calls w)) req = Return response ->
         (forall e : exn,
             raise_for_status response = Raise e ->
             fst out = Translator.failure
                         ("Translation service error: " ++ exn_str e)) /\
         (raise_for_status response = Return tt ->
          (forall e : exn,
              decoded response = Raise e ->
              answered_by_class e (fst out)) /\
          (forall result : json,
              decoded response = Return result ->
              match expected_translation result with
              | Some (t, s) => fst out = translated t s lang
              | None =>
                  exists cause : exn,
                    fst (Translator.translate_body self text lang w)
                    = Raise cause /\
                    falls_through cause = true /\
                    fst out = Translator.failure
                                ("Translation failed: " ++ exn_str cause)
              end /\
              (truthy result = false \/
               (exists first more,
                   result = JArr (JObj first :: more) /\
                   assoc "translations" first = None) ->
               fst out = Translator.failure
                           "Translation failed: Invalid translation response"))))).
Proof.
  intros cfg self text lang w req out. subst out.
  unfold Translator.translate_text.
  destruct (Config.is_configured cfg) eqn:Hc; cbn [negb].
  - assert (Hbody : forall x,
               fst (Translator.translate_body self text lang w) = x ->
               fst (match Translator.translate_body self text lang w with
                    | (Return result, w') => (result, w')
                    | (Raise e, w') => (Translator.classify e, w')
                    end)
               = match x with
                 | Return result => result
                 | Raise e => Translator.classify e
                 end).
    { intros x <-.
      destruct (Translator.translate_body self text lang w) as [[r | e] w'];
        reflexivity. }
    assert (Hsend :
              fst (Translator.translate_body self text lang w)
              = (response <- reply w (List.length (calls w)) req ;;
                 _ <- raise_for_status response ;;
                 result <- decoded response ;;
                 ok <- Translator.has_translations result ;;
                 if ok then
                   first <- getitem0 result ;;
                   translations <- getitem first "translations" ;;
                   translation <- getitem0 translations ;;
                   translated_text <- getitem translation "text" ;;
                   first' <- getitem0 result ;;
                   detected <- get first' "detectedLanguage" (JObj []) ;;
                   language <- get detected "language" (JStr "auto") ;;
                   Return (translated translated_text language lang)
                 else Raise (mkExn OtherException
                                   "Invalid translation response")))
      by reflexivity.
    assert (Hdec : forall response result,
               reply w (List.length (calls w)) req = Return response ->
               raise_for_status response = Return tt ->
               decoded response = Return result ->
               match expected_translation result with
               | Some (t, s) =>
                   fst (match Translator.translate_body self text lang w with
                        | (Return result, w') => (result, w')
                        | (Raise e, w') => (Translator.classify e, w')
                        end) = translated t s lang
               | None =>
                   exists cause : exn,
                     fst (Translator.translate_body self text lang w)
                     = Raise cause /\
                     falls_through cause = true /\
                     fst (match Translator.translate_body self text lang w with
                          | (Return result, w') => (result, w')
                          | (Raise e, w') => (Translator.classify e, w')
                          end)
                     = Translator.failure
                         ("Translation failed: " ++ exn_str cause)
               end).
    { intros response result Er Es Ed.
      pose proof (translate_body_expected self text lang w response
                    result Er Es Ed) as H.
      destruct (expected_translation result) as [[t s] | ].
      - rewrite (Hbody _ H). reflexivity.
      - destruct H as (e & H & Hf). exists e.
        rewrite (Hbody _ H), (classify_falls_through e Hf). auto. }
    pose proof (Hbody _ Hsend) as Hout.
    split; [ | split; [ discriminate | intros _; split; [ | split ] ] ].
    + (* always a result dict *)
      destruct (reply w (List.length (calls w)) req) as [response | e] eqn:Er.
      * destruct (raise_for_status response) as [[] | e] eqn:Es.
        -- destruct (decoded response) as [result | e] eqn:Ed.
           ++ pose proof (Hdec response result eq_refl Es Ed) as H.
              destruct (expected_translation result) as [[t s] | ];
                [ left; eauto | right ].
              destruct H as (cause & _ & _ & H). eauto.
           ++ right. rewrite Hout. cbn [bind].
              rewrite Es; cbn [bind]. rewrite Ed; cbn [bind].
              unfold Translator.classify.
              destruct (is_instance e [Timeout]); eauto.
              destruct (is_instance e [Timeout; RequestException]); eauto.
        -- right. rewrite Hout. cbn [bind]. rewrite Es; cbn [bind].
           destruct (classify_by_class e) as (_ & H & _).
           rewrite (H (raise_for_status_class _ _ Es)). eauto.
      * right. rewrite Hout. cbn [bind].
        unfold Translator.classify.
        destruct (is_instance e [Timeout]); eauto.
        destruct (is_instance e [Timeout; RequestException]); eauto.
    + (* one request *)
      pose proof (translate_body_sends self text lang w) as Hs.
      destruct (Translator.translate_body self text lang w) as [[r | e] w'];
        exact Hs.
    + (* the request met an exception *)
      intros e Er. rewrite Hout, Er. cbn [bind].
      apply classify_by_class.
    + (* the request met a response *)
      intros response Er. split.
      * intros e Es. rewrite Hout, Er. cbn [bind].
        rewrite Es; cbn [bind].
        destruct (classify_by_class e) as (_ & H & _).
        apply H. eapply raise_for_status_class; eauto.
      * intros Es. split.
        -- intros e Ed. rewrite Hout, Er. cbn [bind].
           rewrite Es; cbn [bind]. rewrite Ed; cbn [bind].
           apply classify_by_class.
        -- intros result Ed. split;
             [ exact (Hdec response result Er Es Ed) | ].
           intros Hinv.
           rewrite (Hbody _ (translate_body_invalid self text lang w response
                               result Er Es Ed Hinv)).
           reflexivity.
  - split; [ right; eexists; reflexivity
          | split; [ reflexivity | discriminate ] ].
Qed.

Lemma translate_text_classifies_failures_witness :
  fst (Translator.translate_text configured (Translator.init configured)
         "Hello" "fr"
         (mkNet [] (fun _ _ => Raise (mkExn Timeout "read timed out"))))
  = Translator.failure "Translation request timed out. Please try again."
  /\
  fst (Translator.translate_text configured (Translator.init configured)
         "Hello" "fr"
         (answering (JArr [JObj [("translations", JArr [JNull])]])))
  = Translator.failure
      "Translation failed: 'NoneType' object is not subscriptable".
Proof.
  split.
  - exact (proj1
             (proj1 (proj2 (proj2 (proj2
                (translate_text_classifies_failures
                   configured (Translator.init configured) "Hello" "fr"
                   (mkNet [] (fun _ _ => Raise (mkExn Timeout "read timed out")))))
                eq_refl))
                (mkExn Timeout "read timed out") eq_refl)
             eq_refl).
  - pose proof (translate_text_classifies_failures
                  configured (Translator.init configured) "Hello" "fr"
                  (answering (JArr [JObj [("translations", JArr [JNull])]])))
      as H.
    cbv zeta in H. destruct H as (_ & _ & H).
    destruct (H eq_refl) as (_ & _ & Hresp).
    destruct (Hresp _ eq_refl) as (_ & Hok).
    destruct (Hok eq_refl) as (_ & Hdec).
    destruct (Hdec _ eq_refl) as ((cause & Hc & _ & Ha) & _).
    inversion Hc; subst cause. exact Ha.
Defined.

(* ================================================================== *)
(** ** The language catalog                                            *)
(* ================================================================== *)

(** Order of strs by code points. *)
Lemma leb_iff (a b : string) :
  String.leb a b = true <-> a = b \/ String_as_OT.lt a b.
Proof.
  unfold String.leb. split.
  - destruct (String.compare a b) eqn:E; intros H; try discriminate.
    + left. now apply String.compare_eq_iff.
    + right. now apply String_as_OT.cmp_lt.
  - intros [-> | H].
    + assert (E : String.compare b b = Eq)
        by (apply String_as_OT.cmp_eq; reflexivity).
      now rewrite E.
    + apply String_as_OT.cmp_lt in H. unfold String_as_OT.cmp in H.
      now rewrite H.
Qed.

Lemma leb_trans (a b c : string) :
  String.leb a b = true -> String.leb b c = true -> String.leb a c = true.
Proof.
  rewrite !leb_iff. intros [-> | H1] [-> | H2]; auto.
  right. eapply String_as_OT.lt_trans; eauto.
Qed.

Lemma ltb_false_leb (a b : string) :
  String.ltb a b = false -> String.leb b a = true.
Proof.
  unfold String.ltb, String.leb. rewrite (String.compare_antisym b a).
  destruct (String.compare a b); cbn; congruence.
Qed.

Lemma ltb_true_leb (a b : string) :
  String.ltb a b = true -> String.leb a b = true.
Proof.
  unfold String.ltb, String.leb.
  destruct (String.compare a b); cbn; congruence.
Qed.

Lemma name_le_trans x y z : name_le x y -> name_le y z -> name_le x z.
Proof.
  intros (a & b & Ha & Hb & H1) (b' & c & Hb' & Hc & H2).
  rewrite Hb in Hb'. inversion Hb'; subst b'.
  exists a, c. repeat split; auto. eapply leb_trans; eauto.
Qed.

Lemma text_is_str_inv x :
  Translator.text_is_str x = true -> exists a, Translator.text x = JStr a.
Proof.
  unfold Translator.text_is_str, Translator.text_str.
  destruct (Translator.text x); try discriminate. eauto.
Qed.

Lemma text_ltb_true x y :
  Translator.text_ltb x y = true -> name_le x y.
Proof.
  unfold Translator.text_ltb, Translator.text_str, name_le.
  destruct (Translator.text x); try discriminate.
  destruct (Translator.text y); try discriminate.
  intros H. do 2 eexists. repeat split. now apply ltb_true_leb.
Qed.

Lemma text_ltb_false x y :
  Translator.text_is_str x = true -> Translator.text_is_str y = true ->
  Translator.text_ltb x y = false -> name_le y x.
Proof.
  intros Hx Hy. destruct (text_is_str_inv _ Hx) as [a Ha].
  destruct (text_is_str_inv _ Hy) as [b Hb].
  unfold Translator.text_ltb, Translator.text_str, name_le.
  rewrite Ha, Hb. intros H. exists b, a. repeat split.
  now apply ltb_false_leb.
Qed.

Lemma insert_by_text_perm x l :
  Permutation (x :: l) (Translator.insert_by_text x l).
Proof.
  induction l as [ | y l IH]; cbn.
  - apply Permutation_refl.
  - destruct (Translator.text_ltb y x).
    + eapply Permutation_trans; [ apply perm_swap | ].
      now apply perm_skip.
    + apply Permutation_refl.
Qed.

Lemma sort_by_text_perm l : Permutation l (Translator.sort_by_text l).
Proof.
  induction l as [ | x l IH]; cbn.
  - apply Permutation_refl.
  - eapply Permutation_trans; [ | apply insert_by_text_perm ].
    now apply perm_skip.
Qed.

Lemma insert_by_text_sorted x l :
  Translator.text_is_str x = true ->
  Forall (fun y => Translator.text_is_str y = true) l ->
  StronglySorted name_le l ->
  StronglySorted name_le (Translator.insert_by_text x l).
Proof.
  intros Hx Hall Hs. induction Hs as [ | y l Hs IH Hy]; cbn.
  - repeat constructor.
  - inversion Hall as [ | ? ? Hy' Hall']; subst.
    destruct (Translator.text_ltb y x) eqn:E.
    + constructor; [ now apply IH | ].
      eapply Permutation_Forall; [ apply insert_by_text_perm | ].
      constructor; [ now apply text_ltb_true | exact Hy ].
    + pose proof (text_ltb_false y x Hy' Hx E) as Hxy.
      constructor; [ now constructor | ].
      constructor; [ exact Hxy | ].
      eapply Forall_impl; [ | exact Hy ].
      intros z Hz. eapply name_le_trans; eauto.
Qed.

Lemma sort_by_text_sorted l :
  forallb Translator.text_is_str l = true ->
  StronglySorted name_le (Translator.sort_by_text l).
Proof.
  induction l as [ | x l IH]; cbn; intros H.
  - constructor.
  - apply andb_true_iff in H. destruct H as [Hx Hl].
    apply insert_by_text_sorted; auto.
    eapply Permutation_Forall; [ apply sort_by_text_perm | ].
    apply Forall_forall. now apply forallb_forall.
Qed.

Section Catalog.

Variable sorted_other_keys
  : list Translator.lang_entry -> Exc (list Translator.lang_entry).

Let load := Translator.load_languages sorted_other_keys.
Let get_supported_languages :=
  Translator.get_supported_languages sorted_other_keys.

(** The loop over the items of a well-formed mapping. *)
Lemma for_each_entries (tr : list (string * json)) :
  forallb well_formed_language tr = true ->
  for_each (fun '(k, value) =>
              name <- get value "name" (JStr k) ;;
              Return (Translator.mkLang k name)) tr
  = Return (map entry_of tr) /\
  forallb Translator.text_is_str (map entry_of tr) = true.
Proof.
  induction tr as [ | [k v] tr IH]; cbn [forallb]; intros H.
  - split; reflexivity.
  - apply andb_true_iff in H. destruct H as [Hkv Htr].
    destruct (IH Htr) as [E1 E2]. cbn [for_each map]. rewrite E1.
    unfold well_formed_language in Hkv. cbn [snd] in Hkv.
    destruct v as [ | | | | | | f]; try discriminate.
    assert (Ee : entry_of (k, JObj f)
                 = Translator.mkLang k (match assoc "name" f with
                                        | Some n => n
                                        | None => JStr k
                                        end)) by reflexivity.
    rewrite Ee. cbn [get bind forallb]. rewrite E2.
    destruct (assoc "name" f) as [[ | | | | n | | ] | ]; try discriminate;
      split; reflexivity.
Qed.

(** The loop stops with an exception at an item whose value is no
    object. *)
Lemma for_each_not_object (tr : list (string * json)) :
  existsb (fun kv => negb (is_object (snd kv))) tr = true ->
  exists e,
    for_each (fun '(k, value) =>
                name <- get value "name" (JStr k) ;;
                Return (Translator.mkLang k name)) tr
    = Raise e.
Proof.
  induction tr as [ | [k v] tr IH]; cbn [existsb]; intros H;
    [ discriminate | ].
  cbn [for_each].
  destruct (get v "name" (JStr k)) as [name | e] eqn:Eg; cbn [bind];
    [ | eauto ].
  destruct (get_returns _ _ _ _ Eg) as [f ->]. cbn in H.
  destruct (IH H) as [e ->]. cbn [bind]. eauto.
Qed.

(** What the [try] body does with the network: one request. *)
Lemma load_sends (w : Net) :
  snd (load w) = mkNet (calls w ++ [languages_request])%list (reply w).
Proof. reflexivity. Qed.

Lemma load_result (w : Net) :
  fst (load w)
  = (response <- reply w (List.length (calls w)) languages_request ;;
     _ <- raise_for_status response ;;
     data <- decoded response ;;
     found <- contains "translation" data ;;
     if found then
       translation <- getitem data "translation" ;;
       pairs <- Py.items translation ;;
       fetched <- for_each (fun '(k, value) =>
                              name <- get value "name" (JStr k) ;;
                              Return (Translator.mkLang k name)) pairs ;;
       ordered <- Translator.sorted_by_text sorted_other_keys fetched ;;
       Return (Translator.sentinel :: ordered)
     else Raise (mkExn OtherException "Invalid API response structure")).
Proof. reflexivity. Qed.

(** A list the [try] body returns starts with the sentinel. *)
Lemma load_starts_with_sentinel (w : Net) (l : list Translator.lang_entry) :
  fst (load w) = Return l -> exists t, l = Translator.sentinel :: t.
Proof.
  rewrite load_result.
  destruct (reply w _ _) as [response | ]; cbn [bind]; [ | discriminate ].
  destruct (raise_for_status response); cbn [bind]; [ | discriminate ].
  destruct (decoded response) as [data | ]; cbn [bind]; [ | discriminate ].
  destruct (contains "translation" data) as [[] | ]; cbn [bind];
    try discriminate.
  destruct (getitem data "translation") as [tr | ]; cbn [bind];
    [ | discriminate ].
  destruct (Py.items tr) as [pairs | ]; cbn [bind]; [ | discriminate ].
  destruct (for_each _ pairs) as [fetched | ]; cbn [bind]; [ | discriminate ].
  destruct (Translator.sorted_by_text _ fetched) as [ordered | ]; cbn [bind];
    [ | discriminate ].
  intros H; inversion H. eauto.
Qed.

(** The call on a service without a cached list. *)
Lemma cold_call (self : Translator.TranslatorService) (w : Net) :
  Translator.cached self = None ->
  get_supported_languages self w
  = match fst (load w) with
    | Return languages =>
        (languages, Translator.set_cache self languages, snd (load w))
    | Raise _ => (Translator._get_fallback_languages, self, snd (load w))
    end.
Proof.
  intros H. unfold get_supported_languages, Translator.get_supported_languages.
  rewrite H. subst load. cbv zeta.
  destruct (Translator.load_languages sorted_other_keys w) as [[l | e] w'];
    reflexivity.
Qed.

(** The call on a service with a cached list. *)
Lemma warm_call (self : Translator.TranslatorService) (w : Net)
      (languages : list Translator.lang_entry) :
  Translator.cached self = Some languages ->
  get_supported_languages self w = (languages, self, w).
Proof.
  intros H. unfold get_supported_languages, Translator.get_supported_languages.
  now rewrite H.
Qed.

End Catalog.

Lemma raise_for_status_ok (r : Response) :
  raise_for_status r = Return tt <->
  (status_code r < 400 \/ 600 <= status_code r).
Proof.
  unfold raise_for_status.
  destruct ((400 <=? status_code r) && (status_code r <? 500)) eqn:E4.
  - apply andb_true_iff in E4. split; [ discriminate | lia ].
  - destruct ((500 <=? status_code r) && (status_code r <? 600)) eqn:E5.
    + apply andb_true_iff in E5. split; [ discriminate | lia ].
    + apply andb_false_iff in E4. apply andb_false_iff in E5.
      split; [ lia | reflexivity ].
Qed.

(** C5, as stated, fails for a status outside 200..299 that is no error
    status for the HTTP library: a response with status 300 and a
    well-formed body is taken as a success, and the fetched list is
    returned, not the fallback list. *)
Lemma get_supported_languages_status_300 :
  let body :=
    JObj [("translation", JObj [("fr", JObj [("name", JStr "French")])])] in
  let w :=
    mkNet [] (fun _ _ =>
                Return (mkResponse 300 "Multiple Choices"
                                   Translator.languages_url (Return body))) in
  let languages :=
    fst (fst (Translator.get_supported_languages
                (fun _ => Raise (mkExn TypeError ""))
                (Translator.init (Config.mkConfig None None None)) w)) in
  languages = [Translator.sentinel; Translator.mkLang "fr" (JStr "French")] /\
  languages <> Translator._get_fallback_languages.
Proof. cbv zeta. split; [ reflexivity | discriminate ]. Qed.

(** C5, amended: [get_supported_languages] always returns a list. Called
    without a cached list it returns the fallback list, the sentinel
    followed by 19 languages, whenever the body of its [try] raises: when
    the request meets an exception (a network error, a timeout), when the
    status is from 400 to 599, when the body cannot be decoded, when the
    decoded value has no [translation] key, is no object, or holds a
    [translation] or an item that is no object. When the decoded value is
    an object whose [translation] is a mapping of well-formed items, it
    returns the sentinel followed by the fetched entries sorted by display
    name. *)
Theorem get_supported_languages_fallback_or_sorted :
  forall (sorted_other_keys
            : list Translator.lang_entry -> Exc (list Translator.lang_entry))
         (self : Translator.TranslatorService) (w : Net),
    Translator.cached self = None ->
    let languages :=
      fst (fst (Translator.get_supported_languages sorted_other_keys self w)) in
    (exists rest,
        Translator._get_fallback_languages = Translator.sentinel :: rest /\
        List.length rest = 19%nat)
    /\
    (forall e : exn,
        fst (Translator.load_languages sorted_other_keys w) = Raise e ->
        languages = Translator._get_fallback_languages)
    /\
    (forall e : exn,
        reply w (List.length (calls w)) languages_request = Raise e ->
        languages = Translator._get_fallback_languages)
    /\
    (forall response : Response,
        reply w (List.length (calls w)) languages_request = Return response ->
        (400 <= status_code response < 600 ->
         languages = Translator._get_fallback_languages) /\
        (status_code response < 400 \/ 600 <= status_code response ->
         (forall e : exn,
             decoded response = Raise e ->
             languages = Translator._get_fallback_languages) /\
         (forall data : json,
             decoded response = Return data ->
             (contains "translation" data <> Return true ->
              languages = Translator._get_fallback_languages) /\
             (is_object data = false ->
              languages = Translator._get_fallback_languages) /\
             (forall o v,
                 data = JObj o ->
                 assoc "translation" o = Some v ->
                 is_object v = false ->
                 languages = Translator._get_fallback_languages) /\
             (forall o tr,
                 data = JObj o ->
                 assoc "translation" o = Some (JObj tr) ->
                 existsb (fun kv => negb (is_object (snd kv))) tr = true ->
                 languages = Translator._get_fallback_languages) /\
             (forall o tr,
                 data = JObj o ->
                 assoc "translation" o = Some (JObj tr) ->
                 forallb well_formed_language tr = true ->
                 exists ordered,
                   languages = Translator.sentinel :: ordered /\
                   Permutation (map entry_of tr) ordered /\
                   StronglySorted name_le ordered)))).
Proof.
  intros sorted_other_keys self w Hcold languages. subst languages.
  rewrite (cold_call sorted_other_keys self w Hcold).
  split; [ eexists; split; reflexivity | ].
  split; [ intros e ->; reflexivity | ].
  rewrite load_result.
  split.
  - intros e Er. rewrite Er. reflexivity.
  - intros response Er. rewrite Er. cbn [bind]. split.
    + intros Hst.
      destruct (raise_for_status response) as [[] | e] eqn:Es;
        [ | reflexivity ].
      apply raise_for_status_ok in Es. lia.
    + intros Hst. apply raise_for_status_ok in Hst. rewrite Hst. cbn [bind].
      split.
      * intros e Ed. rewrite Ed. reflexivity.
      * intros data Ed. rewrite Ed. cbn [bind].
        split; [ | split; [ | split; [ | split ] ] ].
        -- intros Hc.
           destruct (contains "translation" data) as [[] | e]; cbn [bind];
             [ congruence | reflexivity | reflexivity ].
        -- intros Hno.
           destruct (contains "translation" data) as [[] | e]; cbn [bind];
             try reflexivity.
           destruct data; try discriminate; reflexivity.
        -- intros o v -> Ho Hno. cbn [contains getitem bind].
           rewrite Ho. cbn [bind].
           destruct v; try discriminate; reflexivity.
        -- intros o tr -> Ho Hno. cbn [contains getitem bind].
           rewrite Ho. cbn [bind Py.items].
           destruct (for_each_not_object tr Hno) as [e ->]. reflexivity.
        -- intros o tr -> Ho Hwf. cbn [contains getitem bind].
           rewrite Ho. cbn [bind Py.items].
           destruct (for_each_entries tr Hwf) as [E1 E2].
           rewrite E1. cbn [bind]. unfold Translator.sorted_by_text.
           rewrite E2. cbn [bind fst].
           exists (Translator.sort_by_text (map entry_of tr)).
           repeat split.
           ++ apply sort_by_text_perm.
           ++ now apply sort_by_text_sorted.
Qed.

Lemma get_supported_languages_fallback_or_sorted_witness :
  fst (fst (Translator.get_supported_languages
              (fun _ => Raise (mkExn TypeError ""))
              (Translator.init (Config.mkConfig None None None))
              (mkNet [] (fun _ _ => Raise (mkExn Timeout "timed out")))))
  = Translator._get_fallback_languages.
Proof.
  exact (proj1 (proj2 (proj2
           (get_supported_languages_fallback_or_sorted
              (fun _ => Raise (mkExn TypeError ""))
              (Translator.init (Config.mkConfig None None None))
              (mkNet [] (fun _ _ => Raise (mkExn Timeout "timed out")))
              eq_refl)))
           (mkExn Timeout "timed out") eq_refl).
Defined.

(** C4: a call without a cached list sends exactly one request. When its
    fetch succeeds, every later call, however many and whatever the network
    would answer, returns the same list and sends nothing. When its fetch
    fails, the service is left as it was, nothing cached, and the next call
    sends a request again. *)
Theorem language_cache_after_first_call :
  forall (sorted_other_keys
            : list Translator.lang_entry -> Exc (list Translator.lang_entry))
         (self : Translator.TranslatorService) (w : Net),
    Translator.cached self = None ->
    let out := Translator.get_supported_languages sorted_other_keys self w in
    let languages := fst (fst out) in
    let self' := snd (fst out) in
    calls (snd out) = (calls w ++ [languages_request])%list
    /\
    (forall fetched,
        fst (Translator.load_languages sorted_other_keys w) = Return fetched ->
        languages = fetched /\
        Translator.languages_cache self' = Some fetched /\
        forall (n : nat) (w2 : Net),
          call_repeatedly sorted_other_keys n self' w2
          = (repeat fetched n, self', w2))
    /\
    (forall e : exn,
        fst (Translator.load_languages sorted_other_keys w) = Raise e ->
        self' = self /\
        forall w2 : Net,
          calls (snd (Translator.get_supported_languages
                        sorted_other_keys self' w2))
          = (calls w2 ++ [languages_request])%list).
Proof.
  intros sorted_other_keys self w Hcold out languages self'.
  subst languages self' out.
  rewrite (cold_call sorted_other_keys self w Hcold).
  split; [ | split ].
  - pose proof (load_sends sorted_other_keys w) as Hs.
    destruct (fst (Translator.load_languages sorted_other_keys w));
      cbn [snd]; rewrite Hs; reflexivity.
  - intros fetched Hf. rewrite Hf. cbn [fst snd].
    split; [ reflexivity | split; [ reflexivity | ] ].
    destruct (load_starts_with_sentinel sorted_other_keys w fetched Hf)
      as [t ->].
    induction n as [ | n IH]; intros w2; cbn [call_repeatedly repeat].
    + reflexivity.
    + rewrite (warm_call sorted_other_keys
                 (Translator.set_cache self (Translator.sentinel :: t)) w2
                 (Translator.sentinel :: t) eq_refl).
      rewrite IH. reflexivity.
  - intros e He. rewrite He. cbn [fst snd]. split; [ reflexivity | ].
    intros w2. rewrite (cold_call sorted_other_keys self w2 Hcold).
    pose proof (load_sends sorted_other_keys w2) as Hs.
    destruct (fst (Translator.load_languages sorted_other_keys w2));
      cbn [snd]; rewrite Hs; reflexivity.
Qed.

Lemma language_cache_after_first_call_witness :
  let sorted_other := fun _ : list Translator.lang_entry =>
                        @Raise (list Translator.lang_entry)
                               (mkExn TypeError "") in
  let body :=
    JObj [("translation",
           JObj [("fr", JObj [("name", JStr "French")]);
                 ("de", JObj [("name", JStr "German")])])] in
  let w := mkNet [] (fun _ _ =>
                       Return (mkResponse 200 "OK" Translator.languages_url
                                          (Return body))) in
  let down := mkNet [] (fun _ _ => Raise (mkExn Timeout "timed out")) in
  let self := Translator.init (Config.mkConfig None None None) in
  let fetched := [Translator.sentinel;
                  Translator.mkLang "fr" (JStr "French");
                  Translator.mkLang "de" (JStr "German")] in
  let self' := snd (fst (Translator.get_supported_languages sorted_other self w)) in
  call_repeatedly sorted_other 3 self' down
  = ([fetched; fetched; fetched], self', down).
Proof.
  cbv zeta.
  exact (proj2 (proj2 (proj1 (proj2
           (language_cache_after_first_call
              (fun _ => Raise (mkExn TypeError ""))
              (Translator.init (Config.mkConfig None None None))
              (mkNet [] (fun _ _ =>
                 Return (mkResponse 200 "OK" Translator.languages_url
                   (Return (JObj [("translation",
                      JObj [("fr", JObj [("name", JStr "French")]);
                            ("de", JObj [("name", JStr "German")])])])))))
              eq_refl))
           [Translator.sentinel;
            Translator.mkLang "fr" (JStr "French");
            Translator.mkLang "de" (JStr "German")]
           eq_refl))
          3%nat (mkNet [] (fun _ _ => Raise (mkExn Timeout "timed out")))).
Defined.

(* ================================================================== *)
(** ** The result store                                                *)
(* ================================================================== *)

Lemma lex_compare_refl (a : list Z) : lex_compare a a = Eq.
Proof.
  induction a as [ | x a IH]; cbn; [ reflexivity | ].
  now rewrite Z.compare_refl.
Qed.

Lemma lex_compare_antisym (a b : list Z) :
  lex_compare a b = CompOpp (lex_compare b a).
Proof.
  revert b. induction a as [ | x a IH]; intros [ | y b]; cbn; try reflexivity.
  rewrite (Z.compare_antisym y x).
  destruct (y ?= x); cbn; [ apply IH | reflexivity | reflexivity ].
Qed.

(** "Not below" is transitive. *)
Lemma lex_compare_trans (a b c : list Z) :
  lex_compare a b <> Lt -> lex_compare b c <> Lt -> lex_compare a c <> Lt.
Proof.
  revert b c. induction a as [ | x a IH]; intros [ | y b] [ | z c]; cbn;
    try congruence.
  destruct (Z.compare_spec x y), (Z.compare_spec y z), (Z.compare_spec x z);
    try congruence; try lia.
  apply IH.
Qed.

Lemma created_geb_total (a b : TestResult) :
  created_geb a b = false -> created_geb b a = true.
Proof.
  unfold created_geb, created_compare.
  destruct (created_at a) as [x | ], (created_at b) as [y | ];
    try discriminate; try reflexivity.
  rewrite (lex_compare_antisym (fields y) (fields x)).
  destruct (lex_compare (fields x) (fields y)); cbn; congruence.
Qed.

Lemma created_ge_trans (a b c : TestResult) :
  created_ge a b -> created_ge b c -> created_ge a c.
Proof.
  unfold created_ge, created_geb, created_compare.
  destruct (created_at a) as [x | ], (created_at b) as [y | ],
           (created_at c) as [z | ]; try discriminate; try reflexivity.
  intros H1 H2.
  pose proof (lex_compare_trans (fields x) (fields y) (fields z)) as T.
  destruct (lex_compare (fields x) (fields y)); try discriminate;
    destruct (lex_compare (fields y) (fields z)); try discriminate;
    destruct (lex_compare (fields x) (fields z)); try reflexivity;
    exfalso; apply T; congruence.
Qed.

Lemma insert_desc_perm x l : Permutation (x :: l) (insert_desc x l).
Proof.
  induction l as [ | y l IH]; cbn.
  - apply Permutation_refl.
  - destruct (created_geb x y).
    + apply Permutation_refl.
    + eapply Permutation_trans; [ apply perm_swap | ]. now apply perm_skip.
Qed.

Lemma stable_order_desc_perm l : Permutation l (stable_order_desc l).
Proof.
  induction l as [ | x l IH]; cbn.
  - apply Permutation_refl.
  - eapply Permutation_trans; [ | apply insert_desc_perm ]. now apply perm_skip.
Qed.

Lemma insert_desc_sorted x l :
  StronglySorted created_ge l -> StronglySorted created_ge (insert_desc x l).
Proof.
  intros Hs. induction Hs as [ | y l Hs IH Hy]; cbn.
  - repeat constructor.
  - destruct (created_geb x y) eqn:E.
    + constructor; [ now constructor | ].
      constructor; [ exact E | ].
      eapply Forall_impl; [ | exact Hy ].
      intros z Hz. eapply created_ge_trans; eauto.
    + constructor; [ exact IH | ].
      eapply Permutation_Forall; [ apply insert_desc_perm | ].
      constructor; [ now apply created_geb_total | exact Hy ].
Qed.

(** The stable sort is one of the orders the database may produce. *)
Lemma stable_order_desc_ok : orders_by_created_at_desc stable_order_desc.
Proof.
  intros rows. split; [ apply stable_order_desc_perm | ].
  induction rows as [ | x rows IH]; cbn.
  - constructor.
  - now apply insert_desc_sorted.
Qed.

Lemma in_firstn {A} (n : nat) (l : list A) (x : A) :
  In x (firstn n l) -> In x l.
Proof.
  intros H. rewrite <- (firstn_skipn n l). apply in_or_app. now left.
Qed.

Lemma in_skipn {A} (n : nat) (l : list A) (x : A) :
  In x (skipn n l) -> In x l.
Proof.
  intros H. rewrite <- (firstn_skipn n l). apply in_or_app. now right.
Qed.

(** A slice of a sorted list is sorted. *)
Lemma StronglySorted_skipn {A} (R : A -> A -> Prop) (n : nat) (l : list A) :
  StronglySorted R l -> StronglySorted R (skipn n l).
Proof.
  revert l. induction n as [ | n IH]; intros l Hs; [ exact Hs | ].
  destruct l as [ | x l]; [ constructor | ].
  inversion Hs; subst. now apply IH.
Qed.

Lemma StronglySorted_firstn {A} (R : A -> A -> Prop) (n : nat) (l : list A) :
  StronglySorted R l -> StronglySorted R (firstn n l).
Proof.
  revert l. induction n as [ | n IH]; intros l Hs; [ constructor | ].
  destruct l as [ | x l]; [ constructor | ].
  inversion Hs as [ | ? ? Hs' Hx]; subst. cbn. constructor; [ now apply IH | ].
  apply Forall_forall. intros y Hy. rewrite Forall_forall in Hx.
  apply Hx. eapply in_firstn; eauto.
Qed.

(** C1, as stated, fails: the query orders by [created_at] alone. With a
    database that keeps rows of equal [created_at] in storage order, which
    [ORDER BY created_at DESC] allows, two rows saved at the same instant
    come back with the lower id first. *)
Lemma list_ties_not_by_id_descending :
  let db := [sample_row 1 sample_time; sample_row 2 sample_time] in
  let page := Api.results_page stable_order_desc None [] db in
  orders_by_created_at_desc stable_order_desc /\
  items page = [sample_row 1 sample_time; sample_row 2 sample_time] /\
  ~ StronglySorted created_then_id_desc (items page).
Proof.
  cbv zeta. split; [ apply stable_order_desc_ok | ].
  split; [ reflexivity | ].
  change (Models.items
            (Api.results_page stable_order_desc None []
               [sample_row 1 sample_time; sample_row 2 sample_time]))
    with [sample_row 1 sample_time; sample_row 2 sample_time].
  intros H. inversion H as [ | ? ? _ Hall]; subst.
  inversion Hall as [ | ? ? Hab _]; subst.
  destruct Hab as [Hgt | [_ Hid]].
  - discriminate Hgt.
  - cbn in Hid. lia.
Qed.

(** C1, amended: for every list query the page returned is ordered by
    [created_at] descending, no record before one created later; its
    records are stored records that pass the outcome filter; and the
    response lists them in that order. The order among records of equal
    [created_at] is the database's, not fixed by id. *)
Theorem list_page_ordered_by_created_at :
  forall (order : list TestResult -> list TestResult)
         (max_per_page : option Z)
         (args : list (string * string)) (db : Store),
    orders_by_created_at_desc order ->
    let page := Api.results_page order max_per_page args db in
    StronglySorted created_ge (items page)
    /\
    (forall r, In r (items page) ->
               In r db /\
               forall v, Api.arg "outcome" args = Some v -> v <> "" ->
                         outcome r = v)
    /\
    exists pagination : json,
      Api.get_test_results order max_per_page None args db
      = Api.Json 200
          (JObj [("success", JBool true);
                 ("data", JArr (map to_dict (items page)));
                 ("pagination", pagination)]).
Proof.
  intros order max_per_page args db Hord page. subst page.
  unfold Api.results_page, paginate. cbn [items].
  split; [ | split ].
  - apply StronglySorted_firstn, StronglySorted_skipn. apply Hord.
  - intros r Hr. apply in_firstn, in_skipn in Hr.
    unfold Api.list_query in Hr.
    destruct (Hord (match Api.arg "outcome" args with
                    | Some v => if truthy (JStr v) then filter_outcome v db
                                else db
                    | None => db
                    end)) as [Hp _].
    apply (Permutation_in _ (Permutation_sym Hp)) in Hr.
    destruct (Api.arg "outcome" args) as [v | ].
    + cbn [truthy] in Hr. destruct (String.eqb v "") eqn:Ev; cbn [negb] in Hr.
      * split; [ exact Hr | ]. intros v' Hv' Hne. inversion Hv'; subst v'.
        apply String.eqb_eq in Ev. contradiction.
      * unfold filter_outcome in Hr. apply filter_In in Hr.
        destruct Hr as [Hin Ho]. split; [ exact Hin | ].
        intros v' Hv' _. inversion Hv'; subst v'.
        now apply String.eqb_eq.
    + split; [ exact Hr | ]. intros v Hv. discriminate.
  - eexists. reflexivity.
Qed.

Lemma list_page_ordered_by_created_at_witness :
  StronglySorted created_ge
    (items (Api.results_page stable_order_desc None [("page", "1")]
              [sample_row 1 sample_time;
               sample_row 2 (mkDatetime 2024 5 18 9 30 0 0)])).
Proof.
  exact (proj1 (list_page_ordered_by_created_at
                  stable_order_desc None [("page", "1")]
                  [sample_row 1 sample_time;
                   sample_row 2 (mkDatetime 2024 5 18 9 30 0 0)]
                  stable_order_desc_ok)).
Defined.

Lemma checked_on_range (p : Z -> bool) (lo hi : Z) :
  forallb (fun k => p (Z.of_nat k))
          (seq (Z.to_nat lo) (Z.to_nat (hi + 1 - lo))) = true ->
  forall z, 0 <= lo <= z /\ z <= hi -> p z = true.
Proof.
  intros H z Hz. rewrite forallb_forall in H.
  specialize (H (Z.to_nat z)). rewrite Z2Nat.id in H by lia.
  apply H. apply in_seq. lia.
Qed.

Lemma pad_two_digits (z : Z) : 0 <= z <= 99 -> digits_of 2 (pad 2 z) z = true.
Proof.
  intros H.
  apply (checked_on_range (fun z => digits_of 2 (pad 2 z) z) 0 99);
    [ vm_compute; reflexivity | lia ].
Qed.

Lemma pad_four_digits (z : Z) :
  1000 <= z <= 9999 -> digits_of 4 (pad 4 z) z = true.
Proof.
  intros H.
  apply (checked_on_range (fun z => digits_of 4 (pad 4 z) z) 1000 9999);
    [ vm_compute; reflexivity | lia ].
Qed.

Lemma strftime_format (d : datetime) :
  valid_datetime d -> date_created_format (strftime d) d.
Proof.
  intros (Hy & Hmo & Hd & Hh & Hmi & Hs).
  exists (pad 4 (year d)), (pad 2 (month d)), (pad 2 (day d)),
         (pad 2 (hour d)), (pad 2 (minute d)), (pad 2 (second d)).
  split; [ reflexivity | ].
  repeat split; (apply pad_four_digits || apply pad_two_digits); lia.
Qed.

Section ExportSheet.

Variable order : list TestResult -> list TestResult.
Variable shown_length : Api.cell -> Z.

Lemma max_length_nonneg (cells : list Api.cell) (m : Z) :
  0 <= m ->
  0 <= fold_left (fun m c => if m <? shown_length c then shown_length c else m)
                 cells m.
Proof.
  revert m. induction cells as [ | c cells IH]; intros m Hm; cbn; [ exact Hm | ].
  apply IH. destruct (m <? shown_length c) eqn:E; [ | exact Hm ].
  apply Z.ltb_lt in E. lia.
Qed.

Lemma adjusted_width_bounds (cells : list Api.cell) :
  2 <= Api.adjusted_width shown_length cells <= 50.
Proof.
  unfold Api.adjusted_width, Api.max_length.
  pose proof (max_length_nonneg cells 0 (Z.le_refl 0)). lia.
Qed.

End ExportSheet.

(** C8: when pandas is there and the query runs, the export answers with
    the no-data error, and no file, exactly when the store is empty. For a
    store of N > 0 records, the workbook once written, it produces a sheet
    with the 11 named columns and exactly N data rows, one per record; each
    row holds the record's values column by column, the accuracy as the
    stored float and the creation date as [YYYY-MM-DD HH:MM:SS]; and every
    column width is at most 50. *)
Theorem export_sheet_rows_and_columns :
  forall (order : list TestResult -> list TestResult)
         (shown_length : Api.cell -> Z) (writer : option exn)
         (now : datetime) (db : Store),
    orders_by_created_at_desc order ->
    let response :=
      Api.export_test_results order shown_length None None writer now db in
    (response
     = Api.Json 404 (JObj [("error", JStr "No test results to export")])
     <-> db = [])
    /\
    (db <> [] -> writer = None ->
     exists (ws : Api.Worksheet) (name : string),
       response = Api.Attachment ws Api.xlsx_mimetype name /\
       Api.header ws
       = ["ID"; "Text to Translate"; "Translated Text"; "Source Language";
          "Target Language"; "Outcome"; "Observation"; "Accuracy (%)";
          "Tested By"; "Date Created"; "Session ID"] /\
       Api.data_rows ws = map Api.export_row (order db) /\
       Permutation db (order db) /\
       List.length (Api.data_rows ws) = List.length db /\
       List.length (Api.widths ws) = 11%nat /\
       Forall (fun width => width <= 50) (Api.widths ws))
    /\
    (forall r : TestResult,
        List.length (Api.export_row r) = 11%nat /\
        nth 0 (Api.export_row r) Api.CNone = Api.CInt (id r) /\
        nth 1 (Api.export_row r) Api.CNone
        = Api.optional_cell (text_to_translate r) /\
        nth 2 (Api.export_row r) Api.CNone
        = Api.optional_cell (translated_text r) /\
        nth 3 (Api.export_row r) Api.CNone
        = Api.optional_cell (source_language r) /\
        nth 4 (Api.export_row r) Api.CNone
        = Api.optional_cell (target_language r) /\
        nth 5 (Api.export_row r) Api.CNone = Api.CStr (outcome r) /\
        nth 6 (Api.export_row r) Api.CNone
        = Api.optional_cell (observation r) /\
        nth 7 (Api.export_row r) Api.CNone = Api.CFloat (accuracy r) /\
        nth 8 (Api.export_row r) Api.CNone = Api.optional_cell (tested_by r) /\
        nth 10 (Api.export_row r) Api.CNone
        = Api.optional_cell (session_id r) /\
        (forall d : datetime,
            created_at r = Some d -> valid_datetime d ->
            exists s, nth 9 (Api.export_row r) Api.CNone = Api.CStr s /\
                      date_created_format s d)).
Proof.
  intros order shown_length writer now db Hord response. subst response.
  destruct (Hord db) as [Hperm _].
  unfold Api.export_test_results, Api.export_body.
  split; [ | split ].
  - split.
    + destruct (order db) as [ | r rs] eqn:E.
      * intros _. apply Permutation_sym, Permutation_nil in Hperm. exact Hperm.
      * destruct writer as [e | ]; [ | discriminate ].
        destruct (is_instance e [ImportError]); discriminate.
    + intros ->. apply Permutation_nil in Hperm. rewrite Hperm. reflexivity.
  - intros Hne ->.
    destruct (order db) as [ | r rs] eqn:E.
    + apply Permutation_sym, Permutation_nil in Hperm. contradiction.
    + do 2 eexists. split; [ reflexivity | ]. cbn [Api.header Api.data_rows].
      split; [ reflexivity | ]. split; [ reflexivity | ].
      split; [ exact Hperm | ].
      split; [ rewrite length_map; symmetry;
               now apply Permutation_length | ].
      cbn [Api.widths]. split; [ reflexivity | ].
      apply Forall_forall. intros width Hw. apply in_map_iff in Hw.
      destruct Hw as (j & <- & _).
      apply adjusted_width_bounds.
  - intros r. repeat split.
    intros d Hd Hv. cbn [Api.export_row nth]. rewrite Hd.
    eexists. split; [ reflexivity | ]. now apply strftime_format.
Qed.

Lemma export_sheet_rows_and_columns_witness :
  exists (ws : Api.Worksheet) (name : string),
    Api.export_test_results stable_order_desc (fun _ => 70) None None None
      sample_time [sample_row 1 sample_time]
    = Api.Attachment ws Api.xlsx_mimetype name /\
    Api.header ws
    = ["ID"; "Text to Translate"; "Translated Text"; "Source Language";
       "Target Language"; "Outcome"; "Observation"; "Accuracy (%)";
       "Tested By"; "Date Created"; "Session ID"] /\
    Api.data_rows ws
    = map Api.export_row (stable_order_desc [sample_row 1 sample_time]) /\
    Permutation [sample_row 1 sample_time]
                (stable_order_desc [sample_row 1 sample_time]) /\
    List.length (Api.data_rows ws) = 1%nat /\
    List.length (Api.widths ws) = 11%nat /\
    Forall (fun width => width <= 50) (Api.widths ws).
Proof.
  apply (proj1 (proj2 (export_sheet_rows_and_columns
                         stable_order_desc (fun _ => 70) None sample_time
                         [sample_row 1 sample_time] stable_order_desc_ok))).
  - discriminate.
  - reflexivity.
Defined.

(* ================================================================== *)
(** ** Worked cases                                                    *)
(* ================================================================== *)

(** The translation of "Hello" to French, end to end. *)
Example translate_hello :
  let body :=
    JArr [JObj [("detectedLanguage",
                 JObj [("language", JStr "en"); ("score", JInt 1)]);
                ("translations",
                 JArr [JObj [("text", JStr "Bonjour"); ("to", JStr "fr")]])]] in
  fst (Api.translate configured (Translator.init configured)
         (JObj [("text", JStr "Hello"); ("target_language", JStr "fr")])
         (answering body))
  = Return (Api.Json 200
              (JObj [("success", JBool true);
                     ("translated_text", JStr "Bonjour");
                     ("source_language", JStr "en");
                     ("target_language", JStr "fr")])).
Proof. reflexivity. Qed.

(** Responses of an unexpected shape, and an error status. *)
Example translate_empty_array :
  fst (Translator.translate_text configured (Translator.init configured)
         "Hello" "fr" (answering (JArr [])))
  = Translator.failure "Translation failed: Invalid translation response".
Proof. reflexivity. Qed.

Example translate_no_translation :
  fst (Translator.translate_text configured (Translator.init configured)
         "Hello" "fr" (answering (JArr [JObj [("translations", JArr [])]])))
  = Translator.failure "Translation failed: list index out of range".
Proof. reflexivity. Qed.

Example translate_unauthorized :
  fst (Translator.translate_text configured (Translator.init configured)
         "Hello" "fr"
         (mkNet [] (fun _ r => Return (mkResponse 401 "Unauthorized"
                                         (req_url r) (Return JNull)))))
  = Translator.failure
      "Translation service error: 401 Client Error: Unauthorized for url: https://host/translator/text/v3.0/translate".
Proof. reflexivity. Qed.

(** The accuracy "95.5" is accepted and stored as 95.5. *)
Example accuracy_ninety_five_and_a_half :
  exists f q,
    Utils.validate_test_result_data
      (JObj [("outcome", JStr "Success"); ("accuracy", JStr "95.5")])
    = Return (true, None, Some f) /\
    float_value f = Some q /\ Qeq_bool q (191 # 2) = true.
Proof. do 2 eexists. repeat split. Qed.

(** An int too large for a float: [float] raises [OverflowError], which
    the validator does not catch. *)
Example accuracy_too_large_an_int :
  Utils.validate_test_result_data
    (JObj [("outcome", JStr "Success"); ("accuracy", JInt (10 ^ 400))])
  = Raise (mkExn OverflowError "int too large to convert to float").
Proof. vm_compute. reflexivity. Qed.

(** The catalog: names sorted, the code standing in for a missing name. *)
Example languages_sorted_by_name :
  fst (fst (Translator.get_supported_languages
              (fun _ => Raise (mkExn TypeError ""))
              (Translator.init configured)
              (answering
                 (JObj [("translation",
                         JObj [("de", JObj [("name", JStr "German")]);
                               ("af", JObj [("name", JStr "Afrikaans")]);
                               ("cy", JObj [])])]))))
  = [Translator.sentinel;
     Translator.mkLang "af" (JStr "Afrikaans");
     Translator.mkLang "de" (JStr "German");
     Translator.mkLang "cy" (JStr "cy")].
Proof. reflexivity. Qed.

(* ================================================================== *)
(** ** Further properties: the validators                              *)
(* ================================================================== *)

(** X1: what a verdict of [validate_test_result_data] looks like. An
    acceptance carries no message and an accuracy; the payload is then an
    object with a truthy outcome and a truthy accuracy that [float]
    converts, to NaN or to a value from 0 to 100. A rejection carries no
    accuracy and one of the five messages. *)
Theorem test_result_verdict :
  forall (data : json) (ok : bool) (msg : option string) (acc : option float),
    Utils.validate_test_result_data data = Return (ok, msg, acc) ->
    (ok = true ->
     msg = None /\
     exists o v av a,
       data = JObj o /\
       assoc "outcome" o = Some v /\ truthy v = true /\
       assoc "accuracy" o = Some av /\ truthy av = true /\
       to_float av = Return a /\ acc = Some a /\
       (a = S754_nan \/
        exists q, float_value a = Some q /\ (0 <= q)%Q /\ (q <= 100)%Q))
    /\
    (ok = false ->
     acc = None /\
     exists m, msg = Some m /\
               In m ["No data provided"; "Outcome is required";
                     "Accuracy is required";
                     "Accuracy must be between 0 and 100";
                     "Accuracy must be a valid number"]).
Proof.
  intros data ok msg acc. unfold Utils.validate_test_result_data.
  destruct (truthy data) eqn:Ht; cbn [negb].
  2:{ intros H; inversion H; subst. split; [ discriminate | ].
      intros _. split; [ reflexivity | ]. eexists; split; [ reflexivity | ].
      cbn; auto. }
  destruct data as [ | | | | | | o]; cbn [get1 get bind]; try discriminate.
  destruct (assoc "outcome" o) as [v | ] eqn:Eo.
  2:{ cbn [truthy negb]. intros H; inversion H; subst.
      split; [ discriminate | ]. intros _. split; [ reflexivity | ].
      eexists; split; [ reflexivity | ]. cbn; auto. }
  destruct (truthy v) eqn:Hv; cbn [negb].
  2:{ intros H; inversion H; subst. split; [ discriminate | ].
      intros _. split; [ reflexivity | ]. eexists; split; [ reflexivity | ].
      cbn; auto. }
  destruct (assoc "accuracy" o) as [av | ] eqn:Ea.
  2:{ cbn [truthy negb]. intros H; inversion H; subst.
      split; [ discriminate | ]. intros _. split; [ reflexivity | ].
      eexists; split; [ reflexivity | ]. cbn; auto. }
  destruct (truthy av) eqn:Hav; cbn [negb].
  2:{ intros H; inversion H; subst. split; [ discriminate | ].
      intros _. split; [ reflexivity | ]. eexists; split; [ reflexivity | ].
      cbn; auto. }
  destruct (to_float av) as [a | e] eqn:Ef.
  - destruct (float_lt_int a 0 || float_gt_int a 100) eqn:R;
      intros H; inversion H; subst.
    + split; [ discriminate | ]. intros _. split; [ reflexivity | ].
      eexists; split; [ reflexivity | ]. cbn; auto.
    + split; [ | discriminate ]. intros _. split; [ reflexivity | ].
      exists o, v, av, a. repeat split; auto.
      now apply range_test_passed.
  - destruct (is_instance e [ValueError; TypeError]); [ | discriminate ].
    intros H; inversion H; subst. split; [ discriminate | ].
    intros _. split; [ reflexivity | ]. eexists; split; [ reflexivity | ].
    cbn; auto 6.
Qed.

Lemma test_result_verdict_witness :
  exists o v av a,
    JObj [("outcome", JStr "Failure"); ("accuracy", JStr "12.5")] = JObj o /\
    assoc "outcome" o = Some v /\ truthy v = true /\
    assoc "accuracy" o = Some av /\ truthy av = true /\
    to_float av = Return a /\
    Some (S754_finite false 7036874417766400 (-49)) = Some a /\
    (a = S754_nan \/
     exists q, float_value a = Some q /\ (0 <= q)%Q /\ (q <= 100)%Q).
Proof.
  exact (proj2 (proj1 (test_result_verdict
           (JObj [("outcome", JStr "Failure"); ("accuracy", JStr "12.5")])
           true None (Some (S754_finite false 7036874417766400 (-49)))
           eq_refl) eq_refl)).
Defined.

(** The verdict on a request object depends on the payload through the
    truth of its outcome and through its accuracy alone. *)
Lemma verdict_by_fields (o : list (string * json)) (v av : json) :
  assoc "outcome" o = Some v -> truthy v = true ->
  assoc "accuracy" o = Some av ->
  Utils.validate_test_result_data (JObj o)
  = Utils.validate_test_result_data
      (JObj [("outcome", JStr "Success"); ("accuracy", av)]).
Proof.
  intros Ho Hv Ha. unfold Utils.validate_test_result_data, get1, get.
  assert (Ht : truthy (JObj o) = true)
    by (destruct o; [ discriminate | reflexivity ]).
  rewrite Ht, Ho, Ha. cbn [bind negb]. rewrite Hv. reflexivity.
Qed.

(** X2: whole percentages, bounds included. In a request object with a
    truthy outcome every integer from 1 to 100 sent as a number, and every
    integer from 0 to 100 sent as its decimal str, is accepted, and the
    accuracy returned is exactly that integer. *)
Theorem whole_percentages_accepted :
  forall (o : list (string * json)) (v : json) (z : Z),
    assoc "outcome" o = Some v -> truthy v = true ->
    (1 <= z <= 100 -> assoc "accuracy" o = Some (JInt z) ->
     accepted_as (JObj o) z = true) /\
    (0 <= z <= 100 -> assoc "accuracy" o = Some (JStr (str_of_Z z)) ->
     accepted_as (JObj o) z = true).
Proof.
  intros o v z Ho Hv. split; intros H Ha; unfold accepted_as;
    rewrite (verdict_by_fields o v _ Ho Hv Ha).
  - apply (checked_on_range
             (fun z => accepted_as
                         (JObj [("outcome", JStr "Success");
                                ("accuracy", JInt z)]) z) 1 100);
      [ vm_compute; reflexivity | lia ].
  - apply (checked_on_range
             (fun z => accepted_as
                         (JObj [("outcome", JStr "Success");
                                ("accuracy", JStr (str_of_Z z))]) z) 0 100);
      [ vm_compute; reflexivity | lia ].
Qed.

Lemma whole_percentages_accepted_witness :
  accepted_as (JObj [("outcome", JBool true); ("accuracy", JInt 100)]) 100
  = true /\
  accepted_as (JObj [("outcome", JStr "Failure"); ("accuracy", JStr "0")]) 0
  = true.
Proof.
  split.
  - apply (proj1 (whole_percentages_accepted
                    [("outcome", JBool true); ("accuracy", JInt 100)]
                    (JBool true) 100 eq_refl eq_refl));
      [ lia | reflexivity ].
  - apply (proj2 (whole_percentages_accepted
                    [("outcome", JStr "Failure"); ("accuracy", JStr "0")]
                    (JStr "Failure") 0 eq_refl eq_refl));
      [ lia | reflexivity ].
Defined.

(** The comparisons of a float with an int, read on the value the float
    denotes. *)
Lemma float_lt_int_value (f : float) (z : Z) (q : Q) :
  float_value f = Some q ->
  (float_lt_int f z = true <-> (q < inject_Z z)%Q).
Proof.
  destruct f as [s | s | | s m e]; cbn [float_value float_lt_int];
    try discriminate; intros H; inversion H; subst; clear H.
  - rewrite Z.ltb_lt. unfold Qlt; cbn. lia.
  - destruct (0 <=? e) eqn:He.
    + rewrite Z.ltb_lt. unfold Qlt; cbn. lia.
    + apply Z.leb_gt in He.
      assert (Hp : 0 < 2 ^ (- e)) by (apply Z.pow_pos_nonneg; lia).
      rewrite Z.ltb_lt. unfold Qlt; cbn [Qnum Qden inject_Z].
      rewrite Z2Pos.id by lia. lia.
Qed.

Lemma float_gt_int_value (f : float) (z : Z) (q : Q) :
  float_value f = Some q ->
  (float_gt_int f z = true <-> (inject_Z z < q)%Q).
Proof.
  destruct f as [s | s | | s m e]; cbn [float_value float_gt_int];
    try discriminate; intros H; inversion H; subst; clear H.
  - rewrite Z.ltb_lt. unfold Qlt; cbn. lia.
  - destruct (0 <=? e) eqn:He.
    + rewrite Z.ltb_lt. unfold Qlt; cbn. lia.
    + apply Z.leb_gt in He.
      assert (Hp : 0 < 2 ^ (- e)) by (apply Z.pow_pos_nonneg; lia).
      rewrite Z.ltb_lt. unfold Qlt; cbn [Qnum Qden inject_Z].
      rewrite Z2Pos.id by lia. lia.
Qed.

(** X3: an accuracy sent as a JSON float, in a request object with a truthy
    outcome. A zero of either sign is answered 'Accuracy is required'; an
    infinity, and a finite value below 0 or above 100, 'Accuracy must be
    between 0 and 100'; a finite value from 0 to 100 that is no zero is
    accepted and returned unchanged. *)
Theorem float_accuracy_verdict :
  forall (o : list (string * json)) (v : json) (f : float),
    assoc "outcome" o = Some v -> truthy v = true ->
    assoc "accuracy" o = Some (JFloat f) ->
    (forall s, f = S754_zero s ->
       Utils.validate_test_result_data (JObj o)
       = Return (false, Some "Accuracy is required", None))
    /\
    (forall s, f = S754_infinity s ->
       Utils.validate_test_result_data (JObj o)
       = Return (false, Some "Accuracy must be between 0 and 100", None))
    /\
    (forall s m e q, f = S754_finite s m e -> float_value f = Some q ->
       ((0 <= q)%Q /\ (q <= 100)%Q ->
        Utils.validate_test_result_data (JObj o) = Return (true, None, Some f))
       /\
       ((q < 0)%Q \/ (100 < q)%Q ->
        Utils.validate_test_result_data (JObj o)
        = Return (false, Some "Accuracy must be between 0 and 100", None))).
Proof.
  intros o v f Ho Hv Ha.
  rewrite (verdict_by_fields o v _ Ho Hv Ha).
  split; [ | split ].
  - intros s ->. reflexivity.
  - intros s ->. destruct s; reflexivity.
  - intros s m e q -> Hq.
    pose proof (float_lt_int_value _ 0 q Hq) as Hlt.
    pose proof (float_gt_int_value _ 100 q Hq) as Hgt.
    unfold Utils.validate_test_result_data.
    cbn [truthy negb get1 get assoc String.eqb Ascii.eqb Bool.eqb bind to_float].
    split.
    + intros [H0 H100].
      assert (E1 : float_lt_int (S754_finite s m e) 0 = false).
      { apply not_true_is_false. intros E. apply Hlt in E.
        apply (Qlt_not_le _ _ E). exact H0. }
      assert (E2 : float_gt_int (S754_finite s m e) 100 = false).
      { apply not_true_is_false. intros E. apply Hgt in E.
        apply (Qlt_not_le _ _ E). exact H100. }
      rewrite E1, E2. reflexivity.
    + intros [H | H].
      * apply Hlt in H. rewrite H. reflexivity.
      * apply Hgt in H. rewrite H, orb_true_r. reflexivity.
Qed.

Lemma float_accuracy_verdict_witness :
  Utils.validate_test_result_data
    (JObj [("outcome", JStr "Success");
           ("accuracy", JFloat (S754_finite false 7036874417766400 (-49)))])
  = Return (true, None, Some (S754_finite false 7036874417766400 (-49))).
Proof.
  apply (proj1 (proj2 (proj2 (float_accuracy_verdict
           [("outcome", JStr "Success");
            ("accuracy", JFloat (S754_finite false 7036874417766400 (-49)))]
           (JStr "Success") (S754_finite false 7036874417766400 (-49))
           eq_refl eq_refl eq_refl))
           false 7036874417766400%positive (-49)
           (Qmake 7036874417766400 (Z.to_pos (2 ^ 49))) eq_refl eq_refl)).
  split; unfold Qle; cbn; lia.
Defined.

(** What [strip] leaves has no white space at either end. *)
Lemma lstrip_first (s : string) (c : ascii) :
  first_char (lstrip s) = Some c -> isspace c = false.
Proof.
  induction s as [ | a s IH]; cbn; [ discriminate | ].
  destruct (isspace a) eqn:E; [ exact IH | ].
  cbn. intros H; inversion H; subst. exact E.
Qed.

Lemma rstrip_last (s : string) (c : ascii) :
  last_char (rstrip s) = Some c -> isspace c = false.
Proof.
  revert c. induction s as [ | a s IH]; intros c; cbn; [ discriminate | ].
  destruct (rstrip s) as [ | b r] eqn:E.
  - destruct (isspace a) eqn:Ea; cbn; [ discriminate | ].
    intros H; inversion H; subst. exact Ea.
  - cbn. intros H. apply IH. exact H.
Qed.

Lemma rstrip_first (s : string) (c : ascii) :
  first_char (rstrip s) = Some c -> first_char s = Some c.
Proof.
  destruct s as [ | a s]; cbn; [ discriminate | ].
  destruct (rstrip s); [ destruct (isspace a) | ]; cbn; congruence.
Qed.

Lemma str_strip_trimmed (s : string) : trimmed (str_strip s).
Proof.
  unfold trimmed, str_strip. split; intros c H.
  - apply rstrip_first in H. now apply lstrip_first in H.
  - now apply rstrip_last in H.
Qed.

(** A field the validator could strip is a str, the empty one when the
    key is missing. *)
Lemma stripped_field (o : list (string * json)) (k : string) (v : json)
      (s : string) :
  get (JObj o) k (JStr "") = Return v -> strip v = Return s ->
  exists t, str_field o k = Some t /\ s = str_strip t.
Proof.
  unfold get, str_field. intros G S. inversion G; subst; clear G.
  destruct (assoc k o) as [[ | | | | t | | ] | ]; cbn in S;
    try discriminate; inversion S; eauto.
Qed.

(** The fields of an accepted translation request. *)
Lemma accepted_request_fields :
  forall (data : json) (msg : option string),
    Utils.validate_translation_request data = Return (true, msg) ->
    msg = None /\
    exists (o : list (string * json)) (text lang : string),
      data = JObj o /\
      str_field o "text" = Some text /\
      str_field o "target_language" = Some lang /\
      str_strip text <> "" /\
      Z.of_nat (String.length (str_strip text)) <= 5000 /\
      trimmed (str_strip text) /\
      str_strip lang <> "".
Proof.
  intros data msg. unfold Utils.validate_translation_request.
  destruct (truthy data) eqn:Ht; cbn [negb]; [ | discriminate ].
  destruct (get data "text" (JStr "")) as [t | e] eqn:Gt; cbn [bind];
    [ | discriminate ].
  destruct (strip t) as [source_text | e] eqn:St; cbn [bind];
    [ | discriminate ].
  destruct (get data "target_language" (JStr "")) as [l | e] eqn:Gl;
    cbn [bind]; [ | discriminate ].
  destruct (strip l) as [target_language | e] eqn:Sl; cbn [bind];
    [ | discriminate ].
  cbn [truthy]. unfold Utils.len_gt.
  destruct (String.eqb_spec source_text ""); cbn [negb]; [ discriminate | ].
  destruct (String.eqb_spec target_language ""); cbn [negb];
    [ discriminate | ].
  destruct (Z.ltb_spec 5000 (Z.of_nat (String.length source_text)));
    [ discriminate | ].
  intros Hr; inversion Hr; subst. split; [ reflexivity | ].
  destruct (get_returns _ _ _ _ Gt) as [o ->].
  destruct (stripped_field o "text" t source_text Gt St) as (text & Ft & ->).
  destruct (stripped_field o "target_language" l target_language Gl Sl)
    as (lang & Fl & ->).
  exists o, text, lang. repeat split; try assumption;
    apply str_strip_trimmed.
Qed.

(** X4: what an acceptance by [validate_translation_request] guarantees.
    The payload is an object whose [text] and [target_language] are strs
    (a missing one counts as empty), the stripped text is not empty, has at
    most 5000 characters and no white space at either end, and the stripped
    target language is not empty. So a text of white space alone is never
    accepted. *)
Theorem translation_request_accepted :
  forall (data : json) (msg : option string),
    Utils.validate_translation_request data = Return (true, msg) ->
    msg = None /\
    exists (o : list (string * json)) (text lang : string),
      data = JObj o /\
      str_field o "text" = Some text /\
      str_field o "target_language" = Some lang /\
      str_strip text <> "" /\
      Z.of_nat (String.length (str_strip text)) <= 5000 /\
      trimmed (str_strip text) /\
      str_strip lang <> "".
Proof. exact accepted_request_fields. Qed.

Lemma translation_request_accepted_witness :
  exists (o : list (string * json)) (text lang : string),
    JObj [("text", JStr " Hello "); ("target_language", JStr "fr")] = JObj o /\
    str_field o "text" = Some text /\
    str_field o "target_language" = Some lang /\
    str_strip text <> "" /\
    Z.of_nat (String.length (str_strip text)) <= 5000 /\
    trimmed (str_strip text) /\
    str_strip lang <> "".
Proof.
  exact (proj2 (translation_request_accepted
                  (JObj [("text", JStr " Hello "); ("target_language", JStr "fr")])
                  None eq_refl)).
Defined.

(* ================================================================== *)
(** ** Further properties: the /translate handler and the client       *)
(* ================================================================== *)

(** What the body of the [try] of [translate_text] returns is the
    translation dict for the language asked for. *)
Lemma translate_body_returns
      (self : Translator.TranslatorService) (text lang : string) (w : Net)
      (r : json) :
  fst (Translator.translate_body self text lang w) = Return r ->
  exists t s, r = translated t s lang.
Proof.
  unfold Translator.translate_body, send. cbn [fst].
  destruct (reply w _ _) as [response | ]; cbn [bind]; [ | discriminate ].
  destruct (raise_for_status response); cbn [bind]; [ | discriminate ].
  destruct (decoded response) as [result | ]; cbn [bind]; [ | discriminate ].
  destruct (Translator.has_translations result) as [[] | ]; cbn [bind];
    try discriminate.
  destruct (getitem0 result) as [first | ]; cbn [bind]; [ | discriminate ].
  destruct (getitem first "translations") as [ts | ]; cbn [bind];
    [ | discriminate ].
  destruct (getitem0 ts) as [tr | ]; cbn [bind]; [ | discriminate ].
  destruct (getitem tr "text") as [t | ]; cbn [bind]; [ | discriminate ].
  destruct (get first "detectedLanguage" (JObj [])) as [d | ]; cbn [bind];
    [ | discriminate ].
  destruct (get d "language" (JStr "auto")) as [l | ]; cbn [bind];
    [ | discriminate ].
  intros H; inversion H. exists t, l. reflexivity.
Qed.

Lemma classify_is_failure (e : exn) :
  exists msg, Translator.classify e = Translator.failure msg.
Proof.
  unfold Translator.classify.
  destruct (is_instance e [Timeout]); eauto.
  destruct (is_instance e [Timeout; RequestException]); eauto.
Qed.

(** The result of [translate_text] and what it did to the network. *)
Lemma translate_text_outcome
      (cfg : Config.AzureTranslatorConfig)
      (self : Translator.TranslatorService) (text lang : string) (w : Net) :
  ((exists t s,
       fst (Translator.translate_text cfg self text lang w)
       = translated t s lang) \/
   (exists msg,
       fst (Translator.translate_text cfg self text lang w)
       = Translator.failure msg))
  /\
  snd (Translator.translate_text cfg self text lang w)
  = if Config.is_configured cfg then
      mkNet (calls w ++ [Translator.translate_request self text lang])%list
            (reply w)
    else w.
Proof.
  unfold Translator.translate_text.
  destruct (Config.is_configured cfg); cbn [negb].
  - pose proof (translate_body_returns self text lang w) as Hr.
    assert (Hs : snd (Translator.translate_body self text lang w)
                 = mkNet (calls w
                          ++ [Translator.translate_request self text lang])%list
                         (reply w)) by reflexivity.
    destruct (Translator.translate_body self text lang w) as [[r | e] w'];
      cbn [fst snd] in *; (split; [ | exact Hs ]).
    + left. apply Hr. reflexivity.
    + right. apply classify_is_failure.
  - split; [ right; eexists; reflexivity | reflexivity ].
Qed.

(** The handler on an accepted payload: the stripped fields go to the
    client. *)
Lemma translate_on_accept
      (cfg : Config.AzureTranslatorConfig) (svc : Translator.TranslatorService)
      (data : json) (msg : option string) (w : Net) :
  Utils.validate_translation_request data = Return (true, msg) ->
  exists (o : list (string * json)) (text lang : string),
    data = JObj o /\
    str_field o "text" = Some text /\
    str_field o "target_language" = Some lang /\
    Api.translate cfg svc data w
    = (let (result, w') :=
         Translator.translate_text cfg svc (str_strip text) (str_strip lang) w
       in (ok <- getitem result "success" ;;
           if truthy ok then Return (Api.Json 200 result)
           else Return (Api.Json 500 result), w')).
Proof.
  unfold Utils.validate_translation_request, Api.translate.
  destruct (truthy data) eqn:Ht; cbn [negb]; [ | discriminate ].
  destruct (get data "text" (JStr "")) as [t | e] eqn:Gt; cbn [bind];
    [ | discriminate ].
  destruct (strip t) as [source_text | e] eqn:St; cbn [bind];
    [ | discriminate ].
  destruct (get data "target_language" (JStr "")) as [l | e] eqn:Gl;
    cbn [bind]; [ | discriminate ].
  destruct (strip l) as [target_language | e] eqn:Sl; cbn [bind];
    [ | discriminate ].
  destruct (negb (truthy (JStr source_text))); [ discriminate | ].
  destruct (negb (truthy (JStr target_language))); [ discriminate | ].
  destruct (Utils.len_gt source_text 5000); [ discriminate | ].
  intros _.
  destruct (get_returns _ _ _ _ Gt) as [o ->].
  destruct (stripped_field o "text" t source_text Gt St) as (text & Ft & ->).
  destruct (stripped_field o "target_language" l target_language Gl Sl)
    as (lang & Fl & ->).
  exists o, text, lang. repeat split; assumption.
Qed.

(** The handler on a payload that is not accepted: the network is left as
    it was. *)
Lemma translate_on_refusal
      (cfg : Config.AzureTranslatorConfig) (svc : Translator.TranslatorService)
      (data : json) (w : Net) :
  (forall msg, Utils.validate_translation_request data <> Return (true, msg)) ->
  snd (Api.translate cfg svc data w) = w.
Proof.
  unfold Utils.validate_translation_request, Api.translate.
  destruct (negb (truthy data)); [ reflexivity | ].
  destruct (get data "text" (JStr "")) as [t | e]; cbn [bind];
    [ | reflexivity ].
  destruct (strip t) as [source_text | e]; cbn [bind]; [ | reflexivity ].
  destruct (get data "target_language" (JStr "")) as [l | e]; cbn [bind];
    [ | reflexivity ].
  destruct (strip l) as [target_language | e]; cbn [bind]; [ | reflexivity ].
  destruct (negb (truthy (JStr source_text))); [ reflexivity | ].
  destruct (negb (truthy (JStr target_language))); [ reflexivity | ].
  destruct (Utils.len_gt source_text 5000); [ reflexivity | ].
  intros H. exfalso. apply (H None). reflexivity.
Qed.

(** X5: the /translate handler sends nothing unless the payload passes
    validation and the client is configured. Whenever the validator rejects
    the payload or raises, and whenever the credentials are incomplete, the
    network is left exactly as it was. *)
Theorem translate_sends_nothing_on_refusal :
  forall (cfg : Config.AzureTranslatorConfig)
         (svc : Translator.TranslatorService) (data : json) (w : Net),
    (forall msg, Utils.validate_translation_request data <> Return (true, msg))
    \/ Config.is_configured cfg = false ->
    snd (Api.translate cfg svc data w) = w.
Proof.
  intros cfg svc data w [H | H].
  - now apply translate_on_refusal.
  - destruct (Utils.validate_translation_request data)
      as [[[] msg] | e] eqn:Ev.
    + destruct (translate_on_accept cfg svc data msg w Ev)
        as (o & text & lang & _ & _ & _ & ->).
      pose proof (translate_text_outcome cfg svc (str_strip text)
                    (str_strip lang) w) as [_ Hs].
      rewrite H in Hs.
      destruct (Translator.translate_text cfg svc (str_strip text)
                  (str_strip lang) w) as [result w'].
      exact Hs.
    + apply translate_on_refusal. intros m. rewrite Ev. discriminate.
    + apply translate_on_refusal. intros m. rewrite Ev. discriminate.
Qed.

Lemma translate_sends_nothing_on_refusal_witness :
  snd (Api.translate configured (Translator.init configured)
         (JObj [("text", JStr "   "); ("target_language", JStr "fr")])
         (answering JNull))
  = answering JNull.
Proof.
  apply translate_sends_nothing_on_refusal.
  left. intros msg. discriminate.
Defined.

(** X6: the request the /translate handler sends. When the payload passes
    validation and the client is configured, the payload is an object whose
    [text] and [target_language] are strs, and exactly one request is added
    to the network: a POST to the translate path of the endpoint with a
    timeout of 30, the key and the region of the service in its headers,
    the stripped [target_language] of the payload as [to], and the stripped
    [text] of the payload as the one element of the JSON body. That text is
    not empty, has at most 5000 characters and no white space at either
    end. *)
Theorem translate_request_sent :
  forall (cfg : Config.AzureTranslatorConfig)
         (svc : Translator.TranslatorService) (data : json)
         (msg : option string) (w : Net),
    Utils.validate_translation_request data = Return (true, msg) ->
    Config.is_configured cfg = true ->
    exists (o : list (string * json)) (text lang : string),
      data = JObj o /\
      str_field o "text" = Some text /\
      str_field o "target_language" = Some lang /\
      calls (snd (Api.translate cfg svc data w))
      = (calls w
         ++ [mkRequest POST
               (Translator.str_or_None (Translator.endpoint svc)
                ++ "/translator/text/v3.0/translate")
               [("api-version", "3.0"); ("to", str_strip lang)]
               [("Ocp-Apim-Subscription-Key", Translator.subscription_key svc);
                ("Ocp-Apim-Subscription-Region", Translator.region svc);
                ("Content-Type", Some "application/json")]
               (Some (JArr [JObj [("text", JStr (str_strip text))]]))
               30])%list /\
      str_strip text <> "" /\
      Z.of_nat (String.length (str_strip text)) <= 5000 /\
      trimmed (str_strip text) /\
      str_strip lang <> "" /\ trimmed (str_strip lang).
Proof.
  intros cfg svc data msg w Hv Hc.
  destruct (accepted_request_fields data msg Hv)
    as (_ & o & text & lang & -> & Ft & Fl & Hne & Hlen & Htr & Hl).
  destruct (translate_on_accept cfg svc (JObj o) msg w Hv)
    as (o' & text' & lang' & Ho & Ft' & Fl' & ->).
  inversion Ho; subst o'. rewrite Ft in Ft'. rewrite Fl in Fl'.
  inversion Ft'; inversion Fl'; subst text' lang'.
  pose proof (translate_text_outcome cfg svc (str_strip text)
                (str_strip lang) w) as [_ Hs].
  rewrite Hc in Hs.
  destruct (Translator.translate_text cfg svc (str_strip text)
              (str_strip lang) w) as [result w'].
  cbn [snd] in *. subst w'.
  exists o, text, lang.
  repeat split; try assumption; try apply str_strip_trimmed.
Qed.

Lemma translate_request_sent_witness :
  calls (snd (Api.translate configured (Translator.init configured)
                (JObj [("text", JStr " Hello ");
                       ("target_language", JStr "fr ")])
                (answering JNull)))
  = [mkRequest POST "https://host/translator/text/v3.0/translate"
       [("api-version", "3.0"); ("to", "fr")]
       [("Ocp-Apim-Subscription-Key", Some "key");
        ("Ocp-Apim-Subscription-Region", Some "westeurope");
        ("Content-Type", Some "application/json")]
       (Some (JArr [JObj [("text", JStr "Hello")]]))
       30].
Proof.
  destruct (translate_request_sent configured (Translator.init configured)
              (JObj [("text", JStr " Hello "); ("target_language", JStr "fr ")])
              None (answering JNull) eq_refl eq_refl)
    as (o & text & lang & Ho & Ft & Fl & Hc & _).
  inversion Ho; subst o. inversion Ft; subst text. inversion Fl; subst lang.
  exact Hc.
Defined.

(** X7: the answers of the /translate handler. Whenever the validator
    returns a verdict the handler returns a response: status 400 with the
    validator's message when the verdict is a rejection, and otherwise
    status 200 with the translation dict or status 500 with a failure
    dict. *)
Theorem translate_status :
  forall (cfg : Config.AzureTranslatorConfig)
         (svc : Translator.TranslatorService) (data : json) (w : Net)
         (ok : bool) (msg : option string),
    Utils.validate_translation_request data = Return (ok, msg) ->
    exists (status : Z) (body : json),
      fst (Api.translate cfg svc data w) = Return (Api.Json status body) /\
      ((ok = false /\ status = 400 /\
        exists m, msg = Some m /\ body = Api.error_body m) \/
       (ok = true /\ status = 200 /\
        exists t s lang, body = translated t s lang) \/
       (ok = true /\ status = 500 /\
        exists m, body = Translator.failure m)).
Proof.
  intros cfg svc data w ok msg Hv. destruct ok.
  - destruct (translate_on_accept cfg svc data msg w Hv)
      as (o & text & lang & _ & _ & _ & ->).
    pose proof (translate_text_outcome cfg svc (str_strip text)
                  (str_strip lang) w) as [Hr _].
    destruct (Translator.translate_text cfg svc (str_strip text)
                (str_strip lang) w) as [result w'].
    cbn [fst] in *.
    destruct Hr as [(t & s & ->) | (m & ->)].
    + exists 200, (translated t s (str_strip lang)). split; [ reflexivity | ].
      right; left. repeat split. eauto.
    + exists 500, (Translator.failure m). split; [ reflexivity | ].
      right; right. repeat split. eauto.
  - pose proof (translate_follows_validator cfg svc data w) as H.
    rewrite Hv in H. destruct msg as [m | ]; [ | contradiction ].
    rewrite H. exists 400, (Api.error_body m). split; [ reflexivity | ].
    left. repeat split. eauto.
Qed.

Lemma translate_status_witness :
  exists (status : Z) (body : json),
    fst (Api.translate configured (Translator.init configured)
           (JObj [("text", JStr "Hello")]) (answering JNull))
    = Return (Api.Json status body) /\
    ((false = false /\ status = 400 /\
      exists m, Some "Please select a target language" = Some m /\
                body = Api.error_body m) \/
     (false = true /\ status = 200 /\
      exists t s lang, body = translated t s lang) \/
     (false = true /\ status = 500 /\
      exists m, body = Translator.failure m)).
Proof.
  exact (translate_status configured (Translator.init configured)
           (JObj [("text", JStr "Hello")]) (answering JNull)
           false (Some "Please select a target language") eq_refl).
Defined.

(** X8: what [translate_text] takes from a response of the expected shape.
    With the client configured, a status that is no error and a decoded
    array whose first element holds a [translations] array with a [text] in
    its first element, the result is the translation dict with that text;
    the source language is the detected one, or "auto" when the element has
    no [detectedLanguage] or that has no [language]. A [detectedLanguage]
    that is no object turns the call into a failure, the translation being
    there all the same. *)
Theorem translate_text_extracts :
  forall (cfg : Config.AzureTranslatorConfig)
         (self : Translator.TranslatorService) (text lang : string) (w : Net)
         (response : Response)
         (first tr : list (string * json)) (more more' : list json) (t : json),
    Config.is_configured cfg = true ->
    reply w (List.length (calls w)) (Translator.translate_request self text lang)
    = Return response ->
    status_code response < 400 \/ 600 <= status_code response ->
    decoded response = Return (JArr (JObj first :: more)) ->
    assoc "translations" first = Some (JArr (JObj tr :: more')) ->
    assoc "text" tr = Some t ->
    fst (Translator.translate_text cfg self text lang w)
    = match assoc "detectedLanguage" first with
      | None => translated t (JStr "auto") lang
      | Some (JObj d) =>
          translated t (match assoc "language" d with
                        | Some l => l
                        | None => JStr "auto"
                        end) lang
      | Some other =>
          Translator.failure
            ("Translation failed: '" ++ type_name other
             ++ "' object has no attribute 'get'")
      end.
Proof.
  intros cfg self text lang w response first tr more more' t
         Hc Hr Hs Hd Hts Ht.
  apply raise_for_status_ok in Hs.
  unfold Translator.translate_text, Translator.translate_body, send.
  rewrite Hc. cbn [negb]. rewrite Hr. cbn [bind]. rewrite Hs. cbn [bind].
  rewrite Hd. cbn [bind].
  assert (Hh : Translator.has_translations (JArr (JObj first :: more))
               = Return true).
  { unfold Translator.has_translations.
    cbn [truthy negb len bind getitem0 contains].
    rewrite Hts.
    destruct (0 <? Z.of_nat (List.length (JObj first :: more))) eqn:E;
      [ reflexivity | ].
    apply Z.ltb_ge in E. cbn [List.length] in E. lia. }
  rewrite Hh. cbn [bind getitem0 getitem]. rewrite Hts. cbn [bind getitem0].
  cbn [getitem]. rewrite Ht. cbn [bind get].
  destruct (assoc "detectedLanguage" first) as [[ | | | | | | d] | ];
    try reflexivity.
Qed.

Lemma translate_text_extracts_witness :
  fst (Translator.translate_text configured (Translator.init configured)
         "Hello" "fr"
         (answering
            (JArr [JObj [("detectedLanguage", JNull);
                         ("translations",
                          JArr [JObj [("text", JStr "Bonjour")]])]])))
  = Translator.failure
      "Translation failed: 'NoneType' object has no attribute 'get'".
Proof.
  exact (translate_text_extracts configured (Translator.init configured)
           "Hello" "fr"
           (answering
              (JArr [JObj [("detectedLanguage", JNull);
                           ("translations",
                            JArr [JObj [("text", JStr "Bonjour")]])]]))
           _ _ _ _ _ _ eq_refl eq_refl (or_introl eq_refl) eq_refl eq_refl
           eq_refl).
Defined.

(** X9: the language list always starts with the sentinel. The cache of a
    fresh service is empty; a call on a service whose cache is empty or
    starts with the sentinel returns a list that starts with the sentinel
    and leaves such a cache; and GET /languages then answers 200 with the
    sentinel dict first among its languages. *)
Theorem languages_start_with_sentinel :
  (forall cfg, cache_ok (Translator.init cfg))
  /\
  (forall (sorted_other_keys
             : list Translator.lang_entry -> Exc (list Translator.lang_entry))
          (self : Translator.TranslatorService) (w : Net),
      cache_ok self ->
      let out := Translator.get_supported_languages sorted_other_keys self w in
      cache_ok (snd (fst out)) /\
      (exists rest, fst (fst out) = Translator.sentinel :: rest) /\
      exists rest,
        fst (fst (Api.get_languages sorted_other_keys self w))
        = Api.Json 200
            (JObj [("success", JBool true);
                   ("languages",
                    JArr (JObj [("key", JStr "");
                                ("text", JStr "Select Target Language")]
                          :: rest))])).
Proof.
  split; [ intros cfg; exact I | ].
  intros f self w Hok out. subst out.
  assert (H : cache_ok (snd (fst (Translator.get_supported_languages f self w)))
              /\ exists rest,
                   fst (fst (Translator.get_supported_languages f self w))
                   = Translator.sentinel :: rest).
  { destruct (Translator.cached self) as [l | ] eqn:Ec.
    - rewrite (warm_call f self w l Ec). cbn [fst snd]. split; [ exact Hok | ].
      unfold Translator.cached, cache_ok in *.
      destruct (Translator.languages_cache self) as [[ | x l'] | ];
        try discriminate.
      inversion Ec; subst. exact Hok.
    - rewrite (cold_call f self w Ec).
      destruct (fst (Translator.load_languages f w)) as [l | e] eqn:El;
        cbn [fst snd].
      + destruct (load_starts_with_sentinel f w l El) as [t ->].
        split; [ | eauto ]. unfold cache_ok. cbn. eauto.
      + split; [ exact Hok | eexists; reflexivity ]. }
  destruct H as [H1 [rest H2]]. split; [ exact H1 | ].
  split; [ eauto | ].
  unfold Api.get_languages.
  destruct (Translator.get_supported_languages f self w) as [[l s'] w'].
  cbn [fst snd] in *. subst l. eexists. reflexivity.
Qed.

Lemma languages_start_with_sentinel_witness :
  exists rest,
    fst (fst (Translator.get_supported_languages
                (fun _ => Raise (mkExn TypeError ""))
                (Translator.init configured) (answering (JArr []))))
    = Translator.sentinel :: rest.
Proof.
  exact (proj1 (proj2 (proj2 languages_start_with_sentinel
                         (fun _ => Raise (mkExn TypeError ""))
                         (Translator.init configured) (answering (JArr []))
                         I))).
Defined.

(* ================================================================== *)
(** ** Further properties: the result store                            *)
(* ================================================================== *)

(** Consecutive slices of length [n] put together again. *)
Lemma firstn_add {A} (a b : nat) (l : list A) :
  firstn (a + b) l = (firstn a l ++ firstn b (skipn a l))%list.
Proof.
  revert l. induction a as [ | a IH]; intros l; [ reflexivity | ].
  destruct l as [ | x l]; cbn.
  - now rewrite firstn_nil.
  - now rewrite IH.
Qed.

Lemma slices_concat {A} (n k : nat) (l : list A) :
  List.concat (map (fun i => firstn n (skipn (i * n) l)) (seq 0 k))
  = firstn (k * n) l.
Proof.
  induction k as [ | k IH]; [ reflexivity | ].
  rewrite seq_S, map_app, concat_app, IH. cbn [map List.concat Nat.add].
  rewrite app_nil_r.
  replace (S k * n)%nat with (k * n + n)%nat by lia.
  now rewrite firstn_add.
Qed.

Lemma paginate_items (cap : option Z) (rows : list TestResult)
      (page per_page : Z) :
  items (paginate cap rows page per_page)
  = firstn (Z.to_nat (page_size cap per_page))
           (skipn (Z.to_nat (((if page <? 1 then 1 else page) - 1)
                             * page_size cap per_page)) rows).
Proof. reflexivity. Qed.

Lemma page_size_pos (cap : option Z) (per_page : Z) :
  1 <= page_size cap per_page.
Proof.
  unfold page_size.
  destruct (_ <? 1) eqn:E; [ lia | ]. apply Z.ltb_ge in E. exact E.
Qed.

Lemma paginate_pages (cap : option Z) (rows : list TestResult)
      (page per_page : Z) :
  pages (paginate cap rows page per_page)
  = if Z.of_nat (List.length rows) =? 0 then 0
    else (Z.of_nat (List.length rows) + page_size cap per_page - 1)
         / page_size cap per_page.
Proof. reflexivity. Qed.

(** With pairwise distinct [created_at] the order of the rows is fixed:
    [ORDER BY created_at DESC] leaves the database no choice. *)
Lemma lex_compare_eq (a b : list Z) : lex_compare a b = Eq -> a = b.
Proof.
  revert b. induction a as [ | x a IH]; intros [ | y b]; cbn;
    try discriminate; [ reflexivity | ].
  destruct (Z.compare_spec x y) as [E | E | E]; try discriminate.
  intros Hl. subst y. f_equal. now apply IH.
Qed.

Lemma created_compare_eq (a b : option datetime) :
  created_compare a b = Eq -> a = b.
Proof.
  destruct a as [x | ], b as [y | ]; unfold created_compare;
    try discriminate; [ | reflexivity ].
  intros H. apply lex_compare_eq in H.
  destruct x, y. unfold fields in H. cbn in H. congruence.
Qed.

Lemma created_ge_antisym (a b : TestResult) :
  created_ge a b -> created_ge b a -> created_at a = created_at b.
Proof.
  unfold created_ge, created_geb. intros Hab Hba.
  apply created_compare_eq.
  unfold created_compare in *.
  destruct (created_at a) as [x | ], (created_at b) as [y | ];
    try discriminate; try reflexivity.
  rewrite (lex_compare_antisym (fields y) (fields x)) in Hba.
  destruct (lex_compare (fields x) (fields y)); cbn [CompOpp] in *;
    try discriminate; reflexivity.
Qed.

Lemma nodup_map_inj {A B} (f : A -> B) (l : list A) (x y : A) :
  NoDup (map f l) -> In x l -> In y l -> f x = f y -> x = y.
Proof.
  induction l as [ | a l IH]; cbn; [ contradiction | ].
  intros Hn Hx Hy E. inversion Hn as [ | ? ? Hnot Hn']; subst.
  destruct Hx as [-> | Hx], Hy as [-> | Hy].
  - reflexivity.
  - exfalso. apply Hnot. rewrite E. now apply in_map.
  - exfalso. apply Hnot. rewrite <- E. now apply in_map.
  - now apply IH.
Qed.

Lemma sorted_unique (l1 : list TestResult) :
  forall l2,
    NoDup (map created_at l1) -> Permutation l1 l2 ->
    StronglySorted created_ge l1 -> StronglySorted created_ge l2 -> l1 = l2.
Proof.
  induction l1 as [ | a l1 IH]; intros l2 Hn Hp H1 H2.
  - apply Permutation_nil in Hp. now subst.
  - destruct l2 as [ | b l2];
      [ apply Permutation_sym, Permutation_nil in Hp; discriminate | ].
    assert (Hab : a = b).
    { assert (Ha : In a (b :: l2))
        by (apply (Permutation_in _ Hp); now left).
      assert (Hb : In b (a :: l1))
        by (apply (Permutation_in _ (Permutation_sym Hp)); now left).
      destruct Ha as [Ha | Ha]; [ now subst | ].
      destruct Hb as [Hb | Hb]; [ now subst | ].
      apply StronglySorted_inv in H1. destruct H1 as [_ F1].
      apply StronglySorted_inv in H2. destruct H2 as [_ F2].
      rewrite Forall_forall in F1, F2.
      apply (nodup_map_inj created_at (a :: l1)); cbn; auto.
      apply created_ge_antisym; auto. }
    subst b. f_equal.
    apply IH.
    + now inversion Hn.
    + now apply Permutation_cons_inv in Hp.
    + now apply StronglySorted_inv in H1.
    + now apply StronglySorted_inv in H2.
Qed.

Lemma orders_agree (order1 order2 : list TestResult -> list TestResult)
      (rows : list TestResult) :
  orders_by_created_at_desc order1 -> orders_by_created_at_desc order2 ->
  NoDup (map created_at rows) -> order1 rows = order2 rows.
Proof.
  intros H1 H2 Hn.
  destruct (H1 rows) as [P1 S1]. destruct (H2 rows) as [P2 S2].
  apply sorted_unique; try assumption.
  - apply (Permutation_NoDup (Permutation_map created_at P1) Hn).
  - exact (Permutation_trans (Permutation_sym P1) P2).
Qed.

Lemma list_query_selected (order : list TestResult -> list TestResult)
      (outcome_filter : option string) (db : Store) :
  Api.list_query order outcome_filter db = order (selected outcome_filter db).
Proof.
  unfold Api.list_query, selected. destruct outcome_filter as [v | ];
    [ | reflexivity ].
  cbn [truthy]. destruct (String.eqb v ""); reflexivity.
Qed.

(** In a sorted list whatever is among the first [n] stands rightly before
    whatever is not. *)
Lemma sorted_firstn_skipn {A} (R : A -> A -> Prop) (n : nat) (l : list A) :
  StronglySorted R l ->
  forall x y, In x (firstn n l) -> In y (skipn n l) -> R x y.
Proof.
  revert l. induction n as [ | n IH]; intros l Hs x y Hx Hy;
    [ contradiction | ].
  destruct l as [ | a l]; [ contradiction | ].
  apply StronglySorted_inv in Hs. destruct Hs as [Hs Ha].
  cbn in Hx, Hy. destruct Hx as [-> | Hx].
  - rewrite Forall_forall in Ha. apply Ha. now apply in_skipn in Hy.
  - now apply (IH l).
Qed.

(** X10: walking the pages of a list query, each page fetched by a query of
    its own. For every stored state, filter and page size, no page holds
    more records than the page size in force, every page reports as
    [total] the number of records that pass the filter and the same number
    of pages, and a page after the last is empty. When the records that
    pass the filter have pairwise distinct [created_at], the pages 1 to
    [pages] put one after the other are the whole result of the query, in
    its order, so every such record appears on exactly one page. (With
    equal [created_at] the database may order two queries differently, and
    a record may then show on two pages or on none.) *)
Theorem pages_cover_the_query :
  forall (order : Z -> list TestResult -> list TestResult) (cap : option Z)
         (outcome_filter : option string) (db : Store) (per_page : Z),
    (forall p, orders_by_created_at_desc (order p)) ->
    let rows p := Api.list_query (order p) outcome_filter db in
    let page p := paginate cap (rows p) p per_page in
    let last := pages (page 1) in
    (forall p,
        Z.of_nat (List.length (items (page p))) <= page_size cap per_page /\
        total (page p) = Z.of_nat (List.length (selected outcome_filter db)) /\
        pages (page p) = last /\
        (last < p -> items (page p) = []))
    /\
    (NoDup (map created_at (selected outcome_filter db)) ->
     forall q,
       List.concat (map (fun p => items (page (Z.of_nat p)))
                        (seq 1 (Z.to_nat last)))
       = rows q
       /\ Permutation (selected outcome_filter db) (rows q)
       /\ StronglySorted created_ge (rows q)).
Proof.
  intros order cap outcome_filter db per_page Hord rows page last.
  pose proof (page_size_pos cap per_page) as Hps.
  set (size := page_size cap per_page) in *.
  set (sel := selected outcome_filter db) in *.
  assert (Hrows : forall p, Permutation sel (rows p) /\
                            StronglySorted created_ge (rows p)).
  { intros p. subst rows. cbv beta. rewrite list_query_selected.
    apply Hord. }
  assert (Hlen : forall p, List.length (rows p) = List.length sel).
  { intros p. symmetry. apply Permutation_length, Hrows. }
  assert (Hpages : forall p,
             pages (page p)
             = if Z.of_nat (List.length sel) =? 0 then 0
               else (Z.of_nat (List.length sel) + size - 1) / size).
  { intros p. subst page. cbv beta. rewrite paginate_pages, Hlen.
    reflexivity. }
  assert (Hlast : last = if Z.of_nat (List.length sel) =? 0 then 0
                         else (Z.of_nat (List.length sel) + size - 1) / size)
    by apply Hpages.
  assert (Hcover : Z.of_nat (List.length sel) <= last * size).
  { rewrite Hlast. destruct (Z.eqb_spec (Z.of_nat (List.length sel)) 0);
      [ lia | ].
    pose proof (Z.div_mod (Z.of_nat (List.length sel) + size - 1) size
                  ltac:(lia)) as Hdm.
    pose proof (Z.mod_pos_bound (Z.of_nat (List.length sel) + size - 1) size
                  ltac:(lia)) as Hmb.
    nia. }
  assert (Hlast0 : 0 <= last).
  { rewrite Hlast. destruct (_ =? 0); [ lia | ].
    apply Z.div_pos; lia. }
  split.
  - intros p. subst page. cbv beta. rewrite paginate_items. fold size.
    split; [ | split; [ | split ] ].
    + rewrite length_firstn. lia.
    + unfold paginate. cbn [total]. now rewrite Hlen.
    + rewrite Hlast. apply Hpages.
    + intros Hp. rewrite skipn_all2; [ now rewrite firstn_nil | ].
      replace (if p <? 1 then 1 else p) with p
        by (destruct (Z.ltb_spec p 1); lia).
      rewrite Hlen. nia.
  - intros Hn q.
    assert (Hsame : forall p, rows p = rows q).
    { intros p. subst rows. cbv beta. rewrite !list_query_selected.
      now apply orders_agree. }
    split; [ | apply Hrows ].
    rewrite <- seq_shift, map_map.
    erewrite map_ext.
    2:{ intros i. subst page. cbv beta. rewrite paginate_items. fold size.
        rewrite (Hsame (Z.of_nat (S i))).
        replace (if Z.of_nat (S i) <? 1 then 1 else Z.of_nat (S i))
          with (Z.of_nat (S i))
          by (destruct (Z.ltb_spec (Z.of_nat (S i)) 1); lia).
        replace (Z.to_nat ((Z.of_nat (S i) - 1) * size))
          with (i * Z.to_nat size)%nat by nia.
        reflexivity. }
    rewrite slices_concat. apply firstn_all2. rewrite Hlen. nia.
Qed.

Lemma pages_cover_the_query_witness :
  let db := [sample_row 1 sample_time;
             sample_row 2 (mkDatetime 2024 5 18 9 30 0 0);
             sample_row 3 (mkDatetime 2024 5 16 9 30 0 0)] in
  let rows := Api.list_query stable_order_desc None db in
  List.concat (map (fun p => items (paginate None rows (Z.of_nat p) 2))
                   (seq 1 (Z.to_nat (pages (paginate None rows 1 2)))))
  = rows.
Proof.
  refine (proj1 (proj2 (pages_cover_the_query (fun _ => stable_order_desc)
                          None None
                          [sample_row 1 sample_time;
                           sample_row 2 (mkDatetime 2024 5 18 9 30 0 0);
                           sample_row 3 (mkDatetime 2024 5 16 9 30 0 0)] 2
                          (fun _ => stable_order_desc_ok)) _ 1)).
  repeat constructor; cbn; intuition discriminate.
Defined.

(** X11: what a save leaves in the table. Whatever the payload and
    whatever the database does, [save_test_results] answers 200, 400 or
    500, and the table afterwards is the table as before or the one the
    commit of one record produced. A payload the validator does not accept
    and a commit that raises are answered 400 or 500 and leave the table as
    it was. When the validator accepts and the commit goes through, the
    table is the one the commit produced, and the answer is 200 with the id
    and the dict of the stored record, unless reading the record back
    raises: the answer is then 400 or 500 with the text of that exception,
    although the record is stored. *)
Theorem save_stores_one_record_or_nothing :
  forall (add_and_commit : Store -> Api.NewTestResult -> Exc (TestResult * Store))
         (reload : option exn) (data : json) (uuid4 : string) (db : Store),
    let out := Api.save_test_results add_and_commit reload data uuid4 db in
    (exists (status : Z) (body : json),
        fst out = Api.Json status body /\
        (status = 200 \/ status = 400 \/ status = 500))
    /\
    ((forall acc, Utils.validate_test_result_data data
                  <> Return (true, None, Some acc)) ->
     snd out = db /\
     exists (status : Z) (msg : string),
       (status = 400 \/ status = 500) /\
       fst out = Api.Json status (Api.error_body msg))
    /\
    (forall acc,
        Utils.validate_test_result_data data = Return (true, None, Some acc) ->
        exists t : Api.NewTestResult,
          Api.new_accuracy t = acc /\
          match add_and_commit db t with
          | Raise e => out = (save_failed e, db)
          | Return (stored, db') =>
              snd out = db' /\
              match reload with
              | Some e => fst out = save_failed e
              | None =>
                  exists body : json,
                    fst out = Api.Json 200 body /\
                    getitem body "result_id" = Return (JInt (id stored)) /\
                    getitem body "data" = Return (to_dict stored)
              end
          end).
Proof.
  intros add reload data uuid4 db out. subst out.
  pose proof (save_follows_validator add reload data uuid4 db) as H.
  assert (Hf : forall e, exists (status : Z) (msg : string),
               (status = 400 \/ status = 500) /\
               save_failed e = Api.Json status (Api.error_body msg)).
  { intros e. unfold save_failed.
    destruct (is_instance e [ValueError]);
      [ exists 400 | exists 500 ]; eexists; (split; [ auto | reflexivity ]). }
  assert (Hs : forall e db',
             Api.save_body add reload data uuid4 db = (Raise e, db') ->
             Api.save_test_results add reload data uuid4 db
             = (save_failed e, db')).
  { intros e db' E. unfold Api.save_test_results, save_failed. rewrite E.
    destruct (is_instance e [ValueError]); reflexivity. }
  destruct (Utils.validate_test_result_data data)
    as [[[[] [m | ]] [acc | ]] | e] eqn:Ev; try contradiction.
  - (* accepted *)
    destruct H as (t & Ht & Hb).
    split; [ | split ].
    + destruct (add db t) as [[stored db'] | e] eqn:Ea.
      * destruct reload as [e | ].
        -- rewrite (Hs e db' Hb).
           destruct (Hf e) as (st & msg & Hst & ->).
           exists st. eexists. split; [ reflexivity | tauto ].
        -- unfold Api.save_test_results. rewrite Hb.
           exists 200. eexists. split; [ reflexivity | auto ].
      * rewrite (Hs e db Hb).
        destruct (Hf e) as (st & msg & Hst & ->).
        exists st. eexists. split; [ reflexivity | tauto ].
    + intros Hn. exfalso. apply (Hn acc). reflexivity.
    + intros acc' Hacc. inversion Hacc; subst acc'.
      exists t. split; [ exact Ht | ].
      destruct (add db t) as [[stored db'] | e] eqn:Ea.
      * destruct reload as [e | ].
        -- rewrite (Hs e db' Hb). split; reflexivity.
        -- unfold Api.save_test_results. rewrite Hb. cbn [fst snd].
           split; [ reflexivity | ].
           eexists. split; [ reflexivity | split; reflexivity ].
      * exact (Hs e db Hb).
  - (* rejected *)
    rewrite H. cbn [fst snd].
    split; [ exists 400; eexists; split; [ reflexivity | auto ] | split ].
    + intros _. split; [ reflexivity | ].
      exists 400, m. split; [ auto | reflexivity ].
    + intros acc Hacc. discriminate.
  - (* the validator raised *)
    destruct H as [_ ->]. cbn [fst snd].
    split; [ exists 500; eexists; split; [ reflexivity | auto ] | split ].
    + intros _. split; [ reflexivity | ].
      exists 500. eexists. split; [ auto | reflexivity ].
    + intros acc Hacc. discriminate.
Qed.

Lemma save_stores_one_record_or_nothing_witness :
  let payload := JObj [("outcome", JStr "Success"); ("accuracy", JStr "50")] in
  let lost := mkExn OtherException "connection lost" in
  let out :=
    Api.save_test_results
      (fun db _ => Return (sample_row 7 sample_time,
                           (db ++ [sample_row 7 sample_time])%list))
      (Some lost) payload "session" [] in
  snd out = [sample_row 7 sample_time] /\
  fst out
  = Api.Json 500
      (Api.error_body "Failed to save test results: connection lost").
Proof.
  destruct (save_stores_one_record_or_nothing
              (fun db _ => Return (sample_row 7 sample_time,
                                   (db ++ [sample_row 7 sample_time])%list))
              (Some (mkExn OtherException "connection lost"))
              (JObj [("outcome", JStr "Success"); ("accuracy", JStr "50")])
              "session" []) as (_ & _ & H).
  destruct (H _ eq_refl) as (t & _ & Hs & Hf).
  split; [ exact Hs | exact Hf ].
Defined.

(** A str of digits alone is read by [int] digit by digit, all of it. *)
Lemma digit_is_no_underscore (c : ascii) :
  is_digit c = true -> Ascii.eqb c "_" = false.
Proof.
  destruct c as [[] [] [] [] [] [] [] []]; cbn; intros H;
    try discriminate H; reflexivity.
Qed.

Lemma digit_is_no_space (c : ascii) :
  is_digit c = true -> float_space c = false.
Proof.
  destruct c as [[] [] [] [] [] [] [] []]; cbn; intros H;
    try discriminate H; reflexivity.
Qed.

Lemma digit_is_no_sign (c : ascii) (cs : list ascii) :
  is_digit c = true -> read_sign (c :: cs) = (false, c :: cs).
Proof.
  destruct c as [[] [] [] [] [] [] [] []]; cbn; intros H;
    try discriminate H; reflexivity.
Qed.

Lemma drop_underscores_digits (cs : list ascii) :
  forall prev, Ascii.eqb prev "_" = false ->
  forallb is_digit cs = true -> drop_underscores prev cs = Some cs.
Proof.
  induction cs as [ | c cs IH]; intros prev Hp H; cbn.
  - rewrite Hp. reflexivity.
  - cbn in H. apply andb_true_iff in H. destruct H as [Hc Hcs].
    rewrite (digit_is_no_underscore c Hc), Hc, andb_false_r.
    rewrite (IH c (digit_is_no_underscore c Hc) Hcs). reflexivity.
Qed.

Lemma lskip_digits (cs : list ascii) :
  forallb is_digit cs = true -> lskip float_space cs = cs.
Proof.
  destruct cs as [ | c cs]; cbn; [ reflexivity | ].
  intros H. apply andb_true_iff in H. destruct H as [Hc _].
  rewrite (digit_is_no_space c Hc). reflexivity.
Qed.

Lemma trim_digits (cs : list ascii) :
  forallb is_digit cs = true -> trim float_space cs = cs.
Proof.
  intros H. unfold trim. rewrite (lskip_digits cs H).
  rewrite lskip_digits; [ apply rev_involutive | ].
  apply forallb_forall. intros c Hc. apply in_rev in Hc.
  exact (proj1 (forallb_forall _ _) H c Hc).
Qed.

Lemma read_digits_all (cs : list ascii) :
  forall acc n, forallb is_digit cs = true ->
  exists v, read_digits acc n cs = (v, n + Z.of_nat (List.length cs), []).
Proof.
  induction cs as [ | c cs IH]; intros acc n H; cbn [read_digits].
  - exists acc. cbn. rewrite Z.add_0_r. reflexivity.
  - cbn in H. apply andb_true_iff in H. destruct H as [Hc Hcs]. rewrite Hc.
    destruct (IH (10 * acc + digit_val c) (n + 1) Hcs) as [v ->].
    exists v. f_equal. f_equal. cbn [List.length]. lia.
Qed.

Lemma length_list_ascii (s : string) :
  List.length (list_ascii_of_string s) = String.length s.
Proof. induction s as [ | c s IH]; cbn; congruence. Qed.

(** [int] refuses a str of more than 4300 digits. *)
Lemma int_of_str_too_long (v : string) :
  forallb is_digit (list_ascii_of_string v) = true ->
  int_max_str_digits < Z.of_nat (String.length v) ->
  int_of_str v = None.
Proof.
  intros Hd Hl. unfold int_of_str.
  rewrite (drop_underscores_digits _ "000" eq_refl Hd).
  rewrite (trim_digits _ Hd).
  destruct (list_ascii_of_string v) as [ | c cs] eqn:E.
  - rewrite <- length_list_ascii, E in Hl. cbn in Hl.
    unfold int_max_str_digits in Hl. lia.
  - assert (Hc : is_digit c = true)
      by (cbn in Hd; apply andb_true_iff in Hd; tauto).
    rewrite (digit_is_no_sign c cs Hc).
    destruct (read_digits_all (c :: cs) 0 0 Hd) as [x ->].
    rewrite <- E, length_list_ascii.
    replace (int_max_str_digits <? 0 + Z.of_nat (String.length v)) with true
      by (symmetry; apply Z.ltb_lt; lia).
    rewrite orb_true_r. reflexivity.
Qed.

(** X12: a page or a page size that is no integer. A [page] parameter that
    [int] cannot read is dropped without an error, whatever else is sent:
    the answer is the one for page 1. In the same way a [per_page] that
    [int] cannot read gives the answer for 10 records a page. A value of
    more than 4300 digits is one that [int] cannot read. *)
Theorem list_parameters_default :
  forall (order : list TestResult -> list TestResult) (cap : option Z)
         (storage : option exn) (args : list (string * string)) (db : Store),
    (match Api.arg "page" args with
     | Some v => int_of_str v = None
     | None => True
     end ->
     Api.get_test_results order cap storage args db
     = Api.get_test_results order cap storage (("page", "1") :: args) db)
    /\
    (match Api.arg "per_page" args with
     | Some v => int_of_str v = None
     | None => True
     end ->
     Api.get_test_results order cap storage args db
     = Api.get_test_results order cap storage (("per_page", "10") :: args) db)
    /\
    (forall k v,
        Api.arg k args = Some v ->
        forallb is_digit (list_ascii_of_string v) = true ->
        4300 < Z.of_nat (String.length v) ->
        forall default, Api.arg_int k default args = default).
Proof.
  intros order cap storage args db.
  split; [ | split ].
  - intros Hp.
    unfold Api.get_test_results, Api.get_test_results_body, Api.results_page,
      Api.arg_int.
    cbn [Api.arg String.eqb Ascii.eqb Bool.eqb].
    change (int_of_str "1") with (Some 1).
    destruct (Api.arg "page" args) as [v | ]; [ rewrite Hp | ]; reflexivity.
  - intros Hpp.
    unfold Api.get_test_results, Api.get_test_results_body, Api.results_page,
      Api.arg_int.
    cbn [Api.arg String.eqb Ascii.eqb Bool.eqb].
    change (int_of_str "10") with (Some 10).
    destruct (Api.arg "per_page" args) as [v | ]; [ rewrite Hpp | ];
      reflexivity.
  - intros k v Hk Hd Hl default. unfold Api.arg_int. rewrite Hk.
    rewrite (int_of_str_too_long v Hd Hl). reflexivity.
Qed.

Lemma list_parameters_default_witness :
  Api.get_test_results stable_order_desc None None
    [("page", "two"); ("per_page", "5")] [sample_row 1 sample_time]
  = Api.get_test_results stable_order_desc None None
      [("page", "1"); ("page", "two"); ("per_page", "5")]
      [sample_row 1 sample_time]
  /\
  Api.get_test_results stable_order_desc None None
    [("page", "2"); ("per_page", "")] [sample_row 1 sample_time]
  = Api.get_test_results stable_order_desc None None
      [("per_page", "10"); ("page", "2"); ("per_page", "")]
      [sample_row 1 sample_time].
Proof.
  split.
  - exact (proj1 (list_parameters_default stable_order_desc None None
                    [("page", "two"); ("per_page", "5")]
                    [sample_row 1 sample_time]) eq_refl).
  - exact (proj1 (proj2 (list_parameters_default stable_order_desc None None
                           [("page", "2"); ("per_page", "")]
                           [sample_row 1 sample_time])) eq_refl).
Defined.

Lemma find_none_iff (rid : Z) (db : Store) :
  find (fun r => id r =? rid) db = None <->
  (forall r, In r db -> id r <> rid).
Proof.
  split.
  - intros H r Hr E.
    pose proof (find_none _ _ H r Hr) as Hn. cbn in Hn.
    apply Z.eqb_neq in Hn. contradiction.
  - intros H. destruct (find (fun r => id r =? rid) db) as [r | ] eqn:E;
      [ | reflexivity ].
    apply find_some in E. destruct E as [Hin He]. apply Z.eqb_eq in He.
    exfalso. exact (H r Hin He).
Qed.

Lemma delete_unknown_id (commit : option exn) (rid : Z) (db : Store) :
  (forall r, In r db -> id r <> rid) ->
  Api.delete_test_result None commit rid db
  = (Api.Json 404 (JObj [("error", JStr "Test result not found")]), db).
Proof.
  intros Hno. unfold Api.delete_test_result, Api.delete_body.
  apply find_none_iff in Hno. rewrite Hno. reflexivity.
Qed.

(** X13: a delete that does not go through leaves the table alone. When no
    stored record has the id, the answer is 404 'Test result not found';
    when the lookup or the commit raises, the answer is 500 with the text
    of the exception; in both cases the table is exactly as before. In
    general the table changes only with the answer 200. *)
Theorem delete_refused_keeps_table :
  forall (lookup commit : option exn) (rid : Z) (db : Store),
    let out := Api.delete_test_result lookup commit rid db in
    (lookup = None -> (forall r, In r db -> id r <> rid) ->
     out = (Api.Json 404 (JObj [("error", JStr "Test result not found")]), db))
    /\
    (forall e, lookup = Some e ->
     out = (Api.Json 500 (JObj [("error", JStr (exn_str e))]), db))
    /\
    (forall e r, lookup = None -> commit = Some e -> In r db -> id r = rid ->
     out = (Api.Json 500 (JObj [("error", JStr (exn_str e))]), db))
    /\
    ((forall body, fst out <> Api.Json 200 body) -> snd out = db).
Proof.
  intros lookup commit rid db out. subst out.
  split; [ | split; [ | split ] ];
    unfold Api.delete_test_result, Api.delete_body.
  - intros -> Hno. now apply delete_unknown_id.
  - intros e ->. reflexivity.
  - intros e r -> -> Hin Hid.
    destruct (find (fun r => id r =? rid) db) as [r' | ] eqn:E;
      [ reflexivity | ].
    exfalso. exact (proj1 (find_none_iff rid db) E r Hin Hid).
  - intros H. destruct lookup as [e | ]; [ reflexivity | ].
    destruct (find (fun r => id r =? rid) db) as [r | ]; [ | reflexivity ].
    destruct commit as [e | ]; [ reflexivity | ].
    exfalso. eapply H. reflexivity.
Qed.

Lemma delete_refused_keeps_table_witness :
  Api.delete_test_result None None 7 [sample_row 1 sample_time]
  = (Api.Json 404 (JObj [("error", JStr "Test result not found")]),
     [sample_row 1 sample_time]).
Proof.
  apply (proj1 (delete_refused_keeps_table None None 7
                  [sample_row 1 sample_time]) eq_refl).
  intros r [<- | []]. discriminate.
Defined.

(** X14: a delete that goes through removes the record and nothing else.
    When a stored record has the id and neither the lookup nor the commit
    raises, the answer is 200, and the table afterwards holds exactly the
    records of other ids, in their order. With ids that are pairwise
    distinct the table is one record shorter, and deleting the same id
    again is answered 404. *)
Theorem delete_removes_the_record :
  forall (rid : Z) (db : Store) (r : TestResult),
    In r db -> id r = rid ->
    let out := Api.delete_test_result None None rid db in
    fst out
    = Api.Json 200 (JObj [("message", JStr "Test result deleted successfully")])
    /\ snd out = filter (fun x => negb (id x =? rid)) db
    /\ (forall x, In x (snd out) <-> In x db /\ id x <> rid)
    /\ fst (Api.delete_test_result None None rid (snd out))
       = Api.Json 404 (JObj [("error", JStr "Test result not found")])
    /\ (NoDup (map id db) ->
        S (List.length (snd out)) = List.length db).
Proof.
  intros rid db r Hin Hid out. subst out.
  assert (Hout : Api.delete_test_result None None rid db
                 = (Api.Json 200
                      (JObj [("message",
                              JStr "Test result deleted successfully")]),
                    filter (fun x => negb (id x =? rid)) db)).
  { unfold Api.delete_test_result, Api.delete_body.
    destruct (find (fun x => id x =? rid) db) as [r' | ] eqn:E.
    2:{ exfalso. exact (proj1 (find_none_iff rid db) E r Hin Hid). }
    apply find_some in E. destruct E as [_ E]. apply Z.eqb_eq in E.
    rewrite E. reflexivity. }
  rewrite Hout. cbn [fst snd]. clear Hout.
  assert (Hmem : forall x, In x (filter (fun x => negb (id x =? rid)) db)
                           <-> In x db /\ id x <> rid).
  { intros x. rewrite filter_In, negb_true_iff, Z.eqb_neq. reflexivity. }
  split; [ reflexivity | ]. split; [ reflexivity | ].
  split; [ exact Hmem | ]. split.
  - rewrite delete_unknown_id; [ reflexivity | ].
    intros x Hx. apply Hmem in Hx. tauto.
  - clear Hmem. revert r Hin Hid.
    induction db as [ | x db IH]; intros r Hin Hid Hnd; [ contradiction | ].
    cbn [map] in Hnd. apply NoDup_cons_iff in Hnd.
    destruct Hnd as [Hnotin Hnd'].
    cbn [filter]. destruct (Z.eqb_spec (id x) rid) as [Hx | Hx]; cbn [negb].
    + cbn [List.length]. f_equal.
      assert (Hall : forall y, In y db -> negb (id y =? rid) = true).
      { intros y Hy. apply negb_true_iff, Z.eqb_neq. intros Hyr.
        apply Hnotin. rewrite Hx, <- Hyr. now apply in_map. }
      clear -Hall. induction db as [ | y db IH]; [ reflexivity | ].
      cbn [filter]. rewrite (Hall y (or_introl eq_refl)). cbn [List.length].
      f_equal. apply IH. intros z Hz. apply Hall. now right.
    + cbn [List.length]. f_equal.
      destruct Hin as [-> | Hin]; [ contradiction | ].
      exact (IH r Hin Hid Hnd').
Qed.

Lemma delete_removes_the_record_witness :
  snd (Api.delete_test_result None None 1
         [sample_row 1 sample_time; sample_row 2 sample_time])
  = filter (fun x => negb (id x =? 1))
           [sample_row 1 sample_time; sample_row 2 sample_time].
Proof.
  exact (proj1 (proj2 (delete_removes_the_record 1
                         [sample_row 1 sample_time; sample_row 2 sample_time]
                         (sample_row 1 sample_time)
                         (or_introl eq_refl) eq_refl))).
Defined.


(** X15: the page /test-results shows the 20 newest records. When the
    query runs and the template renders, the results handed to the
    template are stored records, 20 of them or all when there are fewer,
    newest first, and no record left out is newer than one shown. When the
    stored records have pairwise distinct [created_at], they are the
    records that GET /test-results lists, by a query of its own, for
    [per_page=20] without a filter, provided the pagination library caps
    the page size at 20 or more, or not at all. *)
Theorem recent_results_are_first_page :
  forall (order_page order_list : list TestResult -> list TestResult)
         (cap : option Z) (db : Store),
    orders_by_created_at_desc order_page ->
    orders_by_created_at_desc order_list ->
    match cap with Some m => 20 <= m | None => True end ->
    exists results,
      Main.view_test_results order_page None None db
      = Main.Rendered "test_results.html" (Main.Results results) 200 /\
      List.length results = Nat.min 20 (List.length db) /\
      StronglySorted created_ge results /\
      (forall r, In r results -> In r db) /\
      (forall r s, In r results -> In s db -> ~ In s results ->
                   created_ge r s) /\
      (NoDup (map created_at db) ->
       results
       = items (Api.results_page order_list cap [("per_page", "20")] db)).
Proof.
  intros order_page order_list cap db Hpage Hlist Hcap.
  destruct (Hpage db) as [Pp Sp].
  exists (firstn 20 (order_page db)). split; [ reflexivity | ].
  split; [ | split; [ | split; [ | split ] ] ].
  - rewrite length_firstn, <- (Permutation_length Pp). reflexivity.
  - now apply StronglySorted_firstn.
  - intros r Hr. apply in_firstn in Hr.
    exact (Permutation_in _ (Permutation_sym Pp) Hr).
  - intros r s Hr Hs Hns.
    apply (sorted_firstn_skipn created_ge 20 (order_page db) Sp); auto.
    apply (Permutation_in _ Pp) in Hs.
    rewrite <- (firstn_skipn 20 (order_page db)) in Hs.
    apply in_app_or in Hs. destruct Hs as [Hs | Hs];
      [ contradiction | exact Hs ].
  - intros Hn.
    unfold Api.results_page, Api.arg_int.
    cbn [Api.arg String.eqb Ascii.eqb Bool.eqb].
    change (int_of_str "20") with (Some 20).
    rewrite paginate_items. unfold page_size.
    replace (match cap with Some m => Z.min 20 m | None => 20 end) with 20
      by (destruct cap; lia).
    rewrite list_query_selected. cbn [selected].
    rewrite (orders_agree order_list order_page db Hlist Hpage Hn).
    reflexivity.
Qed.

Lemma recent_results_are_first_page_witness :
  exists results,
    Main.view_test_results stable_order_desc None None
      [sample_row 1 sample_time; sample_row 2 (mkDatetime 2024 5 18 9 30 0 0)]
    = Main.Rendered "test_results.html" (Main.Results results) 200 /\
    results
    = items (Api.results_page stable_order_desc (Some 100) [("per_page", "20")]
               [sample_row 1 sample_time;
                sample_row 2 (mkDatetime 2024 5 18 9 30 0 0)]).
Proof.
  destruct (recent_results_are_first_page stable_order_desc stable_order_desc
              (Some 100)
              [sample_row 1 sample_time;
               sample_row 2 (mkDatetime 2024 5 18 9 30 0 0)]
              stable_order_desc_ok stable_order_desc_ok ltac:(cbn; lia))
    as (results & Hv & _ & _ & _ & _ & He).
  exists results. split; [ exact Hv | ].
  apply He. repeat constructor; cbn; intuition discriminate.
Defined.

(* ================================================================== *)
(** ** Further properties: configuration and user information          *)
(* ================================================================== *)

(** X16: the environment type is always a key of [config]. Whatever the
    environment holds, [get_environment_type] returns 'production',
    'development' or 'testing', so the lookup [config[config_name]] of
    [create_app] finds a class; it returns 'production' exactly when
    WEBSITE_SITE_NAME is set and not empty, and 'testing' exactly when that
    is not so, FLASK_ENV is not 'development', and TESTING is set and not
    empty. *)
Theorem environment_type_is_a_config_key :
  forall environ : list (string * string),
    let name := Utils.get_environment_type environ in
    In name ["production"; "development"; "testing"] /\
    (exists c, config_lookup name Config.config = Some c) /\
    (name = "production" <->
     env_truthy (environ_get "WEBSITE_SITE_NAME" environ) = true) /\
    (name = "testing" <->
     env_truthy (environ_get "WEBSITE_SITE_NAME" environ) = false /\
     environ_get "FLASK_ENV" environ <> Some "development" /\
     env_truthy (environ_get "TESTING" environ) = true).
Proof.
  intros environ name. subst name. unfold Utils.get_environment_type.
  destruct (env_truthy (environ_get "WEBSITE_SITE_NAME" environ)).
  { repeat split; cbn; auto; try discriminate; eauto.
    intros (H & _); discriminate. }
  destruct (environ_get "FLASK_ENV" environ) as [v | ].
  - destruct (String.eqb_spec v "development") as [-> | Hv].
    + repeat split; cbn; auto; try discriminate; eauto.
      intros (_ & H & _). contradiction.
    + destruct (env_truthy (environ_get "TESTING" environ)).
      * repeat split; cbn; auto; try discriminate; eauto. congruence.
      * repeat split; cbn; auto; try discriminate; eauto.
        intros (_ & _ & H); discriminate.
  - destruct (env_truthy (environ_get "TESTING" environ)).
    + repeat split; cbn; auto; try discriminate; eauto.
    + repeat split; cbn; auto; try discriminate; eauto.
      intros (_ & _ & H); discriminate.
Qed.

(** What [quote_plus] produces, and when it raises. *)
Lemma escaped_app (a b : string) :
  escaped (a ++ b) = escaped a && escaped b.
Proof.
  unfold escaped. induction a as [ | c a IH]; [ reflexivity | ].
  cbn [append list_ascii_of_string forallb]. rewrite IH.
  now rewrite andb_assoc.
Qed.

Lemma delimiter_free_app (a b : string) :
  delimiter_free (a ++ b) = delimiter_free a && delimiter_free b.
Proof.
  unfold delimiter_free. induction a as [ | c a IH]; [ reflexivity | ].
  cbn [append list_ascii_of_string forallb]. rewrite IH.
  now rewrite andb_assoc.
Qed.

Lemma quote_byte_escaped (c : ascii) :
  escaped (Config.quote_byte c) = true /\
  delimiter_free (Config.quote_byte c) = true /\
  (Config.always_safe c = true ->
   Config.quote_byte c = String c "" /\ Config.byte_in 0 127 c = true).
Proof.
  destruct c as [[] [] [] [] [] [] [] []]; vm_compute;
    repeat split; congruence.
Qed.

Lemma quote_from_bytes_escaped (bs : list ascii) :
  escaped (Config.quote_from_bytes bs) = true /\
  delimiter_free (Config.quote_from_bytes bs) = true.
Proof.
  induction bs as [ | c bs [IH1 IH2]]; [ split; reflexivity | ].
  cbn [Config.quote_from_bytes].
  rewrite escaped_app, delimiter_free_app, IH1, IH2.
  destruct (quote_byte_escaped c) as (-> & -> & _). split; reflexivity.
Qed.

Lemma quote_plus_escaped (s r : string) :
  Config.quote_plus s = Return r ->
  escaped r = true /\ delimiter_free r = true.
Proof.
  unfold Config.quote_plus.
  destruct (Config.encode_utf8 0 _) as [bs | e]; cbn [bind];
    [ | discriminate ].
  intros H; inversion H. apply quote_from_bytes_escaped.
Qed.

Lemma encode_safe (cs : list ascii) :
  forallb Config.always_safe cs = true ->
  forall pos, Config.encode_utf8 pos (Config.fsdecode 0 cs) = Return cs.
Proof.
  induction cs as [ | c cs IH]; intros H pos; [ reflexivity | ].
  cbn [forallb] in H. apply andb_true_iff in H. destruct H as [Hc Hcs].
  destruct (quote_byte_escaped c) as (_ & _ & E).
  destruct (E Hc) as [_ Ha].
  cbn [Config.fsdecode Config.utf8_sequence]. rewrite Ha.
  cbn [firstn Config.encode_utf8]. rewrite (IH Hcs). reflexivity.
Qed.

Lemma quote_from_bytes_safe (s : string) :
  forallb Config.always_safe (list_ascii_of_string s) = true ->
  Config.quote_from_bytes (list_ascii_of_string s) = s.
Proof.
  induction s as [ | c s IH]; [ reflexivity | ].
  cbn [list_ascii_of_string forallb Config.quote_from_bytes]. intros H.
  apply andb_true_iff in H. destruct H as [Hc Hs].
  destruct (quote_byte_escaped c) as (_ & _ & E).
  destruct (E Hc) as [-> _]. rewrite (IH Hs). reflexivity.
Qed.

Lemma quote_plus_safe (s : string) :
  forallb Config.always_safe (list_ascii_of_string s) = true ->
  Config.quote_plus s = Return s.
Proof.
  intros H. unfold Config.quote_plus. rewrite (encode_safe _ H).
  cbn [bind]. now rewrite quote_from_bytes_safe.
Qed.

Lemma encode_utf8_returns (us : list Config.uchar) :
  forall pos,
    (exists bs, Config.encode_utf8 pos us = Return bs) <->
    forallb is_scalar us = true.
Proof.
  induction us as [ | [bytes | b] us IH]; intros pos;
    cbn [Config.encode_utf8 forallb is_scalar].
  - split; [ reflexivity | eauto ].
  - rewrite andb_true_l, <- (IH (pos + 1)).
    destruct (Config.encode_utf8 (pos + 1) us) as [rest | e]; cbn [bind].
    + split; eauto.
    + split; intros [bs H]; discriminate.
  - split; [ intros [bs H]; discriminate | discriminate ].
Qed.

Lemma encode_utf8_raises (us : list Config.uchar) :
  forall pos e,
    Config.encode_utf8 pos us = Raise e ->
    exn_cls e = ValueError /\ exn_str e <> Config.no_database_message.
Proof.
  induction us as [ | [bytes | b] us IH]; intros pos e;
    cbn [Config.encode_utf8].
  - discriminate.
  - destruct (Config.encode_utf8 (pos + 1) us) as [rest | e'] eqn:E;
      cbn [bind]; [ discriminate | ].
    intros H; inversion H; subst. eapply IH; eauto.
  - intros H; inversion H; subst. split; [ reflexivity | ].
    cbn [exn_str]. unfold Config.surrogates_not_allowed,
      Config.no_database_message.
    destruct (_ =? 1); cbn [append]; discriminate.
Qed.

Lemma quote_plus_returns (s : string) :
  (exists r, Config.quote_plus s = Return r) <-> well_formed_utf8 s = true.
Proof.
  unfold Config.quote_plus, well_formed_utf8.
  rewrite <- (encode_utf8_returns _ 0).
  destruct (Config.encode_utf8 0 _) as [bs | e]; cbn [bind].
  - split; eauto.
  - split; intros [r H]; discriminate.
Qed.

Lemma quote_plus_raises (s : string) (e : exn) :
  Config.quote_plus s = Raise e ->
  exn_cls e = ValueError /\ exn_str e <> Config.no_database_message.
Proof.
  unfold Config.quote_plus.
  destruct (Config.encode_utf8 0 _) as [bs | e'] eqn:E; cbn [bind];
    [ discriminate | ].
  intros H; inversion H; subst. eapply encode_utf8_raises; eauto.
Qed.

(** [get_database_url] once the components are the source. *)
Lemma database_url_from_components
      (environ : list (string * string))
      (server database username password : string) :
  (match environ_get "WEBSITE_SITE_NAME" environ with
   | Some _ => true
   | None => false
   end
   && env_truthy (environ_get "SQLAZURECONNSTR_DefaultConnection" environ))
  = false ->
  env_truthy (environ_get "DATABASE_URL" environ) = false ->
  environ_get "AZURE_SQL_SERVER" environ = Some server ->
  environ_get "AZURE_SQL_DATABASE" environ = Some database ->
  environ_get "AZURE_SQL_USERNAME" environ = Some username ->
  environ_get "AZURE_SQL_PASSWORD" environ = Some password ->
  forallb env_truthy
    [Some server; Some database; Some username; Some password] = true ->
  Config.get_database_url environ
  = (u <- Config.quote_plus username ;;
     p <- Config.quote_plus password ;;
     Return (components_url u p server database)).
Proof.
  intros Ha Hu Hs Hd Hn Hp Hall.
  unfold Config.get_database_url. rewrite Ha, Hu, Hs, Hd, Hn, Hp, Hall.
  reflexivity.
Qed.

(** X17: where the database URL comes from. The App Service connection
    string is used when WEBSITE_SITE_NAME is present, even empty, and the
    string is not empty; failing that, DATABASE_URL when it is not empty;
    failing that, the four AZURE_SQL components when none is missing or
    empty, the user name and the password going through [quote_plus].
    When none of the three applies, and only then, [get_database_url]
    raises the [ValueError] that names the variables. It raises nothing
    but a [ValueError]: that one, or, while the URL is built from the
    components, the [UnicodeEncodeError] of [quote_plus] for a user name
    or a password that is no UTF-8. *)
Theorem database_url_source :
  forall environ : list (string * string),
    let app_service :=
      match environ_get "WEBSITE_SITE_NAME" environ with
      | Some _ => true
      | None => false
      end
      && env_truthy (environ_get "SQLAZURECONNSTR_DefaultConnection" environ) in
    let explicit := env_truthy (environ_get "DATABASE_URL" environ) in
    let components :=
      forallb env_truthy
        [environ_get "AZURE_SQL_SERVER" environ;
         environ_get "AZURE_SQL_DATABASE" environ;
         environ_get "AZURE_SQL_USERNAME" environ;
         environ_get "AZURE_SQL_PASSWORD" environ] in
    (app_service = true ->
     exists v, environ_get "SQLAZURECONNSTR_DefaultConnection" environ = Some v
               /\ Config.get_database_url environ = Return v)
    /\
    (app_service = false -> explicit = true ->
     exists v, environ_get "DATABASE_URL" environ = Some v
               /\ Config.get_database_url environ = Return v)
    /\
    (app_service = false -> explicit = false -> components = true ->
     exists server database username password,
       environ_get "AZURE_SQL_SERVER" environ = Some server /\
       environ_get "AZURE_SQL_DATABASE" environ = Some database /\
       environ_get "AZURE_SQL_USERNAME" environ = Some username /\
       environ_get "AZURE_SQL_PASSWORD" environ = Some password /\
       Config.get_database_url environ
       = (u <- Config.quote_plus username ;;
          p <- Config.quote_plus password ;;
          Return (components_url u p server database)))
    /\
    (app_service || explicit || components = false <->
     Config.get_database_url environ
     = Raise (mkExn ValueError Config.no_database_message))
    /\
    (forall e, Config.get_database_url environ = Raise e ->
       exn_cls e = ValueError /\
       (e = mkExn ValueError Config.no_database_message \/
        app_service || explicit = false /\ components = true /\
        exists username password,
          environ_get "AZURE_SQL_USERNAME" environ = Some username /\
          environ_get "AZURE_SQL_PASSWORD" environ = Some password /\
          well_formed_utf8 username && well_formed_utf8 password = false)).
Proof.
  intros environ app_service explicit components.
  assert (Hnone : app_service || explicit || components = false ->
                  Config.get_database_url environ
                  = Raise (mkExn ValueError Config.no_database_message)).
  { subst app_service explicit components. intros H.
    apply orb_false_iff in H. destruct H as [H Hc].
    apply orb_false_iff in H. destruct H as [Ha Hu].
    unfold Config.get_database_url. rewrite Ha, Hu.
    destruct (environ_get "AZURE_SQL_SERVER" environ) as [server | ];
      [ | reflexivity ].
    destruct (environ_get "AZURE_SQL_DATABASE" environ) as [database | ];
      [ | reflexivity ].
    destruct (environ_get "AZURE_SQL_USERNAME" environ) as [username | ];
      [ | reflexivity ].
    destruct (environ_get "AZURE_SQL_PASSWORD" environ) as [password | ];
      [ | reflexivity ].
    rewrite Hc. reflexivity. }
  assert (Hcomp : app_service = false -> explicit = false ->
                  components = true ->
                  exists server database username password,
                    environ_get "AZURE_SQL_SERVER" environ = Some server /\
                    environ_get "AZURE_SQL_DATABASE" environ = Some database /\
                    environ_get "AZURE_SQL_USERNAME" environ = Some username /\
                    environ_get "AZURE_SQL_PASSWORD" environ = Some password /\
                    Config.get_database_url environ
                    = (u <- Config.quote_plus username ;;
                       p <- Config.quote_plus password ;;
                       Return (components_url u p server database))).
  { subst app_service explicit components. intros Ha Hu Hc.
    destruct (environ_get "AZURE_SQL_SERVER" environ) as [server | ] eqn:Es;
      [ | discriminate ].
    destruct (environ_get "AZURE_SQL_DATABASE" environ) as [database | ] eqn:Ed;
      [ | cbn [forallb env_truthy] in Hc; rewrite ?andb_false_r in Hc;
          discriminate ].
    destruct (environ_get "AZURE_SQL_USERNAME" environ) as [username | ] eqn:En;
      [ | cbn [forallb env_truthy] in Hc; rewrite ?andb_false_r in Hc;
          discriminate ].
    destruct (environ_get "AZURE_SQL_PASSWORD" environ) as [password | ] eqn:Ep;
      [ | cbn [forallb env_truthy] in Hc; rewrite ?andb_false_r in Hc;
          discriminate ].
    exists server, database, username, password.
    repeat (split; [ reflexivity | ]).
    now apply database_url_from_components. }
  assert (Happ : app_service = true ->
                 exists v,
                   environ_get "SQLAZURECONNSTR_DefaultConnection" environ
                   = Some v /\ Config.get_database_url environ = Return v).
  { subst app_service. intros Ha. unfold Config.get_database_url. rewrite Ha.
    apply andb_true_iff in Ha. destruct Ha as [_ Ec].
    destruct (environ_get "SQLAZURECONNSTR_DefaultConnection" environ)
      as [v | ]; [ eauto | discriminate ]. }
  assert (Hexp : app_service = false -> explicit = true ->
                 exists v, environ_get "DATABASE_URL" environ = Some v /\
                           Config.get_database_url environ = Return v).
  { subst app_service explicit. intros Ha Hu.
    unfold Config.get_database_url. rewrite Ha, Hu.
    destruct (environ_get "DATABASE_URL" environ) as [v | ];
      [ eauto | discriminate ]. }
  assert (Hraise : forall e, Config.get_database_url environ = Raise e ->
            exn_cls e = ValueError /\
            (e = mkExn ValueError Config.no_database_message \/
             app_service || explicit = false /\ components = true /\
             exists username password,
               environ_get "AZURE_SQL_USERNAME" environ = Some username /\
               environ_get "AZURE_SQL_PASSWORD" environ = Some password /\
               well_formed_utf8 username && well_formed_utf8 password = false)).
  { intros e He.
    destruct app_service eqn:Ea.
    { destruct (Happ eq_refl) as (v & _ & Hv). congruence. }
    destruct explicit eqn:Eu.
    { destruct (Hexp eq_refl eq_refl) as (v & _ & Hv). congruence. }
    destruct components eqn:Ec.
    - destruct (Hcomp eq_refl eq_refl eq_refl)
        as (server & database & username & password & _ & _ & Hn & Hp & Hg).
      rewrite Hg in He.
      destruct (Config.quote_plus username) as [u | eu] eqn:Qu; cbn [bind] in He.
      + destruct (Config.quote_plus password) as [pw | ep] eqn:Qp;
          cbn [bind] in He; [ discriminate | ].
        inversion He; subst ep.
        split; [ exact (proj1 (quote_plus_raises _ _ Qp)) | ].
        right. repeat split. exists username, password.
        repeat (split; [ assumption | ]).
        apply andb_false_iff. right.
        destruct (well_formed_utf8 password) eqn:W; [ | reflexivity ].
        apply quote_plus_returns in W. destruct W as [r W]. congruence.
      + inversion He; subst eu.
        split; [ exact (proj1 (quote_plus_raises _ _ Qu)) | ].
        right. repeat split. exists username, password.
        repeat (split; [ assumption | ]).
        apply andb_false_iff. left.
        destruct (well_formed_utf8 username) eqn:W; [ | reflexivity ].
        apply quote_plus_returns in W. destruct W as [r W]. congruence.
    - rewrite (Hnone eq_refl) in He. inversion He; subst e.
      split; [ reflexivity | now left ]. }
  split; [ exact Happ | ]. split; [ exact Hexp | ].
  split; [ exact Hcomp | ]. split; [ | exact Hraise ].
  split; [ exact Hnone | ].
  intros He.
  destruct app_service eqn:Ea.
  { destruct (Happ eq_refl) as (v & _ & Hv). congruence. }
  destruct explicit eqn:Eu.
  { destruct (Hexp eq_refl eq_refl) as (v & _ & Hv). congruence. }
  destruct components eqn:Ec; [ | reflexivity ].
  exfalso.
  destruct (Hcomp eq_refl eq_refl eq_refl)
    as (server & database & username & password & _ & _ & _ & _ & Hg).
  rewrite Hg in He.
  destruct (Config.quote_plus username) as [u | eu] eqn:Qu; cbn [bind] in He.
  - destruct (Config.quote_plus password) as [pw | ep] eqn:Qp;
      cbn [bind] in He; [ discriminate | ].
    inversion He; subst ep.
    exact (proj2 (quote_plus_raises _ _ Qp) eq_refl).
  - inversion He; subst eu.
    exact (proj2 (quote_plus_raises _ _ Qu) eq_refl).
Qed.

Lemma database_url_source_witness :
  exists v,
    environ_get "DATABASE_URL"
      [("WEBSITE_SITE_NAME", "app"); ("DATABASE_URL", "sqlite:///x.db")]
    = Some v /\
    Config.get_database_url
      [("WEBSITE_SITE_NAME", "app"); ("DATABASE_URL", "sqlite:///x.db")]
    = Return v.
Proof.
  exact (proj1 (proj2 (database_url_source
                         [("WEBSITE_SITE_NAME", "app");
                          ("DATABASE_URL", "sqlite:///x.db")]))
           eq_refl eq_refl).
Defined.

(** X18: the credentials in the URL built from the components. When the
    URL is to be put together from AZURE_SQL_SERVER, _DATABASE, _USERNAME
    and _PASSWORD, on App Service without a connection string as well as
    elsewhere, [get_database_url] returns exactly when the user name and
    the password are UTF-8. In the URL it returns the two have gone through
    [quote_plus]: what stands between [://] and [@] is made of letters,
    digits, [_.-~], [+] and [%] and one [:] between the two, so no
    character of a credential can end the credentials part or start a new
    part of the URL; a credential of safe characters alone is entered as it
    is. *)
Theorem database_url_credentials_escaped :
  forall (environ : list (string * string))
         (server database username password : string),
    (match environ_get "WEBSITE_SITE_NAME" environ with
     | Some _ => true
     | None => false
     end
     && env_truthy (environ_get "SQLAZURECONNSTR_DefaultConnection" environ))
    = false ->
    env_truthy (environ_get "DATABASE_URL" environ) = false ->
    environ_get "AZURE_SQL_SERVER" environ = Some server ->
    environ_get "AZURE_SQL_DATABASE" environ = Some database ->
    environ_get "AZURE_SQL_USERNAME" environ = Some username ->
    environ_get "AZURE_SQL_PASSWORD" environ = Some password ->
    server <> "" -> database <> "" -> username <> "" -> password <> "" ->
    ((exists url, Config.get_database_url environ = Return url) <->
     well_formed_utf8 username = true /\ well_formed_utf8 password = true)
    /\
    (forall url,
        Config.get_database_url environ = Return url ->
        exists u p : string,
          url = components_url u p server database
          /\ escaped u = true /\ delimiter_free u = true
          /\ escaped p = true /\ delimiter_free p = true
          /\ (forallb Config.always_safe (list_ascii_of_string username) = true
              -> u = username)
          /\ (forallb Config.always_safe (list_ascii_of_string password) = true
              -> p = password)).
Proof.
  intros environ server database username password
         Ha Hu Hs Hd Hn Hp Hs' Hd' Hn' Hp'.
  assert (Hall : forallb env_truthy
                   [Some server; Some database; Some username; Some password]
                 = true).
  { cbn [forallb env_truthy].
    apply String.eqb_neq in Hs', Hd', Hn', Hp'.
    rewrite Hs', Hd', Hn', Hp'. reflexivity. }
  rewrite (database_url_from_components environ server database username
             password Ha Hu Hs Hd Hn Hp Hall).
  split.
  - rewrite <- !quote_plus_returns.
    destruct (Config.quote_plus username) as [u | e]; cbn [bind].
    + destruct (Config.quote_plus password) as [p | e]; cbn [bind].
      * split; eauto.
      * split; [ intros [url H]; discriminate
               | intros [_ [r H]]; discriminate ].
    + split; [ intros [url H]; discriminate
             | intros [[r H] _]; discriminate ].
  - intros url.
    destruct (Config.quote_plus username) as [u | e] eqn:Qu; cbn [bind];
      [ | discriminate ].
    destruct (Config.quote_plus password) as [p | e] eqn:Qp; cbn [bind];
      [ | discriminate ].
    intros H; inversion H; subst url. exists u, p.
    destruct (quote_plus_escaped _ _ Qu) as [E1 E2].
    destruct (quote_plus_escaped _ _ Qp) as [E3 E4].
    repeat split; try assumption.
    + intros Hsafe. rewrite (quote_plus_safe _ Hsafe) in Qu. congruence.
    + intros Hsafe. rewrite (quote_plus_safe _ Hsafe) in Qp. congruence.
Qed.

Lemma database_url_credentials_escaped_witness :
  exists u p : string,
    Config.get_database_url
      [("WEBSITE_SITE_NAME", "app");
       ("AZURE_SQL_SERVER", "srv.database.windows.net");
       ("AZURE_SQL_DATABASE", "plm");
       ("AZURE_SQL_USERNAME", "admin@srv");
       ("AZURE_SQL_PASSWORD", "p:ss/w rd")]
    = Return (components_url u p "srv.database.windows.net" "plm")
    /\ escaped u = true /\ delimiter_free u = true
    /\ escaped p = true /\ delimiter_free p = true.
Proof.
  destruct (proj2 (database_url_credentials_escaped
                     [("WEBSITE_SITE_NAME", "app");
                      ("AZURE_SQL_SERVER", "srv.database.windows.net");
                      ("AZURE_SQL_DATABASE", "plm");
                      ("AZURE_SQL_USERNAME", "admin@srv");
                      ("AZURE_SQL_PASSWORD", "p:ss/w rd")]
                     "srv.database.windows.net" "plm" "admin@srv" "p:ss/w rd"
                     eq_refl eq_refl eq_refl eq_refl eq_refl eq_refl
                     ltac:(discriminate) ltac:(discriminate)
                     ltac:(discriminate) ltac:(discriminate))
              _ eq_refl)
    as (u & p & Hurl & E1 & E2 & E3 & E4 & _).
  exists u, p. rewrite <- Hurl. repeat split; assumption.
Defined.

(** X19: GET /azure-user always succeeds. Whatever the machine reports or
    raises, the answer has status 200 and carries [success: true], a
    [user], a [username], a [computer] and the [timestamp]. When the user
    name, the host name and the platform can be read, [username] and
    [computer] are the ones read and there is no [error]; when one of them
    raises, [username] and [computer] are 'unknown' and [error] holds the
    text of the exception. *)
Theorem azure_user_always_succeeds :
  forall (h : Utils.Host) (timestamp : string),
    exists body : list (string * json),
      Api.get_azure_user h timestamp = Api.Json 200 (JObj body) /\
      assoc "success" body = Some (JBool true) /\
      assoc "timestamp" body = Some (JStr timestamp) /\
      (exists u, assoc "user" body = Some (JStr u)) /\
      match (u <- Utils.getuser h ;; c <- Utils.node h ;;
             _ <- Utils.system h ;; Return (u, c)) with
      | Return (u, c) =>
          assoc "username" body = Some (JStr u) /\
          assoc "computer" body = Some (JStr c) /\
          assoc "error" body = None
      | Raise e =>
          assoc "username" body = Some (JStr "unknown") /\
          assoc "computer" body = Some (JStr "unknown") /\
          assoc "user" body = Some (JStr "Current User") /\
          assoc "error" body
          = Some (JStr ("Limited user info: " ++ exn_str e))
      end.
Proof.
  intros h timestamp.
  unfold Api.get_azure_user, Api.get_azure_user_body, Utils.get_user_info.
  destruct (Utils.getuser h) as [u | e]; cbn [bind];
    [ | eexists; (split; [ reflexivity | ]);
        repeat split; try reflexivity; eexists; reflexivity ].
  destruct (Utils.node h) as [c | e]; cbn [bind];
    [ | eexists; (split; [ reflexivity | ]);
        repeat split; try reflexivity; eexists; reflexivity ].
  destruct (Utils.system h) as [sys | e]; cbn [bind];
    [ | eexists; (split; [ reflexivity | ]);
        repeat split; try reflexivity; eexists; reflexivity ].
  eexists; (split; [ reflexivity | ]);
    repeat split; try reflexivity; eexists; reflexivity.
Qed.

(* ================================================================== *)
(** ** Further properties: the checks on a test result                 *)
(* ================================================================== *)

(** X20: the checks of [validate_test_result_data] on a request object, in
    their order. A missing or falsy outcome is answered 'Outcome is
    required' whatever the accuracy is; with a truthy outcome a missing or
    falsy accuracy is answered 'Accuracy is required'; with both truthy an
    accuracy that [float] refuses with [ValueError] or [TypeError] is
    answered 'Accuracy must be a valid number'. *)
Theorem test_result_first_failure :
  forall o : list (string * json),
    o <> [] ->
    let outcome := match assoc "outcome" o with Some v => v | None => JNull end in
    let accuracy := match assoc "accuracy" o with Some v => v | None => JNull end in
    (truthy outcome = false ->
     Utils.validate_test_result_data (JObj o)
     = Return (false, Some "Outcome is required", None))
    /\
    (truthy outcome = true -> truthy accuracy = false ->
     Utils.validate_test_result_data (JObj o)
     = Return (false, Some "Accuracy is required", None))
    /\
    (truthy outcome = true -> truthy accuracy = true ->
     forall e, to_float accuracy = Raise e ->
               is_instance e [ValueError; TypeError] = true ->
     Utils.validate_test_result_data (JObj o)
     = Return (false, Some "Accuracy must be a valid number", None)).
Proof.
  intros o Hne outcome accuracy. subst outcome accuracy.
  assert (Ht : truthy (JObj o) = true)
    by (destruct o; [ contradiction | reflexivity ]).
  unfold Utils.validate_test_result_data, get1, get. rewrite Ht.
  cbn [negb bind].
  split; [ | split ].
  - intros ->. reflexivity.
  - intros -> ->. reflexivity.
  - intros -> -> e -> ->. reflexivity.
Qed.

Lemma test_result_first_failure_witness :
  Utils.validate_test_result_data
    (JObj [("outcome", JStr ""); ("accuracy", JStr "abc")])
  = Return (false, Some "Outcome is required", None) /\
  Utils.validate_test_result_data
    (JObj [("outcome", JStr "Success"); ("accuracy", JArr [JInt 5])])
  = Return (false, Some "Accuracy must be a valid number", None).
Proof.
  split.
  - apply (proj1 (test_result_first_failure
                    [("outcome", JStr ""); ("accuracy", JStr "abc")]
                    ltac:(discriminate))).
    reflexivity.
  - apply (proj2 (proj2 (test_result_first_failure
                    [("outcome", JStr "Success"); ("accuracy", JArr [JInt 5])]
                    ltac:(discriminate)))
                 eq_refl eq_refl
                 (mkExn TypeError
                    "float() argument must be a string or a real number, not 'list'")
                 eq_refl eq_refl).
Defined.

(** X21: the outcome is checked for truth and for nothing else. Two
    request objects with the same accuracy and truthy outcomes, whatever
    these are (any str, a number, a list), get the same verdict; no payload
    is rejected for an outcome other than 'Success' or 'Failure'. *)
Theorem outcome_only_truth_matters :
  forall (o o' : list (string * json)) (v v' av : json),
    assoc "outcome" o = Some v -> truthy v = true ->
    assoc "outcome" o' = Some v' -> truthy v' = true ->
    assoc "accuracy" o = Some av -> assoc "accuracy" o' = Some av ->
    Utils.validate_test_result_data (JObj o)
    = Utils.validate_test_result_data (JObj o').
Proof.
  intros o o' v v' av Ho Hv Ho' Hv' Ha Ha'.
  rewrite (verdict_by_fields o v av Ho Hv Ha).
  rewrite (verdict_by_fields o' v' av Ho' Hv' Ha'). reflexivity.
Qed.

Lemma outcome_only_truth_matters_witness :
  Utils.validate_test_result_data
    (JObj [("outcome", JStr "Success"); ("accuracy", JStr "50")])
  = Utils.validate_test_result_data
      (JObj [("accuracy", JStr "50"); ("outcome", JArr [JInt 0])]).
Proof.
  exact (outcome_only_truth_matters
           [("outcome", JStr "Success"); ("accuracy", JStr "50")]
           [("accuracy", JStr "50"); ("outcome", JArr [JInt 0])]
           (JStr "Success") (JArr [JInt 0]) (JStr "50")
           eq_refl eq_refl eq_refl eq_refl eq_refl eq_refl).
Defined.
